(** * PodcastGenerator: selection engine, full-text resolver, sectioning,
      excerpting and red-flag rules

    A shallow embedding of the Python sources

      - [pipelines/step1/src/step1/{model,filters,scoring,select}.py]
      - [pipelines/step2/src/step2/{fetch_fulltext,text_clean,analyze}.py]

    together with the properties of the specification that concern them.

    Conventions of the embedding.
      - A Python [str] is a [string]; the character predicates and
        [lower()] are those of ASCII text (code points above 127 are
        neither letters, digits nor white space).
      - A Python [float] is a binary64 value wherever the code subtracts,
        multiplies, divides or compares with a decimal literal that
        binary64 does not hold: the numbers of the effect estimate are
        primitive floats, and the token budget is computed with [SFmul],
        the specification of the primitive product.  The scores are kept
        as rationals ([Q]): every constant the scorer adds is a small
        multiple of 0.5, so its sums are exact in binary64 as well.
      - A Python [int] is a [Z].
      - [Optional[T]] is [option T]; a [dict] read with [.get] is a record
        of optional fields.
      - The two [set]s of [deduplicate_articles] are [gset string].
      - Network access is a state monad over the log of the requests sent,
        reading the answers from an environment.  The recursion of the
        repository stage runs to a depth [fuel], the room that the
        recursion limit of the interpreter leaves it; at that depth the
        stage gives up with [None], as the swallowed [RecursionError]
        makes it do. *)

From Stdlib Require Import PrimFloat SpecFloat.
From Stdlib Require FloatOps.
From Stdlib Require Import QArith Qround Sorted Permutation.
From stdpp Require Import gmap strings list pretty.
From Stdlib Require Import Ascii String.

Set Warnings "-inexact-float".

Local Open Scope string_scope.
Local Open Scope list_scope.
Local Open Scope Z_scope.

(** ** Python string primitives *)

Module Py.

Definition is_digit (c : ascii) : bool :=
  let n := nat_of_ascii c in ((48 <=? n) && (n <=? 57))%nat.

(** [str.isspace] on ASCII: TAB, LF, VT, FF, CR, FS, GS, RS, US, SPACE. *)
Definition is_space (c : ascii) : bool :=
  let n := nat_of_ascii c in
  (((9 <=? n) && (n <=? 13)) || ((28 <=? n) && (n <=? 32)))%nat.

Definition lower_char (c : ascii) : ascii :=
  let n := nat_of_ascii c in
  if ((65 <=? n) && (n <=? 90))%nat then ascii_of_nat (n + 32) else c.

(** [s.lower()] *)
Fixpoint lower (s : string) : string :=
  match s with
  | EmptyString => EmptyString
  | String c s' => String (lower_char c) (lower s')
  end.

(** Longest prefix whose characters satisfy [p], and the rest. *)
Fixpoint span (p : ascii -> bool) (s : string) : string * string :=
  match s with
  | EmptyString => (EmptyString, EmptyString)
  | String c s' =>
      if p c then let '(a, b) := span p s' in (String c a, b)
      else (EmptyString, s)
  end.

Definition lstrip (s : string) : string := snd (span is_space s).

(** Drops the trailing white space: a character is kept when it is not
    white space or when something is kept after it. *)
Fixpoint rstrip (s : string) : string :=
  match s with
  | EmptyString => EmptyString
  | String c s' =>
      match rstrip s' with
      | EmptyString => if is_space c then EmptyString else String c EmptyString
      | r => String c r
      end
  end.

(** [s.strip()] *)
Definition strip (s : string) : string := rstrip (lstrip s).

(** [needle in hay] *)
Fixpoint contains (needle hay : string) : bool :=
  String.prefix needle hay ||
  match hay with
  | EmptyString => false
  | String _ hay' => contains needle hay'
  end.

(** Some suffix of [s] (the empty one included) satisfies [p]:
    the scan of [re.search] over the start positions. *)
Fixpoint any_suffix (p : string -> bool) (s : string) : bool :=
  p s ||
  match s with
  | EmptyString => false
  | String _ s' => any_suffix p s'
  end.

(** [sep.join(parts)] *)
Fixpoint join (sep : string) (parts : list string) : string :=
  match parts with
  | [] => EmptyString
  | [p] => p
  | p :: ps => p +:+ sep +:+ join sep ps
  end.

(** Truthiness of a [str] and of an [Optional[str]]. *)
Definition truthy (s : string) : bool :=
  match s with EmptyString => false | _ => true end.

Definition truthy_opt (o : option string) : bool :=
  match o with Some s => truthy s | None => false end.

(** [any(k in text for k in keywords)] *)
Definition any_in (keywords : list string) (text : string) : bool :=
  existsb (fun k => contains k text) keywords.

End Py.

(** ** step1/model.py *)

Record Article := mkArticle {
  title : string;
  abstract : string;
  authors : list string;
  journal : string;
  year : Z;
  pub_date : string;
  pmid : string;
  doi : option string;
  url : string;
  language : string;
  mesh_terms : list string;
  trial_design : string;
  sample_size : option Z;
  multicenter : option bool;
  intervention : string;
  comparator : string;
  primary_outcome : string;
  effect_summary : option string;
  score : option Q;
  rationale : option string
}.

(** ** step1/filters.py: [deduplicate_articles] *)

(** [article.doi if article.doi else article.pmid] *)
Definition identifier (a : Article) : string :=
  match doi a with
  | Some d => if Py.truthy d then d else pmid a
  | None => pmid a
  end.

(** State of the loop: [seen_dois], [seen_pmids], [unique_articles]. *)
Definition dedup_state : Type := gset string * gset string * list Article.

Definition dedup_step (st : dedup_state) (article : Article) : dedup_state :=
  let '(seen_dois, seen_pmids, unique_articles) := st in
  let ident := identifier article in
  if Py.truthy ident && bool_decide (ident ∉ seen_dois)
     && bool_decide (ident ∉ seen_pmids)
  then
    (match doi article with
     | Some d => if Py.truthy d then {[ d ]} ∪ seen_dois else seen_dois
     | None => seen_dois
     end,
     if Py.truthy (pmid article) then {[ pmid article ]} ∪ seen_pmids
     else seen_pmids,
     unique_articles ++ [article])
  else st.

Definition deduplicate_articles (articles : list Article) : list Article :=
  (foldl dedup_step (∅, ∅, []) articles).2.

(** The deduplication as the specification words it: a record is dropped
    exactly when an earlier record of the input has the same identity key,
    the key being the persistent identifier if present, else the source
    identifier. *)
Fixpoint dedup_by_identity_key_from (seen : list string) (l : list Article)
  : list Article :=
  match l with
  | [] => []
  | a :: l' =>
      if bool_decide (identifier a ∈ seen)
      then dedup_by_identity_key_from seen l'
      else a :: dedup_by_identity_key_from (identifier a :: seen) l'
  end.

Definition dedup_by_identity_key : list Article -> list Article :=
  dedup_by_identity_key_from [].

(** [b] carries [k] as its DOI or as its PMID (empty values are never
    recorded in the seen-sets). *)
Definition carries (b : Article) (k : string) : bool :=
  (Py.truthy_opt (doi b) && bool_decide (doi b = Some k))
  || (Py.truthy (pmid b) && bool_decide (pmid b = k)).

(** The test of the loop, read on the records retained so far. *)
Definition retained_after (kept : list Article) (a : Article) : bool :=
  Py.truthy (identifier a)
  && forallb (fun b => negb (carries b (identifier a))) kept.

(** ** step1/scoring.py *)

Definition HIGH_QUALITY_JOURNALS : list string :=
  [ "Anesthesiology";
    "British Journal of Anaesthesia";
    "Anesthesia and Analgesia";
    "Anaesthesiology";
    "European Journal of Anaesthesiology";
    "Journal of Clinical Anesthesia";
    "Anesthesia & Analgesia";
    "Anaesthesia";
    "Acta Anaesthesiologica Scandinavica";
    "Canadian Journal of Anesthesia";
    "Regional Anesthesia and Pain Medicine";
    "Pain Medicine";
    "Journal of Anesthesia";
    "Anaesthesia, Pain & Intensive Care";
    "Middle East Journal of Anesthesiology";
    "Korean Journal of Anesthesiology";
    "Saudi Journal of Anaesthesia";
    "Indian Journal of Anaesthesia";
    "Journal of Anaesthesiology Clinical Pharmacology";
    "A & A Case Reports" ].

Definition PATIENT_CENTERED_OUTCOMES : list string :=
  [ "pain"; "mortality"; "morbidity"; "complications"; "recovery";
    "discharge"; "quality of life"; "functional outcome";
    "patient satisfaction"; "length of stay"; "readmission";
    "adverse events"; "safety" ].

Definition CLINICALLY_ACTIONABLE_INTERVENTIONS : list string :=
  [ "airway"; "intubation"; "ventilation"; "regional"; "block";
    "analgesia"; "anesthetic"; "sedation"; "hemodynamic"; "fluid";
    "blood pressure"; "hypotension"; "hypertension"; "cardiac output" ].

Module Re.

(** What is left of [s] after [\d+\.?\d*], anchored at the start of [s].
    The three quantifiers are greedy and what follows them in both
    patterns of the scorer is not a digit and not a dot, so giving
    characters back never opens a new match: the greedy reading is the
    only one. *)
Definition after_number (s : string) : option string :=
  let '(d1, r1) := Py.span Py.is_digit s in
  match d1 with
  | EmptyString => None
  | _ =>
      match r1 with
      | String "."%char r2 => Some (snd (Py.span Py.is_digit r2))
      | _ => Some r1
      end
  end.

(** [re.search(r'\d+\.?\d*%', s)] *)
Definition percentage (s : string) : bool :=
  Py.any_suffix
    (fun t => match after_number t with
              | Some r => String.prefix "%" r
              | None => false
              end) s.

Definition direction_words : list string :=
  [ "increase"; "decrease"; "higher"; "lower"; "better"; "worse" ].

(** [re.search(r'\d+\.?\d*\s*(increase|decrease|higher|lower|better|worse)',
               s, re.IGNORECASE)] *)
Definition number_direction (s : string) : bool :=
  Py.any_suffix
    (fun t => match after_number t with
              | Some r =>
                  let w := Py.lower (snd (Py.span Py.is_space r)) in
                  existsb (fun d => String.prefix d w) direction_words
              | None => false
              end) s.

End Re.

(** [x in xs] on a list of strings *)
Definition str_in_list (x : string) (xs : list string) : bool :=
  existsb (String.eqb x) xs.

Definition score_article (article : Article) : Q * string :=
  let score := 0.0%Q in
  let rationale_parts : list string := [] in
  (* Sample size scoring *)
  let '(score, rationale_parts) :=
    match sample_size article with
    | Some n =>
        if n =? 0 then (score, rationale_parts)
        else if n >=? 500
        then ((score + 3.0)%Q, rationale_parts ++ ["large sample size (>500)"])
        else if n >=? 100
        then ((score + 1.5)%Q, rationale_parts ++ ["moderate sample size (>100)"])
        else (score, rationale_parts)
    | None => (score, rationale_parts)
    end in
  (* Multicenter study *)
  let '(score, rationale_parts) :=
    match multicenter article with
    | Some true => ((score + 1.0)%Q, rationale_parts ++ ["multicenter study"])
    | _ => (score, rationale_parts)
    end in
  (* Patient-centered primary outcome *)
  let primary_outcome_lower := Py.lower (primary_outcome article) in
  let '(score, rationale_parts) :=
    if Py.any_in PATIENT_CENTERED_OUTCOMES primary_outcome_lower
    then ((score + 1.5)%Q, rationale_parts ++ ["patient-centered outcome"])
    else (score, rationale_parts) in
  (* Clinically actionable intervention *)
  let intervention_lower := Py.lower (intervention article) in
  let '(score, rationale_parts) :=
    if Py.any_in CLINICALLY_ACTIONABLE_INTERVENTIONS intervention_lower
    then ((score + 1.5)%Q,
          rationale_parts ++ ["clinically actionable intervention"])
    else (score, rationale_parts) in
  (* High-quality venue *)
  let '(score, rationale_parts) :=
    if str_in_list (journal article) HIGH_QUALITY_JOURNALS
    then ((score + 2.0)%Q, rationale_parts ++ ["high-quality journal"])
    else (score, rationale_parts) in
  (* Clear effect direction *)
  let '(score, rationale_parts) :=
    match effect_summary article with
    | Some es =>
        if Py.truthy es && (0 <? Z.of_nat (String.length (Py.strip es)))
           && (Re.percentage es || Re.number_direction es)
        then ((score + 1.0)%Q, rationale_parts ++ ["quantified effect"])
        else (score, rationale_parts)
    | None => (score, rationale_parts)
    end in
  let rationale :=
    match rationale_parts with
    | [] => "no standout features"
    | _ => Py.join "; " rationale_parts
    end in
  (score, rationale).

(** ** step1/select.py *)

(** An entry of the selection history, as [record_selected_article] writes
    it and [json.load] reads it back; [entry.get(k)] is [None] for a key
    that is missing or null. *)
Record HistoryEntry := mkEntry {
  h_title : option string;
  h_doi : option string;
  h_pmid : option string;
  h_journal : option string;
  h_date_selected : option string;
  h_score : option Q;
  h_rationale : option string
}.

(** [article.doi or article.pmid] *)
Definition doi_or_pmid (article : Article) : string :=
  match doi article with
  | Some d => if Py.truthy d then d else pmid article
  | None => pmid article
  end.

(** The body of the [for entry in history] loop: does [entry] match? *)
Definition entry_matches (article : Article) (entry : HistoryEntry) : bool :=
  (Py.truthy_opt (doi article) && bool_decide (h_doi entry = doi article))
  || (Py.truthy (pmid article)
      && bool_decide (h_pmid entry = Some (pmid article))).

Definition is_article_previously_selected
  (article : Article) (history : list HistoryEntry) : bool :=
  let article_identifier := doi_or_pmid article in
  if negb (Py.truthy article_identifier) then false
  else existsb (entry_matches article) history.

(** [x.score or 0.0], the sort key *)
Definition score_key (x : Article) : Q :=
  match score x with
  | Some q => q
  | None => 0.0%Q
  end.

(** [sorted(xs, key=key, reverse=True)]: the stable descending sort.  An
    element goes in front of the first one whose key is not greater than
    its own, so that equal keys keep their input order. *)
Section Sorted.
Context {A : Type} (key : A -> Q).

Fixpoint insert_desc (x : A) (l : list A) : list A :=
  match l with
  | [] => [x]
  | y :: l' =>
      if Qle_bool (key y) (key x) then x :: y :: l'
      else y :: insert_desc x l'
  end.

Fixpoint sorted_desc (l : list A) : list A :=
  match l with
  | [] => []
  | x :: l' => insert_desc x (sorted_desc l')
  end.
End Sorted.

Definition previously_selected_note : string :=
  " (Note: This article has been previously selected)".

Section Select.
(** [str(x)] of a float inside an f-string: the interpreter's formatting,
    not part of the repository. *)
Variable float_str : Q -> string.

Definition fmt_score (o : option Q) : string :=
  match o with Some q => float_str q | None => "None" end.

Definition fmt_opt (o : option string) : string :=
  match o with Some s => s | None => "None" end.

(** The rationale both non-annotated returns build. *)
Definition base_rationale (top_article : Article) : string :=
  "Selected article with highest score (" +:+ fmt_score (score top_article)
  +:+ ") based on: " +:+ fmt_opt (rationale top_article).

(** [stored] is what [load_selection_history()] returns. *)
Definition select_top_article
  (stored : list HistoryEntry) (articles : list Article)
  (avoid_history : bool) : option (Article * string) :=
  match articles with
  | [] => None
  | _ =>
      let history := if avoid_history then stored else [] in
      let sorted_articles := sorted_desc score_key articles in
      if negb avoid_history then
        match sorted_articles with
        | top_article :: _ => Some (top_article, base_rationale top_article)
        | [] => None
        end
      else
        match
          find (fun article =>
                  negb (is_article_previously_selected article history))
               sorted_articles
        with
        | Some top_article => Some (top_article, base_rationale top_article)
        | None =>
            match sorted_articles with
            | top_article :: _ =>
                Some (top_article,
                      base_rationale top_article +:+ previously_selected_note)
            | [] => None
            end
        end
  end.
End Select.

(** The identity key of the specification: DOI if present, else PMID. *)
Definition identity_key (a : Article) : string := identifier a.

(** The identity key of [a] is the [doi] or the [pmid] of some entry. *)
Definition key_in_history (a : Article) (history : list HistoryEntry) : bool :=
  existsb (fun e => bool_decide (h_doi e = Some (identity_key a))
                    || bool_decide (h_pmid e = Some (identity_key a)))
          history.

(** ** step1/config.py *)

Module Config.

(** The fields of [Settings]; [settings] is read by the filters and by
    [widen_search_if_needed]. *)
Record Settings := mkSettings {
  recent_days : Z;
  email_for_crossref : option string;
  max_results : Z;
  allow_protocols : bool;
  allow_pediatric : bool;
  extra_query : option string
}.

End Config.

(** ** step1/filters.py: the predicates and [filter_articles] *)

Definition title_rct_terms : list string :=
  [ "randomized"; "randomised"; "randomized controlled trial"; "rct" ].

Definition rct_keywords : list string :=
  [ "randomized"; "randomised"; "randomly assigned";
    "controlled trial"; "clinical trial"; "double blind";
    "placebo"; "allocation"; "intervention group" ].

Definition is_rct_article (article : Article) : bool :=
  if existsb (fun term => Py.contains (Py.lower term) (Py.lower (title article)))
             title_rct_terms
  then true
  else
    let abstract_lower := Py.lower (abstract article) in
    let rct_count :=
      Z.of_nat (List.length
                  (List.filter (fun keyword => Py.contains keyword abstract_lower)
                               rct_keywords)) in
    rct_count >=? 2.

Definition human_keywords : list string :=
  [ "human"; "clinical"; "patient"; "volunteer"; "randomized controlled trial" ].

Definition animal_keywords : list string :=
  [ "mouse"; "rat"; "animal"; "mice"; "rodent" ].

(** [article.title + " " + article.abstract], lowered *)
Definition title_and_abstract (article : Article) : string :=
  Py.lower (title article +:+ " " +:+ abstract article).

Definition is_human_study (article : Article) : bool :=
  let mesh_text := Py.lower (Py.join " " (mesh_terms article)) in
  let mesh_human :=
    existsb (fun term => Py.contains (Py.lower term) mesh_text) human_keywords in
  let mesh_animal :=
    existsb (fun term => Py.contains (Py.lower term) mesh_text) animal_keywords in
  if mesh_animal && negb mesh_human then false
  else
    let text := title_and_abstract article in
    let has_human_terms := Py.any_in human_keywords text in
    let has_animal_terms := Py.any_in animal_keywords text in
    if has_animal_terms && negb has_human_terms then false
    else has_human_terms || negb has_animal_terms.

Definition anesthesia_keywords : list string :=
  [ "anesthesia"; "anaesthesia"; "anesthesiology"; "perioperative";
    "peri-operative"; "regional anesthesia"; "airway"; "intubation";
    "nerve block"; "analgesia"; "surgery"; "operative"; "surgical" ].

Definition is_anesthesia_related (article : Article) : bool :=
  let mesh_match :=
    existsb (fun term => Py.any_in anesthesia_keywords (Py.lower term))
            (mesh_terms article) in
  let text := title_and_abstract article in
  let text_match := Py.any_in anesthesia_keywords text in
  mesh_match || text_match.

Definition is_preferred_language (article : Article) : bool :=
  str_in_list (Py.lower (language article)) [ "english"; "french" ].

Definition protocol_keywords : list string :=
  [ "protocol"; "study protocol"; "letter"; "editorial";
    "commentary"; "correspondence"; "discussion" ].

Definition is_protocol_or_letter
  (settings : Config.Settings) (article : Article) : bool :=
  if Config.allow_protocols settings then false
  else Py.any_in protocol_keywords (title_and_abstract article).

Definition pediatric_keywords : list string :=
  [ "pediatric"; "paediatric"; "child"; "infant"; "neonate";
    "newborn"; "adolescent"; "children"; "kids"; "under 18" ].

Definition is_pediatric_only
  (settings : Config.Settings) (article : Article) : bool :=
  if Config.allow_pediatric settings then false
  else Py.any_in pediatric_keywords (title_and_abstract article).

(** The test of the loop of [filter_articles]. *)
Definition passes_filters (settings : Config.Settings) (article : Article)
  : bool :=
  is_rct_article article
  && is_human_study article
  && is_anesthesia_related article
  && is_preferred_language article
  && negb (is_protocol_or_letter settings article)
  && negb (is_pediatric_only settings article).

Definition filter_articles
  (settings : Config.Settings) (articles : list Article) : list Article :=
  let filtered_articles := List.filter (passes_filters settings) articles in
  deduplicate_articles filtered_articles.

(** ** step1/scoring.py: [score_articles] and [sort_articles_by_score] *)

(** [article.score = score; article.rationale = rationale] *)
Definition set_scoring (article : Article) (new_score : Q)
  (new_rationale : string) : Article :=
  mkArticle (title article) (abstract article) (authors article)
            (journal article) (year article) (pub_date article)
            (pmid article) (doi article) (url article) (language article)
            (mesh_terms article) (trial_design article) (sample_size article)
            (multicenter article) (intervention article) (comparator article)
            (primary_outcome article) (effect_summary article)
            (Some new_score) (Some new_rationale).

Definition score_articles (articles : list Article) : list Article :=
  map (fun article =>
         let '(new_score, new_rationale) := score_article article in
         set_scoring article new_score new_rationale)
      articles.

Definition sort_articles_by_score (articles : list Article) : list Article :=
  sorted_desc score_key articles.

(** ** step1/select.py: the history file *)

(** [data/selection_history.json]: missing, unreadable (it does not open
    or does not parse), or holding a list of entries. *)
Inductive HistoryFile :=
| Missing
| Unreadable
| Holds (entries : list HistoryEntry).

Definition load_selection_history (file : HistoryFile) : list HistoryEntry :=
  match file with
  | Holds entries => entries
  | Missing | Unreadable => []
  end.

(** [writable]: the directory can be made and the file opened for writing;
    otherwise the exception is logged and the file is left as it was. *)
Definition save_selection_history
  (writable : bool) (history : list HistoryEntry) (file : HistoryFile)
  : HistoryFile :=
  if writable then Holds history else file.

Definition history_entry (article : Article) (why : string) : HistoryEntry :=
  mkEntry (Some (title article)) (doi article) (Some (pmid article))
          (Some (journal article)) (Some (pub_date article)) (score article)
          (Some why).

Definition record_selected_article
  (writable : bool) (article : Article) (why : string) (file : HistoryFile)
  : HistoryFile :=
  let history := load_selection_history file in
  let entry := history_entry article why in
  let history := history ++ [entry] in
  save_selection_history writable history file.

Definition widen_search_if_needed
  (settings : Config.Settings) (articles : list Article) : bool :=
  (Z.of_nat (List.length articles) =? 0) && (Config.recent_days settings <? 365).

(** ** step2/fetch_fulltext.py *)

Module Fetch.

Record FullTextResult := mkResult {
  route : string;
  pmcid : option string;
  oa_pdf_url : option string;
  publisher_url : option string;
  html : option string;
  pdf_bytes : option string;
  abstract_text : option string
}.

(** The analysis settings, a [dict] read with [.get]. *)
Record Settings := mkSettings {
  fulltext_override : option string;
  allow_network : option bool;
  unpaywall_email : option string;
  abstract_only_ok : option bool;
  timeout_seconds : option Z;
  user_agent : option string
}.

(** What [response.json()] yields, through the fields the stages read:
    the search answer of Europe PMC, the record of Unpaywall, the work of
    Crossref.  A stage that is handed the shape of another service finds
    none of its keys. *)
Record FullTextUrl := mkLink {
  documentType : option string;
  link_url : option string
}.

Record SearchResult := mkSearchResult {
  result_pmcid : option string;
  fullTextUrl : list FullTextUrl;
  abstractText : option string
}.

Record OaLocation := mkLocation {
  loc_pdf_url : option string;
  loc_url : option string
}.

Inductive Json :=
| EuropePmcSearch (result : list SearchResult)
| UnpaywallRecord (best_oa_location : option OaLocation)
| CrossrefWork (message_url : option string).

Record Response := mkResponse {
  status_code : Z;
  content_type : option string;   (* the [content-type] header *)
  text : string;
  content : string;
  json : option Json              (* [None]: [response.json()] raises *)
}.

(** A call of [requests.get] *)
Record Request := mkRequest {
  req_url : string;
  req_user_agent : string;
  req_timeout : Z
}.

(** Outcome of a stage: [Done] with what it returns, or [OutOfFuel] for a
    [RecursionError] that leaves it.  Every stage catches its exceptions
    ([except Exception], which [RecursionError] is), so none of them
    produces [OutOfFuel]. *)
Inductive outcome (A : Type) :=
| Done (a : A)
| OutOfFuel.
Arguments Done {A} a.
Arguments OutOfFuel {A}.

(** Computations that send requests: the state is the log of the
    requests sent so far. *)
Definition M (A : Type) : Type := list Request -> A * list Request.

Definition ret {A} (a : A) : M A := fun log => (a, log).

Definition bind {A B} (m : M A) (k : A -> M B) : M B :=
  fun log => let '(a, log') := m log in k a log'.

Notation "'let*' x ':=' m 'in' k" := (bind m (fun x => k))
  (at level 10, x name, m at level 100, k at level 200).

(** Bind on outcomes: an error that left its stage propagates. *)
Definition bind_done {A B} (m : M (outcome A)) (k : A -> M (outcome B))
  : M (outcome B) :=
  bind m (fun o => match o with Done a => k a | OutOfFuel => ret OutOfFuel end).

Section Network.
(** The network: the answer to a request given the requests sent
    before it; [None] when [requests.get] raises. *)
Variable net : list Request -> Request -> option Response.
(** [os.environ.get("HTTP_USER_AGENT")] *)
Variable env_user_agent : option string.

Definition _make_request
  (url : string) (settings : Settings)
  (expected_content_type : option string) : M (option Response) :=
  fun log =>
    let timeout := default 30 (timeout_seconds settings) in
    let user_agent :=
      if Py.truthy_opt (user_agent settings)
      then default "" (user_agent settings)
      else if Py.truthy_opt env_user_agent
           then default "" env_user_agent
           else "Mozilla/5.0 ( compatible; podcast-rct/1.0 )" in
    let request := mkRequest url user_agent timeout in
    match net log request with
    | None => (None, log ++ [request])
    | Some response =>
        if Py.truthy_opt expected_content_type
           && negb (Py.contains (default "" expected_content_type)
                                (default "" (content_type response)))
        then (None, log ++ [request])
        else (Some response, log ++ [request])
    end.

(** [response and response.status_code == 200] *)
Definition ok200 (response : option Response) : option Response :=
  match response with
  | Some r => if status_code r =? 200 then Some r else None
  | None => None
  end.

Definition search_url : string :=
  "https://www.ebi.ac.uk/europepmc/webservices/rest/search".

(** The first result of a search answer, when the body parses, is a
    search answer and has results. *)
Definition first_result (response : Response) : option SearchResult :=
  match json response with
  | Some (EuropePmcSearch (r :: _)) => Some r
  | _ => None
  end.

Definition has_identifier (doi pmid : option string) : bool :=
  Py.truthy_opt doi || Py.truthy_opt pmid.

Definition _get_pmcid_from_identifiers
  (doi pmid : option string) (settings : Settings) : M (option string) :=
  if negb (has_identifier doi pmid) then ret None
  else
    let* response := _make_request search_url settings None in
    match ok200 response with
    | Some r =>
        match first_result r with
        | Some res => ret (result_pmcid res)
        | None => ret None
        end
    | None => ret None
    end.

Definition pmc_pdf_url (pmcid : string) : string :=
  "https://www.ncbi.nlm.nih.gov/pmc/articles/" +:+ pmcid +:+ "/pdf/".

Definition pmc_html_url (pmcid : string) : string :=
  "https://www.ncbi.nlm.nih.gov/pmc/articles/" +:+ pmcid +:+ "/".

(** [fuel] is the depth that the recursion limit of the interpreter
    leaves to the stage.  The activation that has none left raises
    [RecursionError] at its first call; the error is caught by the
    [except Exception] of the stage, which then returns [None], and so do,
    by their [return _fetch_pmc(...)], the activations that wait for it. *)
Fixpoint _fetch_pmc
  (fuel : nat) (doi pmid pmcid : option string) (settings : Settings)
  : M (outcome (option FullTextResult)) :=
  match fuel with
  | O => ret (Done None)
  | S fuel' =>
      (* If we don't have PMCID, try to get it from identifiers *)
      let from_identifiers : M (outcome (option FullTextResult)) :=
        let* pmcid_from_identifiers :=
          _get_pmcid_from_identifiers doi pmid settings in
        if Py.truthy_opt pmcid_from_identifiers
        then _fetch_pmc fuel' doi pmid pmcid_from_identifiers settings
        else ret (Done None) in
      match pmcid with
      | Some id =>
          if Py.truthy id then
            let pdf_url := pmc_pdf_url id in
            let* response :=
              _make_request pdf_url settings (Some "application/pdf") in
            match ok200 response with
            | Some r =>
                ret (Done (Some (mkResult "pmc" pmcid (Some pdf_url) None
                                          None (Some (content r)) None)))
            | None =>
                let html_url := pmc_html_url id in
                let* response :=
                  _make_request html_url settings (Some "text/html") in
                match ok200 response with
                | Some r =>
                    ret (Done (Some (mkResult "pmc" pmcid None None
                                              (Some (text r)) None None)))
                | None => from_identifiers
                end
            end
          else from_identifiers
      | None => from_identifiers
      end
  end.

Definition _fetch_unpaywall (doi : option string) (settings : Settings)
  : M (option FullTextResult) :=
  if negb (Py.truthy_opt (unpaywall_email settings)) then ret None
  else
    let url := "https://api.unpaywall.org/v2/" +:+ default "None" doi in
    let* response := _make_request url settings None in
    match ok200 response with
    | Some r =>
        match json r with
        | Some (UnpaywallRecord (Some best)) =>
            let from_url : M (option FullTextResult) :=
              if Py.truthy_opt (loc_url best) then
                let* html_response :=
                  _make_request (default "" (loc_url best)) settings
                                (Some "text/html") in
                match ok200 html_response with
                | Some h =>
                    ret (Some (mkResult "unpaywall" None None (loc_url best)
                                        (Some (text h)) None None))
                | None => ret None
                end
              else ret None in
            if Py.truthy_opt (loc_pdf_url best) then
              let* pdf_response :=
                _make_request (default "" (loc_pdf_url best)) settings
                              (Some "application/pdf") in
              match ok200 pdf_response with
              | Some p =>
                  ret (Some (mkResult "unpaywall" None (loc_pdf_url best)
                                      None None (Some (content p)) None))
              | None => from_url
              end
            else from_url
        | _ => ret None
        end
    | None => ret None
    end.

(** The [for link in full_text_links] loop: the first link that can be
    fetched is returned. *)
Fixpoint try_links
  (pmcid : option string) (links : list FullTextUrl) (settings : Settings)
  : M (option FullTextResult) :=
  match links with
  | [] => ret None
  | link :: links' =>
      if bool_decide (documentType link = Some "pdf") then
        if Py.truthy_opt (link_url link) then
          let* pdf_response :=
            _make_request (default "" (link_url link)) settings
                          (Some "application/pdf") in
          match ok200 pdf_response with
          | Some p =>
              ret (Some (mkResult "europempc" pmcid (link_url link) None
                                  None (Some (content p)) None))
          | None => try_links pmcid links' settings
          end
        else try_links pmcid links' settings
      else if bool_decide (documentType link = Some "html") then
        if Py.truthy_opt (link_url link) then
          let* html_response :=
            _make_request (default "" (link_url link)) settings
                          (Some "text/html") in
          match ok200 html_response with
          | Some h =>
              ret (Some (mkResult "europempc" pmcid None None
                                  (Some (text h)) None None))
          | None => try_links pmcid links' settings
          end
        else try_links pmcid links' settings
      else try_links pmcid links' settings
  end.

Definition _fetch_europe_pmc
  (fuel : nat) (doi pmid : option string) (settings : Settings)
  : M (outcome (option FullTextResult)) :=
  if negb (has_identifier doi pmid) then ret (Done None)
  else
    let* response := _make_request search_url settings None in
    match ok200 response with
    | Some r =>
        match first_result r with
        | Some res =>
            let* linked :=
              try_links (result_pmcid res) (fullTextUrl res) settings in
            match linked with
            | Some found => ret (Done (Some found))
            | None =>
                (* If we have PMCID, try PMC directly *)
                if Py.truthy_opt (result_pmcid res)
                then _fetch_pmc fuel doi pmid (result_pmcid res) settings
                else ret (Done None)
            end
        | None => ret (Done None)
        end
    | None => ret (Done None)
    end.

Definition _fetch_crossref (doi : string) (settings : Settings)
  : M (option FullTextResult) :=
  let url := "https://api.crossref.org/works/" +:+ doi in
  let* response := _make_request url settings None in
  match ok200 response with
  | Some r =>
      match json r with
      | Some (CrossrefWork (Some publisher)) =>
          if Py.truthy publisher then
            let* html_response :=
              _make_request publisher settings (Some "text/html") in
            match ok200 html_response with
            | Some h =>
                if Py.contains "application/pdf"
                               (default "" (content_type h))
                then ret (Some (mkResult "publisher" None None
                                         (Some publisher) None
                                         (Some (content h)) None))
                else ret (Some (mkResult "publisher" None None
                                         (Some publisher) (Some (text h))
                                         None None))
            | None => ret None
            end
          else ret None
      | _ => ret None
      end
  | None => ret None
  end.

Definition _fetch_abstract (doi pmid : option string) (settings : Settings)
  : M (option FullTextResult) :=
  if negb (has_identifier doi pmid) then ret None
  else
    let* response := _make_request search_url settings None in
    match ok200 response with
    | Some r =>
        match first_result r with
        | Some res =>
            if Py.truthy_opt (abstractText res)
            then ret (Some (mkResult "abstract" None None None None None
                                     (abstractText res)))
            else ret None
        | None => ret None
        end
    | None => ret None
    end.

(** [if result: return result], else go on with [next]. *)
Definition or_else
  (stage : M (outcome (option FullTextResult)))
  (next : M (outcome (option FullTextResult)))
  : M (outcome (option FullTextResult)) :=
  bind_done stage
    (fun result => match result with
                   | Some r => ret (Done (Some r))
                   | None => next
                   end).

Definition lift {A} (m : M A) : M (outcome A) :=
  bind m (fun a => ret (Done a)).

Definition resolve_fulltext
  (fuel : nat) (doi pmid : option string) (settings : Settings)
  : M (outcome (option FullTextResult)) :=
  (* If fulltext_override provided, use it (route="override") *)
  if Py.truthy_opt (fulltext_override settings) then
    ret (Done (Some (mkResult "override" None None None
                              (fulltext_override settings) None None)))
  (* Honor allow_network setting *)
  else if negb (default true (allow_network settings)) then ret (Done None)
  else
    (* 1. PubMed Central (PMC) via PMCID or via Europe PMC *)
    or_else (_fetch_pmc fuel doi pmid None settings)
    (* 2. Unpaywall (requires unpaywall_email) *)
    (or_else (if Py.truthy_opt (unpaywall_email settings)
              then lift (_fetch_unpaywall doi settings)
              else ret (Done None))
    (* 3. Europe PMC REST API *)
    (or_else (_fetch_europe_pmc fuel doi pmid settings)
    (* 4. Crossref (DOI -> publisher landing page) *)
    (or_else (if Py.truthy_opt doi
              then lift (_fetch_crossref (default "" doi) settings)
              else ret (Done None))
    (* 5. Fallback to abstract if allowed *)
    (if default true (abstract_only_ok settings)
     then lift (_fetch_abstract doi pmid settings)
     else ret (Done None))))).

End Network.

End Fetch.

(** ** step2/text_clean.py *)

Module TextClean.

Definition LF : string := String (ascii_of_nat 10) EmptyString.

(** [s.split(sep)] for a non-empty [sep]: [skip] counts the characters of
    a separator just recognised that are still to be passed over, [cur]
    holds the current piece, last character first. *)
Fixpoint split_go (sep : string) (skip : nat) (cur : list ascii) (s : string)
  : list string :=
  match s with
  | EmptyString => [string_of_list_ascii (rev cur)]
  | String c s' =>
      match skip with
      | S k => split_go sep k cur s'
      | O =>
          if String.prefix sep s
          then string_of_list_ascii (rev cur)
               :: split_go sep (String.length sep - 1) [] s'
          else split_go sep 0 (c :: cur) s'
      end
  end.

Definition split (sep s : string) : list string := split_go sep 0 [] s.

(** [s.count(sub)] for a non-empty [sub]: occurrences that do not
    overlap, from the left. *)
Fixpoint count_go (sub : string) (skip : nat) (s : string) : Z :=
  match s with
  | EmptyString => 0
  | String c s' =>
      match skip with
      | S k => count_go sub k s'
      | O =>
          if String.prefix sub s
          then 1 + count_go sub (String.length sub - 1) s'
          else count_go sub 0 s'
      end
  end.

Definition count (sub s : string) : Z := count_go sub 0 s.

(** [s[:n]] for [n >= 0] *)
Fixpoint take (n : nat) (s : string) : string :=
  match n, s with
  | S n', String c s' => String c (take n' s')
  | _, _ => EmptyString
  end.

Inductive SectionName :=
| abstract | introduction | methods | results | discussion | conclusion.

#[global] Instance SectionName_eq_dec : EqDecision SectionName.
Proof. solve_decision. Defined.

Definition section_name (n : SectionName) : string :=
  match n with
  | abstract => "abstract"
  | introduction => "introduction"
  | methods => "methods"
  | results => "results"
  | discussion => "discussion"
  | conclusion => "conclusion"
  end.

(** [SectionedText] and [ExcerptedText]: one text per section. *)
Record SectionedText := mkSections {
  s_abstract : string;
  s_introduction : string;
  s_methods : string;
  s_results : string;
  s_discussion : string;
  s_conclusion : string
}.

Definition get_section (st : SectionedText) (n : SectionName) : string :=
  match n with
  | abstract => s_abstract st
  | introduction => s_introduction st
  | methods => s_methods st
  | results => s_results st
  | discussion => s_discussion st
  | conclusion => s_conclusion st
  end.

(** [sections[n] = v] *)
Definition set_section (st : SectionedText) (n : SectionName) (v : string)
  : SectionedText :=
  mkSections
    (if decide (n = abstract) then v else s_abstract st)
    (if decide (n = introduction) then v else s_introduction st)
    (if decide (n = methods) then v else s_methods st)
    (if decide (n = results) then v else s_results st)
    (if decide (n = discussion) then v else s_discussion st)
    (if decide (n = conclusion) then v else s_conclusion st).

Definition empty_sections : SectionedText := mkSections "" "" "" "" "" "".

Definition SECTION_SYNONYMS : list (SectionName * list string) :=
  [ (abstract, ["abstract"; "summary"]);
    (introduction, ["introduction"; "background"; "rationale"; "purpose"]);
    (methods, ["methods"; "materials and methods"; "patients and methods";
               "experimental procedures"; "study design"]);
    (results, ["results"; "findings"; "outcome"; "outcomes"]);
    (discussion, ["discussion"; "interpretation"; "clinical implications";
                  "limitations"]);
    (conclusion, ["conclusion"; "conclusions"; "summary"]) ].

Definition KEY_TERMS : list string :=
  [ "effect size"; "confidence interval"; "p-value"; "subgroup";
    "blinding"; "allocation"; "sample size"; "attrition";
    "primary outcome"; "secondary outcome"; "hypothesis" ].

(** [re.sub(r'^\d+\s*', '', s)]: leading digits, then white space. *)
Definition drop_leading_number (s : string) : string :=
  let '(d, r) := Py.span Py.is_digit s in
  match d with
  | EmptyString => s
  | _ => snd (Py.span Py.is_space r)
  end.

(** [\s*[:\-].*$] anchored at the start of [s]: white space, a colon or a
    hyphen, then anything but a line feed up to the end.  (The subject
    never ends in a line feed: it was stripped.) *)
Definition trailer_here (s : string) : bool :=
  match snd (Py.span Py.is_space s) with
  | String c r =>
      (Ascii.eqb c ":" || Ascii.eqb c "-") && negb (Py.contains LF r)
  | EmptyString => false
  end.

(** [re.sub(r'\s*[:\-].*$', '', s)]: the leftmost match runs to the end
    of the string, so it is the only one. *)
Fixpoint drop_trailer (s : string) : string :=
  if trailer_here s then EmptyString
  else match s with
       | EmptyString => EmptyString
       | String c s' => String c (drop_trailer s')
       end.

Definition normalize_header (header : string) : string :=
  let header_lower := Py.strip (Py.lower header) in
  let header_lower := drop_leading_number header_lower in
  drop_trailer header_lower.

(** One turn of [for section, synonyms in SECTION_SYNONYMS.items()] *)
Definition section_matches (header_lower : string)
  (entry : SectionName * list string) : bool :=
  let '(section, synonyms) := entry in
  String.eqb header_lower (section_name section)
  || existsb (fun synonym => Py.contains synonym header_lower
                             || Py.contains header_lower synonym) synonyms.

Definition _map_section_headers (header : string) : option SectionName :=
  let header_lower := normalize_header header in
  fst <$> find (section_matches header_lower) SECTION_SYNONYMS.

(** State of the line loop of [_section_html_content]. *)
Record scan_state := mkScan {
  sections : SectionedText;
  current_section : SectionName;
  current_content : list string
}.

(** [if current_content: sections[current_section] = ...] *)
Definition flush (st : scan_state) : SectionedText :=
  match current_content st with
  | [] => sections st
  | _ => set_section (sections st) (current_section st)
           (Py.strip (Py.join LF (current_content st)))
  end.

Definition scan_line (st : scan_state) (line : string) : scan_state :=
  match _map_section_headers (Py.strip line) with
  | Some header_match => mkScan (flush st) header_match []
  | None =>
      mkScan (sections st) (current_section st) (current_content st ++ [line])
  end.

Definition initial_scan : scan_state := mkScan empty_sections abstract [].

Definition section_text_lines (text_lines : list string) : SectionedText :=
  flush (foldl scan_line initial_scan text_lines).

Section Html.
(** [_extract_main_content]: the HTML-to-text extraction of
    BeautifulSoup, outside the repository. *)
Variable _extract_main_content : string -> string.

Definition _section_html_content (html_content : string) : SectionedText :=
  let text := _extract_main_content html_content in
  section_text_lines (split LF text).
End Html.

(** *** Excerpt selection *)

(** [float(n)], the conversion that [n * x] applies to the integer [n]:
    the nearest binary64 value, ties to even.  (Beyond the range of
    binary64 Python raises [OverflowError]; the model has the infinity
    there.) *)
Definition float_of_int (n : Z) : spec_float :=
  binary_normalize FloatOps.prec FloatOps.emax n 0 false.

(** [int(x)] of a float: truncation towards zero.  (Python raises for an
    infinity or a NaN, which the budget meets only past the overflow of
    [float_of_int]; the model has 0 there.) *)
Definition py_int (x : spec_float) : Z :=
  match x with
  | S754_finite s m e =>
      let magnitude :=
        if 0 <=? e then Z.pos m * 2 ^ e else Z.pos m / 2 ^ (- e) in
      if s then - magnitude else magnitude
  | _ => 0
  end.

Definition _estimate_tokens (text : string) : Z :=
  Z.of_nat (String.length text) / 4.

(** The literals of the allocation: each is the binary64 value nearest
    to the decimal written. *)
Definition share (n : SectionName) : float :=
  match n with
  | abstract => 0.10
  | introduction => 0.10
  | methods => 0.25
  | results => 0.35
  | discussion => 0.15
  | conclusion => 0.05
  end%float.

(** [_allocate_token_budget(max_tokens)[n]], that is
    [int(max_tokens * share)]: the integer is converted, the product is
    that of binary64, rounded to nearest, and the result is truncated.
    The product is written with [SFmul], the specification of the
    primitive product, on which its sign can be read.  The rounding shows:
    180 * 0.35 is 62.99999999999999 and the share is 62. *)
Definition _allocate_token_budget (max_tokens : Z) (n : SectionName) : Z :=
  py_int (SFmul FloatOps.prec FloatOps.emax
                (float_of_int max_tokens) (FloatOps.Prim2SF (share n))).

(** [re.search(r'\d+\.\d+', s)] *)
Definition decimal_number (s : string) : bool :=
  Py.any_suffix
    (fun t =>
       let '(d, r) := Py.span Py.is_digit t in
       match d, r with
       | String _ _, String "."%char (String c _) => Py.is_digit c
       | _, _ => false
       end) s.

Definition paragraph_score (key_terms : list string) (paragraph : string) : Q :=
  let paragraph_lower := Py.lower paragraph in
  let score :=
    fold_left (fun score term =>
                 if Py.contains term paragraph_lower then (score + 1)%Q
                 else score)
              key_terms 0%Q in
  if decimal_number paragraph then (score + 0.5)%Q else score.

(** The [for paragraph, score in scored_paragraphs] loop with its
    [break]. *)
Fixpoint select_paragraphs
  (allocated_tokens : Z) (selected_paragraphs : list string)
  (current_tokens : Z) (scored_paragraphs : list (string * Q))
  : list string :=
  match scored_paragraphs with
  | [] => selected_paragraphs
  | (paragraph, _) :: rest =>
      let paragraph_tokens := _estimate_tokens paragraph in
      if current_tokens + paragraph_tokens <=? allocated_tokens then
        select_paragraphs allocated_tokens
          (selected_paragraphs ++ [paragraph])
          (current_tokens + paragraph_tokens) rest
      else
        let remaining_tokens := allocated_tokens - current_tokens in
        if remaining_tokens >? 10 then
          let chars_to_include := remaining_tokens * 4 in
          let truncated_paragraph :=
            take (Z.to_nat chars_to_include) paragraph +:+ "..." in
          selected_paragraphs ++ [truncated_paragraph]
        else selected_paragraphs
  end.

Definition blank_line : string := LF +:+ LF.

(** The pieces [_select_excerpts_from_section] joins. *)
Definition selected_pieces
  (section_text : string) (allocated_tokens : Z) (key_terms : list string)
  : list string :=
  let paragraphs := split blank_line section_text in
  let scored_paragraphs :=
    map (fun paragraph => (paragraph, paragraph_score key_terms paragraph))
        paragraphs in
  let scored_paragraphs := sorted_desc snd scored_paragraphs in
  select_paragraphs allocated_tokens [] 0 scored_paragraphs.

Definition _select_excerpts_from_section
  (section_text : string) (allocated_tokens : Z) (key_terms : list string)
  : string :=
  if negb (Py.truthy section_text) then ""
  else Py.join blank_line
         (selected_pieces section_text allocated_tokens key_terms).

Definition select_excerpts_for_prompt
  (sectioned_text : SectionedText) (max_tokens : Z) : SectionedText :=
  let excerpt n :=
    _select_excerpts_from_section (get_section sectioned_text n)
      (_allocate_token_budget max_tokens n) KEY_TERMS in
  mkSections (excerpt abstract) (excerpt introduction) (excerpt methods)
             (excerpt results) (excerpt discussion) (excerpt conclusion).

(** *** Red flags of the sectioned text *)

Definition flag_allocation : string :=
  "Missing CONSORT element: allocation concealment not mentioned".
Definition flag_blinding : string :=
  "Missing CONSORT element: blinding procedures not described".
Definition flag_small_sample : string :=
  "Potential inconsistency: small sample size with precise estimates claimed".
Definition flag_outcomes : string :=
  "Multiple outcomes reported without clear primary outcome designation".
Definition flag_subgroup : string :=
  "Subgroup analyses presented without stated a priori plan".

Definition detect_content_red_flags (sectioned_text : SectionedText)
  : list string :=
  let red_flags : list string := [] in
  let methods_text := Py.lower (s_methods sectioned_text) in
  let red_flags :=
    if negb (Py.contains "allocation" methods_text)
       && Py.contains "random" methods_text
    then red_flags ++ [flag_allocation] else red_flags in
  let red_flags :=
    if negb (Py.contains "blinding" methods_text)
       && negb (Py.contains "masking" methods_text)
    then red_flags ++ [flag_blinding] else red_flags in
  let red_flags :=
    if Py.contains "small sample" methods_text
       && Py.contains "precise estimate"
                      (Py.lower (s_results sectioned_text))
    then red_flags ++ [flag_small_sample] else red_flags in
  let results_text := Py.lower (s_results sectioned_text) in
  let red_flags :=
    if (count "outcome" results_text >? 3)
       && negb (Py.contains "primary outcome" results_text)
    then red_flags ++ [flag_outcomes] else red_flags in
  let red_flags :=
    if Py.contains "subgroup" results_text
       && negb (Py.contains "predefined" results_text)
       && negb (Py.contains "a priori" results_text)
    then red_flags ++ [flag_subgroup] else red_flags in
  red_flags.

(** *** HTML and PDF text *)

(** [re.sub(r'\s+', ' ', text)]: every run of white space becomes one
    space; [in_run] tells that the previous character was white space. *)
Fixpoint collapse_spaces (in_run : bool) (text : string) : string :=
  match text with
  | EmptyString => EmptyString
  | String c text' =>
      if Py.is_space c then
        if in_run then collapse_spaces true text'
        else String " "%char (collapse_spaces true text')
      else String c (collapse_spaces false text')
  end.

Definition _clean_whitespace (text : string) : string :=
  Py.strip (collapse_spaces false text).

Section Extraction.
(** The text the HTML parser extracts once scripts, styles, navigation and
    advertisements are removed (BeautifulSoup, or the regular expressions
    used when it is not installed). *)
Variable visible_text : string -> string.
(** The markup of the main content container ([main], [article], ... or
    [body]) when the parser is installed and finds one. *)
Variable main_content : string -> option string.
(** The text of the pages of a PDF ([_extract_pdf_text], PyPDF2). *)
Variable _extract_pdf_text : string -> Z -> string.

Definition _clean_html (html_content : string) : string :=
  _clean_whitespace (visible_text html_content).

Definition _extract_main_content (html_content : string) : string :=
  match main_content html_content with
  | Some found => _clean_html found
  | None => _clean_html html_content
  end.

(** The line loop of [_section_pdf_content]: lines are stripped and the
    empty ones passed over. *)
Definition scan_pdf_line (st : scan_state) (line : string) : scan_state :=
  let line := Py.strip line in
  if Py.truthy line then
    match _map_section_headers line with
    | Some header_match => mkScan (flush st) header_match []
    | None =>
        mkScan (sections st) (current_section st)
               (current_content st ++ [line])
    end
  else st.

Definition _section_pdf_content (pdf_bytes : string) (max_pages : Z)
  : SectionedText :=
  let text := _extract_pdf_text pdf_bytes max_pages in
  flush (foldl scan_pdf_line initial_scan (split LF text)).

Definition parse_and_section (html pdf_bytes : option string) : SectionedText :=
  if Py.truthy_opt html
  then _section_html_content _extract_main_content (default "" html)
  else if Py.truthy_opt pdf_bytes
       then _section_pdf_content (default "" pdf_bytes) 40
       else empty_sections.
End Extraction.

End TextClean.

(** ** step2/analyze.py: [_detect_red_flags] *)

Module Analyze.

(** [effect_estimate]:
    [{"measure": ..., "value": float, "ci": [low, high], "p": Optional[float]}];
    a field is [None] when its key is missing ([p] also when it is null).
    The numbers are Python floats, binary64 values, and the rules compute
    on them with the operations of binary64. *)
Record EffectEstimate := mkEffect {
  measure : option string;
  value : option float;
  ci : option (list float);
  p : option float
}.

(** The fields of [ArticleCard] the rules read (the dictionary is
    [total=False]: every key may be missing). *)
Record ArticleCard := mkCard {
  card_sample_size : option Z;
  effect_estimate : option EffectEstimate;
  card_primary_outcome : option string;
  allocation : option string;
  blinding : option string;
  population : option string;
  centers : option string;
  funding : option string
}.

Definition flag_underpowered : string :=
  "Underpowered signal: sample size < 100 for superiority trial".
Definition flag_imprecise : string :=
  "Imprecise effect: wide confidence interval".
Definition flag_borderline : string :=
  "Borderline p-value: fragile significance".
Definition flag_multiplicity : string :=
  "Multiplicity/selective reporting risk: primary outcome unclear".
Definition flag_validity : string :=
  "External validity concern: narrow population".
Definition flag_funding : string :=
  "Potential bias: industry funding declared".

(** The imprecise-effect rule on the point estimate and the interval. *)
Definition imprecise (point_estimate : float) (ci : list float) : bool :=
  match ci with
  | [ci0; ci1] =>
      let ci_width := PrimFloat.abs (ci1 - ci0)%float in
      negb (point_estimate =? 0)%float
      && (1.0 <? PrimFloat.abs (ci_width / point_estimate))%float
  | _ => false
  end.

Definition _detect_red_flags (article : ArticleCard) : list string :=
  let red_flags : list string := [] in
  (* Underpowered signal *)
  let red_flags :=
    match card_sample_size article with
    | Some n => if n <? 100 then red_flags ++ [flag_underpowered]
                else red_flags
    | None => red_flags
    end in
  (* Imprecise effect: 95% CI width relative to point estimate > 1.0 *)
  let red_flags :=
    match effect_estimate article with
    | Some ee =>
        match value ee, ci ee with
        | Some point_estimate, Some ci =>
            if imprecise point_estimate ci then red_flags ++ [flag_imprecise]
            else red_flags
        | _, _ => red_flags
        end
    | None => red_flags
    end in
  (* Borderline p: p in [0.045, 0.06] *)
  let red_flags :=
    match effect_estimate article with
    | Some ee =>
        match p ee with
        | Some pv =>
            if (0.045 <=? pv)%float && (pv <=? 0.06)%float
            then red_flags ++ [flag_borderline] else red_flags
        | None => red_flags
        end
    | None => red_flags
    end in
  (* Multiplicity risk *)
  let red_flags :=
    if negb (Py.truthy_opt (card_primary_outcome article))
       || String.eqb (Py.strip (default "" (card_primary_outcome article))) ""
    then red_flags ++ [flag_multiplicity] else red_flags in
  (* Design opacity *)
  let red_flags :=
    if negb (Py.truthy_opt (allocation article))
       || negb (Py.truthy_opt (blinding article))
    then
      let issues : list string := [] in
      let issues :=
        if negb (Py.truthy_opt (allocation article))
        then issues ++ ["allocation concealment"] else issues in
      let issues :=
        if negb (Py.truthy_opt (blinding article))
        then issues ++ ["blinding"] else issues in
      match issues with
      | [] => red_flags
      | _ => red_flags
             ++ ["Design opacity: missing " +:+ Py.join ", " issues]
      end
    else red_flags in
  (* External validity *)
  let population_text := Py.lower (default "" (population article)) in
  let centers_text :=
    if Py.truthy_opt (centers article)
    then Py.lower (default "" (centers article)) else "" in
  let red_flags :=
    if (Py.contains "single" centers_text
        || Py.contains "single" population_text)
       && Py.contains "specific" population_text
    then red_flags ++ [flag_validity] else red_flags in
  (* COI/Funding *)
  let funding_text :=
    if Py.truthy_opt (funding article)
    then Py.lower (default "" (funding article)) else "" in
  let red_flags :=
    if Py.contains "industry" funding_text
       || Py.contains "commercial" funding_text
    then red_flags ++ [flag_funding] else red_flags in
  red_flags.

(** Half the absolute difference of the two bounds. *)
Definition ci_half_width (ci0 ci1 : float) : float :=
  (PrimFloat.abs (ci1 - ci0) / 2)%float.

End Analyze.

(** * Vocabulary of the properties *)

(** The seen-sets hold exactly the non-empty DOIs and PMIDs of the records
    retained so far. *)
Definition seen_ok (st : dedup_state) : Prop :=
  let '(seen_dois, seen_pmids, kept) := st in
  (forall k, k ∈ seen_dois
             <-> exists b, In b kept /\ Py.truthy_opt (doi b) = true
                           /\ doi b = Some k)
  /\ (forall k, k ∈ seen_pmids
                <-> exists b, In b kept /\ Py.truthy (pmid b) = true
                              /\ pmid b = k).

(** [a] is the pick among the elements of [l] that satisfy [p]: none has a
    greater key, and those in front of it have a smaller one. *)
Definition top_among {A : Type} (key : A -> Q) (p : A -> bool) (l : list A)
  (a : A) : Prop :=
  p a = true
  /\ exists pre post,
       l = pre ++ a :: post
       /\ (forall c, In c pre -> p c = true -> (key c < key a)%Q)
       /\ (forall c, In c post -> p c = true -> (key c <= key a)%Q).

Definition descending {A : Type} (key : A -> Q) : list A -> Prop :=
  StronglySorted (fun x y => (key y <= key x)%Q).

(** What the history check tests: the DOI of the candidate, when it has
    one, against the [doi] of the entries, and its PMID, when it has one,
    against their [pmid]. *)
Definition listed_in (c : Article) (history : list HistoryEntry) : Prop :=
  exists e, In e history
            /\ ((Py.truthy_opt (doi c) = true /\ h_doi e = doi c)
                \/ (Py.truthy (pmid c) = true /\ h_pmid e = Some (pmid c))).

(** The candidates the selector may still return. *)
Definition eligible (stored : list HistoryEntry) (c : Article) : bool :=
  negb (is_article_previously_selected c stored).

(** The selector as the specification words it: the candidate returned
    is, among those whose identity key is neither the [doi] nor the [pmid]
    of a history entry, one of highest score; and the overall top,
    annotated, when every key is in the history. *)
Definition returns_best_by_identity_key
  (float_str : Q -> string) (stored : list HistoryEntry)
  (articles : list Article) : Prop :=
  exists a r,
    select_top_article float_str stored articles true = Some (a, r)
    /\ ((exists c, In c articles /\ key_in_history c stored = false) ->
        key_in_history a stored = false
        /\ forall c, In c articles -> key_in_history c stored = false ->
                     (score_key c <= score_key a)%Q)
    /\ ((forall c, In c articles -> key_in_history c stored = true) ->
        r = base_rationale float_str a +:+ previously_selected_note
        /\ forall c, In c articles -> (score_key c <= score_key a)%Q).

(** Sum of the token estimates of the pieces. *)
Definition tokens_of (pieces : list string) : Z :=
  fold_right (fun piece acc => TextClean._estimate_tokens piece + acc) 0 pieces.

(** Sum of the lengths of the pieces. *)
Definition chars_of (pieces : list string) : Z :=
  fold_right (fun piece acc => Z.of_nat (String.length piece) + acc) 0 pieces.

(** The bound as the specification words it, read generously: the
    estimate of the excerpt exceeds the share by no more than the estimate
    of a truncated paragraph prefix, ellipsis included, that fits the
    share. *)
Definition within_one_truncated_prefix (budget : Z) (excerpt : string) : Prop :=
  exists (paragraph : string) (k : nat),
    TextClean._estimate_tokens (TextClean.take k paragraph +:+ "...") <= budget
    /\ TextClean._estimate_tokens excerpt
       <= budget
          + TextClean._estimate_tokens (TextClean.take k paragraph +:+ "...").

(** A float that is not negative (a zero of either sign, or a NaN, which
    no comparison finds negative). *)
Definition nonneg_float (x : spec_float) : Prop :=
  match x with
  | S754_zero _ | S754_nan => True
  | S754_infinity s | S754_finite s _ _ => s = false
  end.

(** ** Vocabulary of the further properties *)

(** The elements of [l] whose key is [q], in list order. *)
Definition with_key {A : Type} (key : A -> Q) (q : Q) (l : list A) : list A :=
  List.filter (fun x => Qeq_bool (key x) q) l.

(** Number of payloads a result carries among HTML, PDF and abstract. *)
Definition payloads (r : Fetch.FullTextResult) : nat :=
  (match Fetch.html r with Some _ => 1 | None => 0 end
   + match Fetch.pdf_bytes r with Some _ => 1 | None => 0 end
   + match Fetch.abstract_text r with Some _ => 1 | None => 0 end)%nat.

(** A result of the stage called [name]: tagged with it, one payload, the
    abstract only on the abstract route. *)
Definition result_of (name : string) (r : Fetch.FullTextResult) : Prop :=
  Fetch.route r = name
  /\ payloads r = 1%nat
  /\ (Fetch.abstract_text r <> None <-> name = "abstract").

(** [m] only adds to the log of requests. *)
Definition grows {A} (m : Fetch.M A) : Prop :=
  forall log, exists more, (m log).2 = log ++ more.

(** [m] comes back, having only added to the log of requests. *)
Definition settles {A} (m : Fetch.M (Fetch.outcome A)) : Prop :=
  forall log, exists a more, m log = (Fetch.Done a, log ++ more).

(** [s] is empty or begins with a character that is not white space. *)
Definition starts_clean (s : string) : Prop :=
  match s with
  | EmptyString => True
  | String c _ => Py.is_space c = false
  end.

(** Every section of [st] is stripped. *)
Definition all_stripped (st : TextClean.SectionedText) : Prop :=
  forall n, Py.strip (TextClean.get_section st n) = TextClean.get_section st n.

(** The stripped lines of [lines] that are not empty. *)
Definition content_lines (lines : list string) : list string :=
  List.filter Py.truthy (map Py.strip lines).

(** The guards of the seven rules of [_detect_red_flags]. *)
Definition underpowered_rule (article : Analyze.ArticleCard) : bool :=
  match Analyze.card_sample_size article with
  | Some n => n <? 100
  | None => false
  end.

Definition imprecise_rule (article : Analyze.ArticleCard) : bool :=
  match Analyze.effect_estimate article with
  | Some ee =>
      match Analyze.value ee, Analyze.ci ee with
      | Some point_estimate, Some interval =>
          Analyze.imprecise point_estimate interval
      | _, _ => false
      end
  | None => false
  end.

Definition borderline_rule (article : Analyze.ArticleCard) : bool :=
  match Analyze.effect_estimate article with
  | Some ee =>
      match Analyze.p ee with
      | Some pv => (0.045 <=? pv)%float && (pv <=? 0.06)%float
      | None => false
      end
  | None => false
  end.

Definition multiplicity_rule (article : Analyze.ArticleCard) : bool :=
  negb (Py.truthy_opt (Analyze.card_primary_outcome article))
  || String.eqb (Py.strip (default "" (Analyze.card_primary_outcome article))) "".

Definition validity_rule (article : Analyze.ArticleCard) : bool :=
  (Py.contains "single"
     (if Py.truthy_opt (Analyze.centers article)
      then Py.lower (default "" (Analyze.centers article)) else "")
   || Py.contains "single" (Py.lower (default "" (Analyze.population article))))
  && Py.contains "specific" (Py.lower (default "" (Analyze.population article))).

Definition funding_rule (article : Analyze.ArticleCard) : bool :=
  Py.contains "industry"
    (if Py.truthy_opt (Analyze.funding article)
     then Py.lower (default "" (Analyze.funding article)) else "")
  || Py.contains "commercial"
       (if Py.truthy_opt (Analyze.funding article)
        then Py.lower (default "" (Analyze.funding article)) else "").

(** The design-opacity flag, which names what is missing. *)
Definition opacity_flags (article : Analyze.ArticleCard) : list string :=
  match Py.truthy_opt (Analyze.allocation article),
        Py.truthy_opt (Analyze.blinding article) with
  | false, false =>
      ["Design opacity: missing allocation concealment, blinding"]
  | false, true => ["Design opacity: missing allocation concealment"]
  | true, false => ["Design opacity: missing blinding"]
  | true, true => []
  end.

Definition when (b : bool) (flag : string) : list string :=
  if b then [flag] else [].

(** The shares as binary64 values, and the sum of the six shares of a
    budget, the conversion of the budget done once. *)
Definition share_value (n : TextClean.SectionName) : spec_float :=
  Eval vm_compute in FloatOps.Prim2SF (TextClean.share n).

Definition total_budget (max_tokens : Z) : Z :=
  let converted := TextClean.float_of_int max_tokens in
  let part c :=
    TextClean.py_int (SFmul FloatOps.prec FloatOps.emax converted c) in
  part (share_value TextClean.abstract)
  + part (share_value TextClean.introduction)
  + part (share_value TextClean.methods)
  + part (share_value TextClean.results)
  + part (share_value TextClean.discussion)
  + part (share_value TextClean.conclusion).

Definition total_within (max_tokens : Z) : bool :=
  let total := total_budget max_tokens in
  (max_tokens - 5 <=? total) && (total <=? max_tokens).

(** [total_within] on the [n] budgets from [first] on. *)
Fixpoint all_within (n : nat) (first : Z) : bool :=
  match n with
  | O => true
  | S k => total_within first && all_within k (first + 1)
  end.

(** * Sample inputs *)

Definition scenario_article : Article :=
  mkArticle "Nerve block after hip fracture" "" [] "Anesthesiology" 2024
            "2024-03-01" "38000001" (Some "10.1000/example.1") "" "english" []
            "randomized" (Some 600) (Some true) "regional nerve block"
            "usual care" "30-day mortality" (Some "35% reduction") None None.

Definition six_reasons : list string :=
  [ "large sample size (>500)"; "multicenter study";
    "patient-centered outcome"; "clinically actionable intervention";
    "high-quality journal"; "quantified effect" ].

Definition record_with_doi : Article :=
  mkArticle "Spinal versus general anesthesia for hip surgery" "" []
            "Anesthesiology" 2024 "2024-03-01" "38000001"
            (Some "10.1000/example.1") "" "english" [] "randomized"
            (Some 600) (Some true) "regional nerve block" "usual care"
            "30-day mortality" (Some "35% reduction") (Some 10.0%Q)
            (Some "large sample size (>500)").

(** The same PubMed record, fetched without its DOI. *)
Definition record_without_doi : Article :=
  mkArticle "Spinal versus general anesthesia for hip surgery" "" []
            "Anesthesiology" 2024 "2024-03-01" "38000001"
            None "" "english" [] "randomized"
            (Some 600) (Some true) "regional nerve block" "usual care"
            "30-day mortality" (Some "35% reduction") (Some 10.0%Q)
            (Some "large sample size (>500)").

Definition runner_up : Article :=
  mkArticle "Ketamine for postoperative pain" "" [] "Pain Medicine" 2024
            "2024-02-11" "38000002" (Some "10.1000/example.2") "" "english" []
            "randomized" (Some 120) None "analgesia" "placebo" "pain score"
            None (Some 6.5%Q) (Some "moderate sample size (>100)").

(** A candidate fetched with neither a DOI nor a PMID. *)
Definition unidentified_record : Article :=
  mkArticle "Preprint: fluid therapy in sepsis" "" [] "medRxiv" 2024
            "2024-04-02" "" None "" "english" [] "randomized" (Some 80) None
            "fluid" "usual care" "mortality" None (Some 3.0%Q)
            (Some "patient-centered outcome; clinically actionable intervention").

(** An earlier run selected PMID 38000001 when its DOI was not known. *)
Definition history_by_pmid : list HistoryEntry :=
  [ mkEntry (Some "Spinal versus general anesthesia for hip surgery")
            None (Some "38000001") (Some "Anesthesiology")
            (Some "2024-03-01") (Some 10.0%Q) (Some "large sample size (>500)") ].

(** [str(x)] for the scores the scorer produces, the multiples of 0.5. *)
Definition float_str_halves (q : Q) : string :=
  pretty (Qfloor q)
  +:+ (if Qeq_bool (q - inject_Z (Qfloor q)) 0 then ".0" else ".5").

Definition wide_interval_card : Analyze.ArticleCard :=
  Analyze.mkCard (Some 240)
    (Some (Analyze.mkEffect (Some "RR") (Some 1.0%float)
                            (Some [0.0%float; 1.5%float]) None))
    (Some "30-day mortality") (Some "sealed envelopes") (Some "double blind")
    (Some "adults having hip surgery") (Some "four centers") (Some "public").

(** An interval whose width, 0.4 - 0.1, is in decimal the estimate 0.3;
    in binary64 the difference is 0.30000000000000004. *)
Definition rounded_interval_card : Analyze.ArticleCard :=
  Analyze.mkCard (Some 240)
    (Some (Analyze.mkEffect (Some "RD") (Some 0.3%float)
                            (Some [0.1%float; 0.4%float]) None))
    (Some "30-day mortality") (Some "sealed envelopes") (Some "double blind")
    (Some "adults having hip surgery") (Some "four centers") (Some "public").

(** A network on which PubMed Central refuses automated access (403 on
    the PDF and on the page of an article) while Europe PMC answers every
    search with the repository identifier of the article. *)
Definition refusing_net (log : list Fetch.Request) (request : Fetch.Request)
  : option Fetch.Response :=
  if String.eqb (Fetch.req_url request) Fetch.search_url
  then Some (Fetch.mkResponse 200 (Some "application/json") "" ""
               (Some (Fetch.EuropePmcSearch
                        [Fetch.mkSearchResult (Some "PMC7654321") [] None])))
  else Some (Fetch.mkResponse 403 (Some "text/html") "Forbidden" "Forbidden"
                              None).

Definition default_settings : Fetch.Settings :=
  Fetch.mkSettings None None None None None None.

Definition get_request (url : string) : Fetch.Request :=
  Fetch.mkRequest url "Mozilla/5.0 ( compatible; podcast-rct/1.0 )" 30.

(** The requests of one activation that holds the identifier: the PDF,
    the page, then the search again. *)
Definition direct_round : list Fetch.Request :=
  [ get_request (Fetch.pmc_pdf_url "PMC7654321");
    get_request (Fetch.pmc_html_url "PMC7654321");
    get_request Fetch.search_url ].

(** Thirty paragraphs of three characters: each is estimated at zero
    tokens. *)
Definition short_paragraphs : string :=
  Py.join TextClean.blank_line (replicate 30 "abc").

Definition short_abstract : TextClean.SectionedText :=
  TextClean.mkSections short_paragraphs "" "" "" "" "".

(** ** Further sample inputs *)

Definition perioperative_trial : Article :=
  mkArticle "Perioperative dexmedetomidine and delirium: a randomized trial"
            "Adults were randomly assigned to dexmedetomidine or placebo."
            [] "Anesthesiology" 2024 "2024" "38000003"
            (Some "10.1000/example.3") "" "English" [] "" None None "" "" ""
            None None None.

Definition shipped_settings : Config.Settings :=
  Config.mkSettings 180 None 200 false true None.

Definition nerve_block_trial : Article :=
  mkArticle "Regional nerve block for hip fracture: a randomized controlled trial"
            "Patients were randomly assigned to a nerve block or usual care."
            ["Humans"; "Nerve Block"] "Anesthesiology" 2024 "2024" "38000004"
            (Some "10.1000/example.4") "https://pubmed.ncbi.nlm.nih.gov/38000004/"
            "English" ["Humans"; "Nerve Block"] "randomized" (Some 600)
            (Some true) "regional nerve block" "usual care" "30-day mortality"
            (Some "35% reduction") None None.

Definition sample_pdf_text : string :=
  Py.join TextClean.LF
    [ "Methods"; "We enrolled 600 adults."; "Results"; "Mortality fell.";
      "Methods"; ""; "  See the supplement.  " ].

Definition british_trial : Article :=
  mkArticle "Dexmedetomidine and delirium after hip surgery"
            "A randomised controlled trial of dexmedetomidine in adult patients."
            [] "Anaesthesia" 2024 "2024" "38000005"
            (Some "10.1000/example.5") "" "English" [] "" None None "" "" ""
            None None None.

Definition coded_language_trial : Article :=
  mkArticle "Regional nerve block for hip fracture: a randomized controlled trial"
            "Patients were randomly assigned to a nerve block or usual care."
            ["Humans"; "Nerve Block"] "Anesthesiology" 2024 "2024" "38000006"
            (Some "10.1000/example.6") "" "eng" ["Humans"; "Nerve Block"]
            "randomized" (Some 600) (Some true) "regional nerve block"
            "usual care" "30-day mortality" (Some "35% reduction") None None.

Definition relaxed_settings : Config.Settings :=
  Config.mkSettings 180 None 200 true true None.

(** A trial that passes the six predicates and was fetched with neither a
    DOI nor a PMID. *)
Definition unidentified_trial : Article :=
  mkArticle "Regional nerve block for hip fracture: a randomized controlled trial"
            "Patients were randomly assigned to a nerve block or usual care."
            ["Humans"; "Nerve Block"] "Anesthesiology" 2024 "2024" ""
            None "" "English" ["Humans"; "Nerve Block"] "randomized"
            (Some 600) (Some true) "regional nerve block" "usual care"
            "30-day mortality" (Some "35% reduction") None None.

(** A network on which PubMed Central refuses automated access while
    Europe PMC answers every search with the repository identifier and the
    abstract of the article. *)
Definition refusing_net_with_abstract
  (log : list Fetch.Request) (request : Fetch.Request)
  : option Fetch.Response :=
  if String.eqb (Fetch.req_url request) Fetch.search_url
  then Some (Fetch.mkResponse 200 (Some "application/json") "" ""
               (Some (Fetch.EuropePmcSearch
                        [Fetch.mkSearchResult (Some "PMC7654321") []
                           (Some "Background: hip fracture ...")])))
  else Some (Fetch.mkResponse 403 (Some "text/html") "Forbidden" "Forbidden"
                              None).

Definition abstract_result : Fetch.FullTextResult :=
  Fetch.mkResult "abstract" None None None None None
                 (Some "Background: hip fracture ...").

(** A network on which every request fails. *)
Definition silent_net (log : list Fetch.Request) (request : Fetch.Request)
  : option Fetch.Response := None.

Definition email_settings : Fetch.Settings :=
  Fetch.mkSettings None None (Some "me@example.org") None None None.

(** * Properties *)

(** ** Scoring *)

(** C3.  A candidate with sample size 600, multicenter, primary outcome
    "30-day mortality", intervention "regional nerve block", journal
    "Anesthesiology" and effect summary "35% reduction" scores exactly
    10.0 = 3.0+1.0+1.5+1.5+2.0+1.0, and its rationale is the six applied
    reasons, in rule order, joined by "; ". *)
Theorem score_article_full_scenario (a : Article) :
  sample_size a = Some 600 ->
  multicenter a = Some true ->
  primary_outcome a = "30-day mortality" ->
  intervention a = "regional nerve block" ->
  journal a = "Anesthesiology" ->
  effect_summary a = Some "35% reduction" ->
  ((score_article a).1 == 10.0)%Q
  /\ ((score_article a).1 == 3.0 + 1.0 + 1.5 + 1.5 + 2.0 + 1.0)%Q
  /\ (score_article a).2 = Py.join "; " six_reasons
  /\ (score_article a).2
     = "large sample size (>500); multicenter study; patient-centered outcome; clinically actionable intervention; high-quality journal; quantified effect".
Proof.
  intros Hn Hm Ho Hi Hj He.
  unfold score_article.
  rewrite Hn, Hm, Ho, Hi, Hj, He.
  repeat split; vm_compute; reflexivity.
Qed.

Lemma score_article_full_scenario_witness :
  ((score_article scenario_article).1 == 10.0)%Q
  /\ ((score_article scenario_article).1 == 3.0 + 1.0 + 1.5 + 1.5 + 2.0 + 1.0)%Q
  /\ (score_article scenario_article).2 = Py.join "; " six_reasons
  /\ (score_article scenario_article).2
     = "large sample size (>500); multicenter study; patient-centered outcome; clinically actionable intervention; high-quality journal; quantified effect".
Proof.
  apply (score_article_full_scenario scenario_article); reflexivity.
Defined.

(** ** Red flags of the sectioned text *)

Lemma in_app_keep {A} (x : A) (l l' : list A) : In x l -> In x (l ++ l').
Proof. intros H. apply in_or_app. now left. Qed.

Lemma in_app_when {A} (x : A) (b : bool) (l l' : list A) :
  In x l -> In x (if b then l ++ l' else l).
Proof. intros H. destruct b; [now apply in_app_keep | exact H]. Qed.

Lemma in_app_last {A} (x : A) (l : list A) : In x (l ++ [x]).
Proof. apply in_or_app. right. now left. Qed.

(** C10.  When the methods section is the empty string the detector always
    reports the missing-blinding CONSORT flag, exactly as it does for any
    methods text that mentions neither blinding nor masking: a section that
    was never extracted is not told apart from one that is silent on
    blinding. *)
Theorem empty_methods_reports_missing_blinding (st : TextClean.SectionedText) :
  TextClean.s_methods st = "" ->
  In TextClean.flag_blinding (TextClean.detect_content_red_flags st)
  /\ forall st' : TextClean.SectionedText,
       Py.contains "blinding" (Py.lower (TextClean.s_methods st')) = false ->
       Py.contains "masking" (Py.lower (TextClean.s_methods st')) = false ->
       In TextClean.flag_blinding (TextClean.detect_content_red_flags st').
Proof.
  intros Hm.
  assert (Hgen : forall st' : TextClean.SectionedText,
             Py.contains "blinding" (Py.lower (TextClean.s_methods st')) = false ->
             Py.contains "masking" (Py.lower (TextClean.s_methods st')) = false ->
             In TextClean.flag_blinding (TextClean.detect_content_red_flags st')).
  { intros st' Hb Hk. unfold TextClean.detect_content_red_flags.
    rewrite Hb, Hk. cbn [negb andb].
    do 3 apply in_app_when. apply in_app_last. }
  split; [| exact Hgen].
  apply Hgen; rewrite Hm; reflexivity.
Qed.

Lemma empty_methods_reports_missing_blinding_witness :
  In TextClean.flag_blinding
     (TextClean.detect_content_red_flags TextClean.empty_sections).
Proof.
  exact (proj1 (empty_methods_reports_missing_blinding
                  TextClean.empty_sections eq_refl)).
Defined.

(** ** Section headers *)

Lemma scan_line_unmatched (st : TextClean.scan_state) (line : string) :
  TextClean._map_section_headers (Py.strip line) = None ->
  TextClean.scan_line st line
  = TextClean.mkScan (TextClean.sections st) (TextClean.current_section st)
                     (TextClean.current_content st ++ [line]).
Proof. intros H. unfold TextClean.scan_line. now rewrite H. Qed.

(** Lines that match nothing leave the scan where it started and pile up
    there. *)
Lemma scan_unmatched_lines (st : TextClean.scan_state) (lines : list string) :
  Forall (fun line => TextClean._map_section_headers (Py.strip line) = None)
         lines ->
  foldl TextClean.scan_line st lines
  = TextClean.mkScan (TextClean.sections st) (TextClean.current_section st)
                     (TextClean.current_content st ++ lines).
Proof.
  intros H. revert st.
  induction H as [| line lines Hline _ IH]; intros st; cbn [foldl].
  - rewrite app_nil_r. now destruct st.
  - rewrite IH, (scan_line_unmatched _ _ Hline). cbn.
    now rewrite <- app_assoc.
Qed.

(** C8.  "Materials and Methods" maps to the methods section and
    "Background" to the introduction; the scan starts in the abstract; a
    line that matches no section name or synonym leaves the current
    section unchanged and is added to its content, and a text made of such
    lines only ends up, whole, in the abstract. *)
Theorem section_header_mapping
  (st : TextClean.scan_state) (line : string) (lines : list string) :
  TextClean._map_section_headers (Py.strip line) = None ->
  Forall (fun l => TextClean._map_section_headers (Py.strip l) = None) lines ->
  TextClean._map_section_headers "Materials and Methods"
  = Some TextClean.methods
  /\ TextClean._map_section_headers "Background"
     = Some TextClean.introduction
  /\ TextClean.current_section TextClean.initial_scan = TextClean.abstract
  /\ TextClean.current_section (TextClean.scan_line st line)
     = TextClean.current_section st
  /\ TextClean.current_content (TextClean.scan_line st line)
     = TextClean.current_content st ++ [line]
  /\ TextClean.sections (TextClean.scan_line st line) = TextClean.sections st
  /\ TextClean.section_text_lines (line :: lines)
     = TextClean.set_section TextClean.empty_sections TextClean.abstract
         (Py.strip (Py.join TextClean.LF (line :: lines)))
  /\ forall (extract : string -> string) (html_content : string),
       TextClean.split TextClean.LF (extract html_content) = line :: lines ->
       TextClean._section_html_content extract html_content
       = TextClean.set_section TextClean.empty_sections TextClean.abstract
           (Py.strip (Py.join TextClean.LF (line :: lines))).
Proof.
  intros Hline Hlines.
  assert (Hall : TextClean.section_text_lines (line :: lines)
                 = TextClean.set_section TextClean.empty_sections
                     TextClean.abstract
                     (Py.strip (Py.join TextClean.LF (line :: lines)))).
  { unfold TextClean.section_text_lines.
    rewrite scan_unmatched_lines by (constructor; assumption).
    reflexivity. }
  split; [vm_compute; reflexivity |].
  split; [vm_compute; reflexivity |].
  split; [reflexivity |].
  rewrite (scan_line_unmatched _ _ Hline). cbn.
  split; [reflexivity |]. split; [reflexivity |]. split; [reflexivity |].
  split; [exact Hall |].
  intros extract html_content Hsplit.
  unfold TextClean._section_html_content. rewrite Hsplit. exact Hall.
Qed.

Lemma section_header_mapping_witness :
  TextClean.current_section
    (TextClean.scan_line
       (TextClean.mkScan TextClean.empty_sections TextClean.results
                         ["Mortality fell."])
       "Patients were enrolled at four sites.")
  = TextClean.results.
Proof.
  destruct (section_header_mapping
              (TextClean.mkScan TextClean.empty_sections TextClean.results
                                ["Mortality fell."])
              "Patients were enrolled at four sites."
              ["They were followed for a year."])
    as (_ & _ & _ & H & _).
  - reflexivity.
  - constructor; [reflexivity | constructor].
  - exact H.
Defined.

(** ** Full-text resolver *)

(** C4.  With a manual full-text override in the configuration the
    resolver returns the override result, tagged "override", whatever the
    identifiers, the networking switch and the network are, and sends no
    request. *)
Theorem override_wins
  (net : list Fetch.Request -> Fetch.Request -> option Fetch.Response)
  (env_user_agent : option string) (fuel : nat)
  (doi pmid : option string) (settings : Fetch.Settings)
  (log : list Fetch.Request) :
  Py.truthy_opt (Fetch.fulltext_override settings) = true ->
  Fetch.resolve_fulltext net env_user_agent fuel doi pmid settings log
  = (Fetch.Done
       (Some (Fetch.mkResult "override" None None None
                             (Fetch.fulltext_override settings) None None)),
     log).
Proof.
  intros H. unfold Fetch.resolve_fulltext. rewrite H. reflexivity.
Qed.

Lemma override_wins_witness :
  Fetch.resolve_fulltext (fun _ _ => None) None 0
    (Some "10.1000/example.1") (Some "38000001")
    (Fetch.mkSettings (Some "<p>Full text</p>") (Some false) None None None None)
    []
  = (Fetch.Done
       (Some (Fetch.mkResult "override" None None None
                             (Some "<p>Full text</p>") None None)),
     []).
Proof.
  exact (override_wins (fun _ _ => None) None 0
           (Some "10.1000/example.1") (Some "38000001")
           (Fetch.mkSettings (Some "<p>Full text</p>") (Some false)
                             None None None None)
           [] eq_refl).
Defined.

(** ** Red flags of the structured record *)

Lemma in_snoc_other {A} (x y : A) (l : list A) :
  x <> y -> In x (l ++ [y]) <-> In x l.
Proof.
  intros Hne. rewrite in_app_iff. cbn. intuition congruence.
Qed.

Lemma in_when_snoc_other {A} (x y : A) (b : bool) (l : list A) :
  x <> y -> In x (if b then l ++ [y] else l) <-> In x l.
Proof. intros Hne. destruct b; [now apply in_snoc_other | reflexivity]. Qed.

Lemma imprecise_flag_iff (article : Analyze.ArticleCard)
  (ee : Analyze.EffectEstimate) (v : float) (interval : list float) :
  Analyze.effect_estimate article = Some ee ->
  Analyze.value ee = Some v ->
  Analyze.ci ee = Some interval ->
  In Analyze.flag_imprecise (Analyze._detect_red_flags article)
  <-> Analyze.imprecise v interval = true.
Proof.
  intros Hee Hv Hci. unfold Analyze._detect_red_flags.
  rewrite Hee, Hv, Hci.
  rewrite in_when_snoc_other by discriminate.
  rewrite in_when_snoc_other by discriminate.
  assert (Hopacity : forall l : list string,
    In Analyze.flag_imprecise
       (if negb (Py.truthy_opt (Analyze.allocation article))
           || negb (Py.truthy_opt (Analyze.blinding article))
        then
          match
            (if negb (Py.truthy_opt (Analyze.blinding article))
             then (if negb (Py.truthy_opt (Analyze.allocation article))
                   then [] ++ ["allocation concealment"] else [])
                  ++ ["blinding"]
             else (if negb (Py.truthy_opt (Analyze.allocation article))
                   then [] ++ ["allocation concealment"] else []))
          with
          | [] => l
          | _ :: _ =>
              l ++ ["Design opacity: missing "
                    +:+ Py.join ", "
                          (if negb (Py.truthy_opt (Analyze.blinding article))
                           then (if negb (Py.truthy_opt
                                            (Analyze.allocation article))
                                 then [] ++ ["allocation concealment"] else [])
                                ++ ["blinding"]
                           else (if negb (Py.truthy_opt
                                            (Analyze.allocation article))
                                 then [] ++ ["allocation concealment"]
                                 else []))]
          end
        else l)
    <-> In Analyze.flag_imprecise l).
  { intros l.
    destruct (Py.truthy_opt (Analyze.allocation article)),
             (Py.truthy_opt (Analyze.blinding article)); cbn;
      rewrite ?in_snoc_other by discriminate; reflexivity. }
  rewrite Hopacity.
  rewrite in_when_snoc_other by discriminate.
  destruct (Analyze.p ee) as [pv |];
    rewrite ?in_when_snoc_other by discriminate.
  all: destruct (Analyze.imprecise v interval).
  all: destruct (Analyze.card_sample_size article) as [n |];
    try destruct (n <? 100); cbn; intuition (try discriminate; try congruence).
Qed.

(** C6, as stated, fails: with estimate 1.0 and interval [0.0, 1.5] the
    half-width 0.75 does not exceed the estimate, and the flag is raised.
    (These numbers are binary fractions: nothing is rounded here.) *)
Lemma imprecise_flag_not_half_width :
  In Analyze.flag_imprecise (Analyze._detect_red_flags wide_interval_card)
  /\ Analyze.ci_half_width 0.0 1.5 = 0.75%float
  /\ ~ (In Analyze.flag_imprecise (Analyze._detect_red_flags wide_interval_card)
        <-> (PrimFloat.abs 1.0 <? Analyze.ci_half_width 0.0 1.5)%float = true).
Proof.
  assert (Hin : In Analyze.flag_imprecise
                   (Analyze._detect_red_flags wide_interval_card))
    by (vm_compute; left; reflexivity).
  split; [exact Hin |]. split; [reflexivity |].
  intros [Hflag _].
  specialize (Hflag Hin). vm_compute in Hflag. discriminate.
Qed.

(** C6, amended.  For a record whose effect estimate has a point value and
    a two-element interval, the imprecise-effect flag is raised exactly
    when the estimate is not zero and the full width of the interval, the
    absolute difference of its bounds, divided by the estimate exceeds 1.0
    in absolute value, the difference and the quotient being those of
    binary64 arithmetic, rounded as the code computes them. *)
Theorem imprecise_flag_full_width
  (article : Analyze.ArticleCard) (ee : Analyze.EffectEstimate)
  (v lo hi : float) :
  Analyze.effect_estimate article = Some ee ->
  Analyze.value ee = Some v ->
  Analyze.ci ee = Some [lo; hi] ->
  In Analyze.flag_imprecise (Analyze._detect_red_flags article)
  <-> (v =? 0)%float = false
      /\ (1.0 <? PrimFloat.abs (PrimFloat.abs (hi - lo) / v))%float = true.
Proof.
  intros Hee Hv Hci.
  rewrite (imprecise_flag_iff article ee v [lo; hi] Hee Hv Hci).
  unfold Analyze.imprecise.
  now rewrite andb_true_iff, negb_true_iff.
Qed.

(** The rounding counts: 0.4 - 0.1 is 0.30000000000000004 in binary64,
    more than the estimate 0.3, and the flag is raised. *)
Lemma imprecise_flag_full_width_witness :
  In Analyze.flag_imprecise (Analyze._detect_red_flags rounded_interval_card)
  /\ (0.4 - 0.1)%float = 0.30000000000000004%float.
Proof.
  split; [| reflexivity].
  apply (imprecise_flag_full_width rounded_interval_card
           (Analyze.mkEffect (Some "RD") (Some 0.3%float)
                             (Some [0.1%float; 0.4%float]) None)
           0.3%float 0.1%float 0.4%float eq_refl eq_refl eq_refl).
  split; reflexivity.
Defined.

(** ** Deduplication *)

Lemma carries_false (b : Article) (k : string) :
  carries b k = false
  <-> ~ (Py.truthy_opt (doi b) = true /\ doi b = Some k)
      /\ ~ (Py.truthy (pmid b) = true /\ pmid b = k).
Proof.
  unfold carries.
  rewrite orb_false_iff, !andb_false_iff, !bool_decide_eq_false.
  destruct (Py.truthy_opt (doi b)), (Py.truthy (pmid b)); intuition congruence.
Qed.

Lemma loop_test_on_kept (sd sp : gset string) (kept : list Article) (a : Article) :
  seen_ok (sd, sp, kept) ->
  Py.truthy (identifier a) && bool_decide (identifier a ∉ sd)
    && bool_decide (identifier a ∉ sp)
  = retained_after kept a.
Proof.
  intros [Hd Hp]. unfold retained_after.
  rewrite <- andb_assoc. f_equal.
  apply eq_true_iff_eq.
  rewrite andb_true_iff, !bool_decide_eq_true, forallb_forall.
  rewrite Hd, Hp. split.
  - intros [H1 H2] b Hb. rewrite negb_true_iff, carries_false.
    split; intros [Ht He]; [apply H1 | apply H2]; eauto.
  - intros H; split; intros (b & Hb & Ht & He);
      specialize (H b Hb); rewrite negb_true_iff, carries_false in H;
      destruct H as [H1 H2]; [apply H1 | apply H2]; auto.
Qed.

Lemma dedup_step_spec (st : dedup_state) (a : Article) :
  seen_ok st ->
  seen_ok (dedup_step st a)
  /\ (dedup_step st a).2
     = if retained_after st.2 a then st.2 ++ [a] else st.2.
Proof.
  destruct st as [[sd sp] kept]. intros Hok.
  unfold dedup_step. rewrite (loop_test_on_kept sd sp kept a Hok). cbn [snd].
  destruct (retained_after kept a); [| now split].
  split; [| reflexivity].
  destruct Hok as [Hd Hp]. split; intros k.
  - destruct (doi a) as [d |] eqn:Ed; [destruct (Py.truthy d) eqn:Et |].
    + rewrite elem_of_union, elem_of_singleton, Hd. split.
      * intros [-> | (b & Hb & Ht & He)].
        -- exists a. rewrite in_app_iff, Ed. cbn. auto.
        -- exists b. rewrite in_app_iff. auto.
      * intros (b & Hb & Ht & He). apply in_app_iff in Hb as [Hb | [<- | []]].
        -- right. eauto.
        -- left. congruence.
    + rewrite Hd. split; intros (b & Hb & Ht & He).
      * exists b. rewrite in_app_iff. auto.
      * apply in_app_iff in Hb as [Hb | [<- | []]]; [eauto |].
        rewrite Ed in Ht. cbn in Ht. congruence.
    + rewrite Hd. split; intros (b & Hb & Ht & He).
      * exists b. rewrite in_app_iff. auto.
      * apply in_app_iff in Hb as [Hb | [<- | []]]; [eauto |].
        rewrite Ed in Ht. discriminate.
  - destruct (Py.truthy (pmid a)) eqn:Et.
    + rewrite elem_of_union, elem_of_singleton, Hp. split.
      * intros [-> | (b & Hb & Ht & He)].
        -- exists a. rewrite in_app_iff. cbn. auto.
        -- exists b. rewrite in_app_iff. auto.
      * intros (b & Hb & Ht & He). apply in_app_iff in Hb as [Hb | [<- | []]].
        -- right. eauto.
        -- left. congruence.
    + rewrite Hp. split; intros (b & Hb & Ht & He).
      * exists b. rewrite in_app_iff. auto.
      * apply in_app_iff in Hb as [Hb | [<- | []]]; [eauto |]. congruence.
Qed.

Lemma seen_ok_initial : seen_ok (∅, ∅, []).
Proof.
  split; intros k; (split; [intros H; now apply not_elem_of_empty in H |]).
  all: intros (b & [] & _).
Qed.

Lemma seen_ok_foldl (st : dedup_state) (l : list Article) :
  seen_ok st -> seen_ok (foldl dedup_step st l).
Proof.
  revert st. induction l as [| a l IH]; intros st Hok; [exact Hok |].
  cbn. apply IH. now apply dedup_step_spec.
Qed.

(** The loop, one record further. *)
Lemma deduplicate_articles_snoc (l : list Article) (a : Article) :
  deduplicate_articles (l ++ [a])
  = if retained_after (deduplicate_articles l) a
    then deduplicate_articles l ++ [a]
    else deduplicate_articles l.
Proof.
  unfold deduplicate_articles. rewrite foldl_app. cbn [foldl].
  apply dedup_step_spec, seen_ok_foldl, seen_ok_initial.
Qed.

Lemma deduplicate_articles_nil : deduplicate_articles [] = [].
Proof. reflexivity. Qed.

Lemma deduplicate_articles_sublist (l : list Article) :
  sublist (deduplicate_articles l) l.
Proof.
  induction l as [| a l IH] using rev_ind; [constructor |].
  rewrite deduplicate_articles_snoc.
  destruct (retained_after (deduplicate_articles l) a).
  - now apply sublist_app.
  - rewrite <- (app_nil_r (deduplicate_articles l)).
    apply sublist_app; [exact IH | apply sublist_nil_l].
Qed.

(** A retained record has a non-empty identity key, which it carries. *)
Lemma deduplicate_articles_carries (l : list Article) (b : Article) :
  In b (deduplicate_articles l) ->
  Py.truthy (identifier b) = true /\ carries b (identifier b) = true.
Proof.
  induction l as [| a l IH] using rev_ind; [intros [] |].
  rewrite deduplicate_articles_snoc.
  destruct (retained_after (deduplicate_articles l) a) eqn:E; [| exact IH].
  rewrite in_app_iff. intros [Hb | [<- | []]]; [now apply IH |].
  apply andb_true_iff in E as [Ht _]. split; [exact Ht |].
  unfold carries, identifier in *.
  destruct (doi a) as [d |]; cbn.
  - destruct (Py.truthy d) eqn:Ed; cbn.
    + now rewrite bool_decide_eq_true_2.
    + now rewrite Ht, bool_decide_eq_true_2.
  - now rewrite Ht, bool_decide_eq_true_2.
Qed.

Lemma deduplicate_articles_keys_distinct (l : list Article) :
  NoDup (map identifier (deduplicate_articles l)).
Proof.
  induction l as [| a l IH] using rev_ind; [constructor |].
  rewrite deduplicate_articles_snoc.
  destruct (retained_after (deduplicate_articles l) a) eqn:E; [| exact IH].
  rewrite map_app. cbn. apply NoDup_app. split; [exact IH |].
  split; [| apply NoDup_singleton].
  intros k Hk Hk'. apply list_elem_of_In in Hk, Hk'.
  destruct Hk' as [<- | []].
  apply in_map_iff in Hk as (b & Hkey & Hb).
  apply andb_true_iff in E as [_ E].
  rewrite forallb_forall in E. specialize (E b Hb).
  destruct (deduplicate_articles_carries l b Hb) as [_ Hc].
  rewrite Hkey in Hc. rewrite Hc in E. discriminate.
Qed.

(** Every record of the input with a non-empty identity key is
    represented: some retained record carries its key. *)
Lemma deduplicate_articles_covers (l : list Article) (a : Article) :
  In a l -> Py.truthy (identifier a) = true ->
  exists b, In b (deduplicate_articles l) /\ carries b (identifier a) = true.
Proof.
  induction l as [| x l IH] using rev_ind; [intros [] |].
  rewrite in_app_iff, deduplicate_articles_snoc. intros Hin Ht.
  destruct (retained_after (deduplicate_articles l) x) eqn:E.
  - destruct Hin as [Hin | [<- | []]].
    + destruct (IH Hin Ht) as (b & Hb & Hc). exists b.
      rewrite in_app_iff. auto.
    + exists x. rewrite in_app_iff. split; [cbn; auto |].
      apply (deduplicate_articles_carries (l ++ [x])).
      rewrite deduplicate_articles_snoc, E, in_app_iff. cbn. auto.
  - destruct Hin as [Hin | [<- | []]]; [now apply IH |].
    unfold retained_after in E. rewrite Ht in E. cbn in E.
    apply not_true_iff_false in E.
    destruct (existsb (fun b => carries b (identifier x))
                      (deduplicate_articles l)) eqn:Ex.
    + apply existsb_exists in Ex. exact Ex.
    + exfalso. apply E, forallb_forall. intros b Hb.
      apply negb_true_iff.
      destruct (carries b (identifier x)) eqn:Ec; [| reflexivity].
      assert (existsb (fun b => carries b (identifier x))
                      (deduplicate_articles l) = true)
        by (apply existsb_exists; eauto).
      congruence.
Qed.

(** C2, as stated, fails: the two records have different identity keys (a
    DOI and a PMID), so neither is a duplicate of the other by identity
    key, yet the second is dropped because its PMID was seen. *)
Lemma deduplicate_drops_distinct_identity_key :
  identifier record_with_doi <> identifier record_without_doi
  /\ dedup_by_identity_key [record_with_doi; record_without_doi]
     = [record_with_doi; record_without_doi]
  /\ deduplicate_articles [record_with_doi; record_without_doi]
     = [record_with_doi]
  /\ deduplicate_articles [record_with_doi; record_without_doi]
     <> dedup_by_identity_key [record_with_doi; record_without_doi].
Proof.
  assert (H : deduplicate_articles [record_with_doi; record_without_doi]
              = [record_with_doi]).
  { change [record_with_doi; record_without_doi]
      with (([] ++ [record_with_doi]) ++ [record_without_doi]).
    rewrite !deduplicate_articles_snoc. reflexivity. }
  split; [discriminate |].
  split; [reflexivity |].
  split; [exact H |].
  rewrite H. discriminate.
Qed.

(** C2, amended.  [deduplicate_articles] returns a subsequence of its
    input, built from left to right: a record is retained exactly when its
    identity key (DOI if not empty, else PMID) is not empty and is neither
    the DOI nor the PMID of a record retained before it.  So no two
    retained records share an identity key, every record of the input that
    has a key finds it carried by a retained record, and of two records
    with the same DOI only the first is kept, whatever their PMIDs. *)
Theorem deduplicate_articles_retains
  (articles : list Article) (a a1 a2 : Article) (d : string) :
  doi a1 = Some d -> doi a2 = Some d -> Py.truthy d = true ->
  sublist (deduplicate_articles articles) articles
  /\ deduplicate_articles (articles ++ [a])
     = (if retained_after (deduplicate_articles articles) a
        then deduplicate_articles articles ++ [a]
        else deduplicate_articles articles)
  /\ NoDup (map identifier (deduplicate_articles articles))
  /\ (forall x, In x (deduplicate_articles articles) ->
                Py.truthy (identifier x) = true)
  /\ (forall x, In x articles -> Py.truthy (identifier x) = true ->
                exists b, In b (deduplicate_articles articles)
                          /\ carries b (identifier x) = true)
  /\ deduplicate_articles [a1; a2] = [a1].
Proof.
  intros H1 H2 Hd.
  split; [apply deduplicate_articles_sublist |].
  split; [apply deduplicate_articles_snoc |].
  split; [apply deduplicate_articles_keys_distinct |].
  split; [intros x Hx; now apply (deduplicate_articles_carries articles) |].
  split; [apply deduplicate_articles_covers |].
  change [a1; a2] with (([] ++ [a1]) ++ [a2]).
  rewrite !deduplicate_articles_snoc, deduplicate_articles_nil.
  unfold retained_after, carries, identifier. rewrite H1, H2. cbn.
  repeat (rewrite ?Hd, ?H1; cbn).
  now rewrite bool_decide_eq_true_2.
Qed.

Lemma deduplicate_articles_retains_witness :
  deduplicate_articles
    [record_with_doi;
     mkArticle "Erratum" "" [] "Anesthesiology" 2024 "2024-05-01" "38000777"
               (Some "10.1000/example.1") "" "english" [] "" None None "" ""
               "" None None None]
  = [record_with_doi].
Proof.
  refine (proj2 (proj2 (proj2 (proj2 (proj2
    (deduplicate_articles_retains [] record_with_doi record_with_doi
       (mkArticle "Erratum" "" [] "Anesthesiology" 2024 "2024-05-01"
                  "38000777" (Some "10.1000/example.1") "" "english" [] ""
                  None None "" "" "" None None None)
       "10.1000/example.1" eq_refl eq_refl eq_refl)))))).
Defined.

(** ** Selection *)

Section SortedFacts.
Context {A : Type} (key : A -> Q).

Lemma top_among_In (p : A -> bool) (l : list A) (a : A) :
  top_among key p l a -> In a l.
Proof.
  intros (_ & pre & post & -> & _). apply in_or_app. right. now left.
Qed.

Lemma top_among_max (p : A -> bool) (l : list A) (a c : A) :
  top_among key p l a -> In c l -> p c = true -> (key c <= key a)%Q.
Proof.
  intros (_ & pre & post & -> & Hpre & Hpost) Hc Hp.
  apply in_app_iff in Hc as [Hc | [<- | Hc]].
  - now apply Qlt_le_weak, Hpre.
  - apply Qle_refl.
  - now apply Hpost.
Qed.

Lemma insert_desc_perm (x : A) (l : list A) :
  Permutation (insert_desc key x l) (x :: l).
Proof.
  induction l as [| y l IH]; cbn; [reflexivity |].
  destruct (Qle_bool (key y) (key x)); [reflexivity |].
  rewrite IH. apply perm_swap.
Qed.

Lemma sorted_desc_perm (l : list A) : Permutation (sorted_desc key l) l.
Proof.
  induction l as [| x l IH]; cbn; [reflexivity |].
  rewrite insert_desc_perm. now constructor.
Qed.

Lemma sorted_desc_In (l : list A) (a : A) :
  In a (sorted_desc key l) <-> In a l.
Proof.
  rewrite <- !list_elem_of_In. now rewrite sorted_desc_perm.
Qed.

Lemma Qle_bool_false (a b : Q) : Qle_bool a b = false -> (b < a)%Q.
Proof.
  intros H. apply Qnot_le_lt. intros Hle.
  apply Qle_bool_iff in Hle. congruence.
Qed.

Lemma insert_desc_descending (x : A) (l : list A) :
  descending key l -> descending key (insert_desc key x l).
Proof.
  induction 1 as [| y l Hl IH Hy]; cbn.
  - repeat constructor.
  - destruct (Qle_bool (key y) (key x)) eqn:E.
    + apply Qle_bool_iff in E. constructor; [now constructor |].
      constructor; [exact E |].
      eapply Forall_impl; [exact Hy |]. cbn. intros z Hz.
      now apply Qle_trans with (key y).
    + apply Qle_bool_false in E. constructor; [exact IH |].
      rewrite Forall_forall. intros z Hz. apply list_elem_of_In in Hz.
      apply list_elem_of_In in Hz. rewrite insert_desc_perm in Hz.
      apply list_elem_of_In in Hz. destruct Hz as [<- | Hz].
      * now apply Qlt_le_weak.
      * rewrite Forall_forall in Hy. apply Hy. now apply list_elem_of_In.
Qed.

Lemma sorted_desc_descending (l : list A) : descending key (sorted_desc key l).
Proof.
  induction l as [| x l IH]; cbn; [constructor |].
  now apply insert_desc_descending.
Qed.

(** Looking for the first [p] in a sorted list after an insertion. *)
Lemma find_insert_desc (p : A -> bool) (x : A) (l : list A) :
  descending key l ->
  find p (insert_desc key x l)
  = if p x then
      match find p l with
      | Some y => if Qle_bool (key y) (key x) then Some x else Some y
      | None => Some x
      end
    else find p l.
Proof.
  induction 1 as [| y l Hl IH Hy]; cbn.
  - now destruct (p x).
  - destruct (Qle_bool (key y) (key x)) eqn:E; cbn.
    + destruct (p x) eqn:Hx; [| reflexivity].
      destruct (p y) eqn:Hpy; [now rewrite E |].
      destruct (find p l) as [z |] eqn:Hz; [| reflexivity].
      apply find_some in Hz as [Hz _].
      rewrite Forall_forall in Hy. apply list_elem_of_In, Hy in Hz.
      apply Qle_bool_iff in E.
      assert (Hle : Qle_bool (key z) (key x) = true)
        by (apply Qle_bool_iff; now apply Qle_trans with (key y)).
      now rewrite Hle.
    + destruct (p y) eqn:Hpy.
      * destruct (p x); [now rewrite E | reflexivity].
      * exact IH.
Qed.

Lemma find_sorted_desc_none (p : A -> bool) (l : list A) :
  find p (sorted_desc key l) = None -> forall c, In c l -> p c = false.
Proof.
  intros H c Hc. apply (find_none p _ H). now apply sorted_desc_In.
Qed.

(** The first [p] of the sorted list is the pick of the input. *)
Lemma find_sorted_desc (p : A -> bool) (l : list A) (a : A) :
  find p (sorted_desc key l) = Some a -> top_among key p l a.
Proof.
  revert a. induction l as [| x l IH]; intros a; cbn; [discriminate |].
  rewrite find_insert_desc by apply sorted_desc_descending.
  destruct (p x) eqn:Hx.
  - destruct (find p (sorted_desc key l)) as [y |] eqn:Hy.
    + specialize (IH y eq_refl).
      destruct (Qle_bool (key y) (key x)) eqn:E; intros [= <-].
      * apply Qle_bool_iff in E. split; [exact Hx |].
        exists [], l. split; [reflexivity |]. split; [intros c [] |].
        intros c Hc Hp. apply Qle_trans with (key y); [| exact E].
        now apply (top_among_max p l).
      * apply Qle_bool_false in E.
        destruct IH as (Hpy & pre & post & -> & Hpre & Hpost).
        split; [exact Hpy |]. exists (x :: pre), post.
        split; [reflexivity |]. split; [| exact Hpost].
        intros c [<- | Hc] Hp; [exact E | now apply Hpre].
    + intros [= <-]. split; [exact Hx |].
      exists [], l. split; [reflexivity |]. split; [intros c [] |].
      intros c Hc Hp.
      rewrite (find_sorted_desc_none p l Hy c Hc) in Hp. discriminate.
  - intros Ha. destruct (IH a Ha) as (Hpa & pre & post & -> & Hpre & Hpost).
    split; [exact Hpa |]. exists (x :: pre), post.
    split; [reflexivity |]. split; [| exact Hpost].
    intros c [<- | Hc] Hp; [congruence | now apply Hpre].
Qed.

(** The head of the sorted list is the pick among all elements. *)
Lemma head_sorted_desc (l : list A) (a : A) (rest : list A) :
  sorted_desc key l = a :: rest -> top_among key (fun _ => true) l a.
Proof.
  intros H. apply find_sorted_desc. now rewrite H.
Qed.

Lemma sorted_desc_nonempty (l : list A) :
  l <> [] -> exists a rest, sorted_desc key l = a :: rest.
Proof.
  intros Hl. destruct (sorted_desc key l) as [| a rest] eqn:E; [| eauto].
  exfalso. apply Hl. apply Permutation_nil. now rewrite <- E, sorted_desc_perm.
Qed.

End SortedFacts.

Lemma doi_or_pmid_falsy (c : Article) :
  Py.truthy (doi_or_pmid c) = false ->
  Py.truthy_opt (doi c) = false /\ Py.truthy (pmid c) = false.
Proof.
  unfold doi_or_pmid. destruct (doi c) as [d |]; cbn.
  - destruct (Py.truthy d) eqn:Et; [congruence | now split].
  - now split.
Qed.

Lemma previously_selected_iff (c : Article) (history : list HistoryEntry) :
  is_article_previously_selected c history = true <-> listed_in c history.
Proof.
  unfold is_article_previously_selected, listed_in.
  destruct (Py.truthy (doi_or_pmid c)) eqn:Et; cbn.
  - rewrite existsb_exists. unfold entry_matches.
    split; intros (e & He & H); exists e; (split; [exact He |]).
    + now rewrite orb_true_iff, !andb_true_iff, !bool_decide_eq_true in H.
    + now rewrite orb_true_iff, !andb_true_iff, !bool_decide_eq_true.
  - apply doi_or_pmid_falsy in Et as [Hd Hp]. rewrite Hd, Hp.
    split; [discriminate |].
    intros (e & _ & [[H _] | [H _]]); discriminate.
Qed.

Section SelectFacts.
Variable float_str : Q -> string.

Lemma select_top_article_eligible
  (stored : list HistoryEntry) (articles : list Article) (c : Article) :
  In c articles -> eligible stored c = true ->
  exists a, select_top_article float_str stored articles true
            = Some (a, base_rationale float_str a)
            /\ top_among score_key (eligible stored) articles a.
Proof.
  intros Hc He. unfold select_top_article.
  destruct articles as [| x l]; [destruct Hc |].
  cbn [negb].
  change (fun article => negb (is_article_previously_selected article stored))
    with (eligible stored).
  destruct (find (eligible stored) (sorted_desc score_key (x :: l)))
    as [a |] eqn:Hfind.
  - exists a. split; [reflexivity | now apply find_sorted_desc].
  - rewrite (find_sorted_desc_none score_key _ _ Hfind c Hc) in He.
    discriminate.
Qed.

Lemma select_top_article_fallback
  (stored : list HistoryEntry) (articles : list Article) :
  articles <> [] ->
  (forall c, In c articles -> eligible stored c = false) ->
  exists a, select_top_article float_str stored articles true
            = Some (a, base_rationale float_str a +:+ previously_selected_note)
            /\ top_among score_key (fun _ => true) articles a.
Proof.
  intros Hne Hall. unfold select_top_article.
  destruct articles as [| x l]; [contradiction |].
  cbn [negb].
  change (fun article => negb (is_article_previously_selected article stored))
    with (eligible stored).
  destruct (find (eligible stored) (sorted_desc score_key (x :: l)))
    as [a |] eqn:Hfind.
  - apply find_some in Hfind as [Hin Ha].
    apply sorted_desc_In in Hin. rewrite (Hall a Hin) in Ha. discriminate.
  - destruct (sorted_desc_nonempty score_key (x :: l) Hne) as (a & rest & E).
    rewrite E. exists a. split; [reflexivity |].
    now apply (head_sorted_desc score_key _ a rest).
Qed.

End SelectFacts.

(** C1, as stated, fails: the identity key of the best candidate, its DOI,
    matches no history entry, but its PMID does, and the runner-up is
    returned. *)
Lemma select_skips_candidate_listed_by_pmid :
  key_in_history record_with_doi history_by_pmid = false
  /\ (score_key runner_up < score_key record_with_doi)%Q
  /\ select_top_article float_str_halves history_by_pmid
       [record_with_doi; runner_up] true
     = Some (runner_up, base_rationale float_str_halves runner_up)
  /\ ~ returns_best_by_identity_key float_str_halves history_by_pmid
         [record_with_doi; runner_up].
Proof.
  assert (Hrun : select_top_article float_str_halves history_by_pmid
                   [record_with_doi; runner_up] true
                 = Some (runner_up, base_rationale float_str_halves runner_up))
    by (vm_compute; reflexivity).
  split; [reflexivity |]. split; [reflexivity |]. split; [exact Hrun |].
  intros (a & r & Hsel & Hbest & _).
  rewrite Hrun in Hsel. injection Hsel as <- _.
  destruct Hbest as [_ Hmax].
  - exists record_with_doi. split; [now left | reflexivity].
  - specialize (Hmax record_with_doi (or_introl eq_refl) eq_refl).
    vm_compute in Hmax. now apply Hmax.
Qed.

Lemma eligible_iff (stored : list HistoryEntry) (c : Article) :
  eligible stored c = true <-> ~ listed_in c stored.
Proof.
  unfold eligible. rewrite negb_true_iff, <- previously_selected_iff.
  now destruct (is_article_previously_selected c stored).
Qed.

(** C1, amended.  On a non-empty list, with avoid_history true, the
    selector returns the first candidate, in stable descending score
    order, that the history does not list, a candidate being listed when
    its DOI (if it has one) is the doi of an entry or its PMID (if it has
    one) is the pmid of an entry: no unlisted candidate has a higher score
    and the unlisted candidates in front of it in the input have a lower
    one.  When every candidate is listed it returns the overall top-scored
    candidate and the rationale ends with the previously-selected note. *)
Theorem select_top_article_avoiding_history
  (float_str : Q -> string) (stored : list HistoryEntry)
  (articles : list Article) :
  articles <> [] ->
  exists a r,
    select_top_article float_str stored articles true = Some (a, r)
    /\ In a articles
    /\ ((exists c, In c articles /\ ~ listed_in c stored) ->
        ~ listed_in a stored
        /\ r = base_rationale float_str a
        /\ (forall c, In c articles -> ~ listed_in c stored ->
                      (score_key c <= score_key a)%Q)
        /\ top_among score_key (eligible stored) articles a)
    /\ ((forall c, In c articles -> listed_in c stored) ->
        r = base_rationale float_str a +:+ previously_selected_note
        /\ (forall c, In c articles -> (score_key c <= score_key a)%Q)
        /\ top_among score_key (fun _ => true) articles a).
Proof.
  intros Hne.
  destruct (existsb (eligible stored) articles) eqn:Hex.
  - apply existsb_exists in Hex as (c & Hc & He).
    destruct (select_top_article_eligible float_str stored articles c Hc He)
      as (a & Hsel & Htop).
    exists a, (base_rationale float_str a).
    split; [exact Hsel |].
    split; [exact (top_among_In score_key _ _ _ Htop) |].
    split.
    + intros _. split; [apply eligible_iff, Htop |].
      split; [reflexivity |]. split; [| exact Htop].
      intros x Hx Hnl. apply (top_among_max score_key _ _ _ _ Htop Hx).
      now apply eligible_iff.
    + intros Hall. exfalso. apply eligible_iff in He. now apply He, Hall.
  - assert (Hall : forall c, In c articles -> eligible stored c = false).
    { intros c Hc. destruct (eligible stored c) eqn:E; [| reflexivity].
      assert (existsb (eligible stored) articles = true)
        by (apply existsb_exists; eauto).
      congruence. }
    destruct (select_top_article_fallback float_str stored articles Hne Hall)
      as (a & Hsel & Htop).
    exists a, (base_rationale float_str a +:+ previously_selected_note).
    split; [exact Hsel |].
    split; [exact (top_among_In score_key _ _ _ Htop) |].
    split.
    + intros (c & Hc & Hnl). exfalso.
      apply eligible_iff in Hnl. rewrite (Hall c Hc) in Hnl. discriminate.
    + intros _. split; [reflexivity |]. split; [| exact Htop].
      intros x Hx. now apply (top_among_max score_key _ _ _ _ Htop Hx).
Qed.

Lemma select_top_article_avoiding_history_witness :
  exists a r,
    select_top_article float_str_halves history_by_pmid
                       [record_with_doi; runner_up] true = Some (a, r)
    /\ In a [record_with_doi; runner_up].
Proof.
  destruct (select_top_article_avoiding_history float_str_halves
              history_by_pmid [record_with_doi; runner_up])
    as (a & r & Hsel & Hin & _).
  - discriminate.
  - exists a, r. split; [exact Hsel | exact Hin].
Defined.

(** C9.  A candidate with no DOI and an empty PMID is never reported as
    previously selected, whatever the history; so in a list that contains
    it the selector, avoiding history, returns without annotation a
    candidate that is not in the history and scores at least as much. *)
Theorem unidentified_candidate_never_previously_selected
  (float_str : Q -> string) (a : Article) (stored : list HistoryEntry)
  (articles : list Article) :
  Py.truthy_opt (doi a) = false ->
  pmid a = "" ->
  In a articles ->
  (forall history, is_article_previously_selected a history = false)
  /\ exists c,
       select_top_article float_str stored articles true
       = Some (c, base_rationale float_str c)
       /\ In c articles
       /\ is_article_previously_selected c stored = false
       /\ (score_key a <= score_key c)%Q.
Proof.
  intros Hd Hp Hin.
  assert (Hnever : forall history,
             is_article_previously_selected a history = false).
  { intros history. unfold is_article_previously_selected, doi_or_pmid.
    destruct (doi a) as [d |]; cbn in Hd.
    - now rewrite Hd, Hp.
    - now rewrite Hp. }
  split; [exact Hnever |].
  assert (He : eligible stored a = true)
    by (unfold eligible; now rewrite Hnever).
  destruct (select_top_article_eligible float_str stored articles a Hin He)
    as (c & Hsel & Htop).
  exists c. split; [exact Hsel |].
  split; [exact (top_among_In score_key _ _ _ Htop) |].
  split.
  - destruct Htop as [Hc _]. unfold eligible in Hc.
    now apply negb_true_iff in Hc.
  - exact (top_among_max score_key _ _ _ _ Htop Hin He).
Qed.

Lemma unidentified_candidate_never_previously_selected_witness :
  is_article_previously_selected unidentified_record history_by_pmid = false.
Proof.
  refine (proj1 (unidentified_candidate_never_previously_selected
                   float_str_halves unidentified_record history_by_pmid
                   [record_with_doi; unidentified_record]
                   eq_refl eq_refl _) history_by_pmid).
  right. left. reflexivity.
Defined.

(** ** The repository stage of the resolver *)

Lemma fetch_pmc_refused_step (fuel : nat) (log : list Fetch.Request) :
  Fetch._fetch_pmc refusing_net None (S fuel) (Some "10.1000/example.1") None
                   (Some "PMC7654321") default_settings log
  = Fetch._fetch_pmc refusing_net None fuel (Some "10.1000/example.1") None
      (Some "PMC7654321") default_settings
      (((log ++ [get_request (Fetch.pmc_pdf_url "PMC7654321")])
        ++ [get_request (Fetch.pmc_html_url "PMC7654321")])
       ++ [get_request Fetch.search_url]).
Proof. reflexivity. Qed.

Lemma fetch_pmc_lookup_step (fuel : nat) (log : list Fetch.Request) :
  Fetch._fetch_pmc refusing_net None (S fuel) (Some "10.1000/example.1") None
                   None default_settings log
  = Fetch._fetch_pmc refusing_net None fuel (Some "10.1000/example.1") None
      (Some "PMC7654321") default_settings
      (log ++ [get_request Fetch.search_url]).
Proof. reflexivity. Qed.

Lemma fetch_pmc_refused_round (fuel : nat) (log : list Fetch.Request) :
  Fetch._fetch_pmc refusing_net None fuel (Some "10.1000/example.1") None
                   (Some "PMC7654321") default_settings log
  = (Fetch.Done None, log ++ List.concat (replicate fuel direct_round)).
Proof.
  revert log. induction fuel as [| fuel IH]; intros log.
  - cbn. now rewrite app_nil_r.
  - rewrite fetch_pmc_refused_step, IH.
    cbn [replicate List.concat]. unfold direct_round.
    now rewrite <- !app_assoc.
Qed.

(** C5: on this network the repository stage re-enters itself as often
    as the recursion depth allows.  Whatever depth it is given, the stage,
    started without a repository identifier, looks the identifier up,
    re-enters itself, is refused, looks the identifier up again and
    re-enters again, once per unit of depth; it comes back, with nothing,
    only when the depth is used up. *)
Theorem repository_stage_reenters_without_bound (depth : nat) :
  Fetch._fetch_pmc refusing_net None (S depth) (Some "10.1000/example.1") None
                   None default_settings []
  = (Fetch.Done None,
     get_request Fetch.search_url
     :: List.concat (replicate depth direct_round)).
Proof.
  now rewrite fetch_pmc_lookup_step, fetch_pmc_refused_round.
Qed.

(** ** Excerpts under a token budget *)

Lemma tokens_of_app (l l' : list string) :
  tokens_of (l ++ l') = tokens_of l + tokens_of l'.
Proof.
  induction l as [| p l IH]; [reflexivity |].
  change (tokens_of ((p :: l) ++ l'))
    with (TextClean._estimate_tokens p + tokens_of (l ++ l')).
  change (tokens_of (p :: l))
    with (TextClean._estimate_tokens p + tokens_of l).
  lia.
Qed.

Lemma string_length_app (s t : string) :
  String.length (s +:+ t) = (String.length s + String.length t)%nat.
Proof.
  induction s as [| c s IH]; [reflexivity |].
  simpl. f_equal. exact IH.
Qed.

Lemma length_take (n : nat) (s : string) :
  (String.length (TextClean.take n s) <= n)%nat.
Proof.
  revert s. induction n as [| n IH]; intros [| c s]; cbn; try lia.
  specialize (IH s). lia.
Qed.

Lemma chars_le_tokens (piece : string) :
  Z.of_nat (String.length piece) <= 4 * TextClean._estimate_tokens piece + 3.
Proof.
  unfold TextClean._estimate_tokens.
  pose proof (Z.div_mod (Z.of_nat (String.length piece)) 4 ltac:(lia)).
  pose proof (Z.mod_pos_bound (Z.of_nat (String.length piece)) 4 ltac:(lia)).
  lia.
Qed.

Lemma chars_of_le_tokens (pieces : list string) :
  chars_of pieces <= 4 * tokens_of pieces + 3 * Z.of_nat (List.length pieces).
Proof.
  induction pieces as [| p l IH]; cbn [chars_of tokens_of fold_right List.length].
  - lia.
  - fold (chars_of l). fold (tokens_of l).
    pose proof (chars_le_tokens p). lia.
Qed.

Lemma length_join (sep : string) (pieces : list string) :
  Z.of_nat (String.length (Py.join sep pieces))
  <= chars_of pieces
     + Z.of_nat (String.length sep) * Z.of_nat (List.length pieces).
Proof.
  induction pieces as [| p l IH]; [cbn; lia |].
  destruct l as [| q l].
  - cbn. lia.
  - change (Py.join sep (p :: q :: l)) with (p +:+ sep +:+ Py.join sep (q :: l)).
    rewrite !string_length_app.
    change (chars_of (p :: q :: l))
      with (Z.of_nat (String.length p) + chars_of (q :: l)).
    change (List.length (p :: q :: l)) with (S (List.length (q :: l))).
    lia.
Qed.

(** A truncated prefix costs what was left of the budget. *)
Lemma truncated_prefix_tokens (remaining : Z) (paragraph : string) :
  0 <= remaining ->
  TextClean._estimate_tokens
    (TextClean.take (Z.to_nat (remaining * 4)) paragraph +:+ "...")
  <= remaining.
Proof.
  intros Hr. unfold TextClean._estimate_tokens.
  rewrite string_length_app.
  pose proof (length_take (Z.to_nat (remaining * 4)) paragraph).
  change (String.length "...") with 3%nat.
  apply Z.lt_succ_r, Z.div_lt_upper_bound; lia.
Qed.

(** The loop keeps the sum of the estimates within the budget. *)
Lemma select_paragraphs_tokens
  (allocated : Z) (scored : list (string * Q)) (selected : list string) :
  tokens_of selected <= allocated ->
  tokens_of (TextClean.select_paragraphs allocated selected
               (tokens_of selected) scored)
  <= allocated.
Proof.
  revert selected.
  induction scored as [| [paragraph sc] rest IH]; intros selected Hle;
    cbn [TextClean.select_paragraphs]; [exact Hle |].
  destruct (tokens_of selected + TextClean._estimate_tokens paragraph
            <=? allocated) eqn:E.
  - apply Z.leb_le in E.
    replace (tokens_of selected + TextClean._estimate_tokens paragraph)
      with (tokens_of (selected ++ [paragraph]))
      by (rewrite tokens_of_app; cbn; lia).
    apply IH. rewrite tokens_of_app. cbn. lia.
  - destruct (allocated - tokens_of selected >? 10) eqn:E'; [| exact Hle].
    rewrite tokens_of_app. cbn [tokens_of fold_right].
    pose proof (truncated_prefix_tokens (allocated - tokens_of selected)
                  paragraph ltac:(lia)).
    lia.
Qed.

(** What the loop adds: whole paragraphs, then at most one truncated
    prefix closed by an ellipsis. *)
Lemma select_paragraphs_shape
  (allocated : Z) (scored : list (string * Q)) (selected : list string)
  (current : Z) :
  exists whole tail,
    TextClean.select_paragraphs allocated selected current scored
    = selected ++ whole ++ tail
    /\ (forall p, In p whole -> In p (map fst scored))
    /\ (tail = []
        \/ exists p k, In p (map fst scored)
                       /\ tail = [TextClean.take k p +:+ "..."]).
Proof.
  revert selected current.
  induction scored as [| [paragraph sc] rest IH]; intros selected current;
    cbn [TextClean.select_paragraphs].
  - exists [], []. rewrite !app_nil_r. repeat split; [intros p [] | now left].
  - destruct (current + TextClean._estimate_tokens paragraph <=? allocated).
    + destruct (IH (selected ++ [paragraph])
                   (current + TextClean._estimate_tokens paragraph))
        as (whole & tail & -> & Hw & Ht).
      exists (paragraph :: whole), tail.
      split; [now rewrite <- app_assoc |].
      split.
      * intros p [<- | Hp]; [now left | right; now apply Hw].
      * destruct Ht as [-> | (p & k & Hp & ->)]; [now left |].
        right. exists p, k. split; [now right | reflexivity].
    + destruct (allocated - current >? 10).
      * exists [], [TextClean.take (Z.to_nat ((allocated - current) * 4))
                                   paragraph +:+ "..."].
        split; [reflexivity |]. split; [intros p [] |].
        right. exists paragraph, (Z.to_nat ((allocated - current) * 4)).
        split; [now left | reflexivity].
      * exists [], []. rewrite !app_nil_r.
        repeat split; [intros p [] | now left].
Qed.

(** The product of two floats that are not negative is not negative, and
    neither is the integer it truncates to. *)
Lemma binary_round_aux_nonneg (prec emax mx ex : Z) (lx : location) :
  nonneg_float (binary_round_aux prec emax false mx ex lx).
Proof.
  unfold binary_round_aux.
  destruct (shr_fexp prec emax mx ex lx) as [mrs' e'].
  destruct (shr_fexp prec emax _ e' loc_Exact) as [mrs'' e''].
  destruct (shr_m mrs''); cbn; try exact I.
  destruct (e'' <=? emax - prec); reflexivity.
Qed.

Lemma float_of_int_nonneg (n : Z) :
  0 <= n -> nonneg_float (TextClean.float_of_int n).
Proof.
  intros Hn. unfold TextClean.float_of_int, binary_normalize.
  destruct n as [| m | m]; [exact I | | lia].
  unfold binary_round.
  destruct (shl_align m 0 _) as [mz ez]. apply binary_round_aux_nonneg.
Qed.

Lemma SFmul_nonneg (prec emax : Z) (x y : spec_float) :
  nonneg_float x -> nonneg_float y -> nonneg_float (SFmul prec emax x y).
Proof.
  destruct x as [sx | sx | | sx mx ex], y as [sy | sy | | sy my ey];
    cbn; intros Hx Hy; subst; try exact I; try reflexivity.
  apply binary_round_aux_nonneg.
Qed.

Lemma py_int_nonneg (x : spec_float) :
  nonneg_float x -> 0 <= TextClean.py_int x.
Proof.
  destruct x as [sx | sx | | sx mx ex]; cbn; intros Hx; try lia.
  subst sx. destruct (0 <=? ex) eqn:He.
  - apply Z.mul_nonneg_nonneg; [lia |]. apply Z.pow_nonneg. lia.
  - apply Z.div_pos; [lia |]. apply Z.pow_pos_nonneg; lia.
Qed.

Lemma share_nonneg (n : TextClean.SectionName) :
  nonneg_float (FloatOps.Prim2SF (TextClean.share n)).
Proof. destruct n; vm_compute; reflexivity. Qed.

Lemma budget_nonneg (max_tokens : Z) (n : TextClean.SectionName) :
  0 <= max_tokens -> 0 <= TextClean._allocate_token_budget max_tokens n.
Proof.
  intros H. unfold TextClean._allocate_token_budget.
  apply py_int_nonneg, SFmul_nonneg;
    [now apply float_of_int_nonneg | apply share_nonneg].
Qed.

Lemma excerpt_of_section
  (st : TextClean.SectionedText) (max_tokens : Z) (n : TextClean.SectionName) :
  TextClean.get_section (TextClean.select_excerpts_for_prompt st max_tokens) n
  = TextClean._select_excerpts_from_section (TextClean.get_section st n)
      (TextClean._allocate_token_budget max_tokens n) TextClean.KEY_TERMS.
Proof. now destruct n. Qed.

(** The pieces of an excerpt, their budget and their joined length. *)
Lemma selected_pieces_budget
  (section_text : string) (allocated : Z) (key_terms : list string) :
  0 <= allocated ->
  exists whole tail,
    TextClean.selected_pieces section_text allocated key_terms = whole ++ tail
    /\ (forall p, In p whole ->
                  In p (TextClean.split TextClean.blank_line section_text))
    /\ (tail = []
        \/ exists p k, In p (TextClean.split TextClean.blank_line section_text)
                       /\ tail = [TextClean.take k p +:+ "..."])
    /\ tokens_of (whole ++ tail) <= allocated.
Proof.
  intros Hge. unfold TextClean.selected_pieces.
  set (scored := sorted_desc snd _).
  assert (Hin : forall p, In p (map fst scored) ->
                          In p (TextClean.split TextClean.blank_line section_text)).
  { intros p Hp. apply in_map_iff in Hp as ([p' sc] & <- & Hp).
    apply sorted_desc_In, in_map_iff in Hp as (q & [= <- _] & Hq). exact Hq. }
  destruct (select_paragraphs_shape allocated scored [] 0)
    as (whole & tail & E & Hw & Ht).
  exists whole, tail. cbn [app] in E.
  split; [exact E |].
  split; [intros p Hp; now apply Hin, Hw |].
  split.
  - destruct Ht as [-> | (p & k & Hp & ->)]; [now left |].
    right. exists p, k. split; [now apply Hin | reflexivity].
  - rewrite <- E. apply (select_paragraphs_tokens allocated scored []).
    exact Hge.
Qed.

(** C7, as stated, fails: with 100 tokens the abstract gets 10; the thirty
    short paragraphs are all accepted whole, none is truncated, and the
    excerpt, the text itself, is estimated at 37 tokens. *)
Lemma excerpt_exceeds_share_untruncated :
  TextClean._allocate_token_budget 100 TextClean.abstract = 10
  /\ TextClean.s_abstract
       (TextClean.select_excerpts_for_prompt short_abstract 100)
     = short_paragraphs
  /\ TextClean._estimate_tokens short_paragraphs = 37
  /\ ~ within_one_truncated_prefix
         (TextClean._allocate_token_budget 100 TextClean.abstract)
         (TextClean.s_abstract
            (TextClean.select_excerpts_for_prompt short_abstract 100)).
Proof.
  assert (Hb : TextClean._allocate_token_budget 100 TextClean.abstract = 10)
    by (vm_compute; reflexivity).
  assert (He : TextClean.s_abstract
                 (TextClean.select_excerpts_for_prompt short_abstract 100)
               = short_paragraphs) by (vm_compute; reflexivity).
  assert (Ht : TextClean._estimate_tokens short_paragraphs = 37)
    by (vm_compute; reflexivity).
  split; [exact Hb |]. split; [exact He |]. split; [exact Ht |].
  rewrite Hb, He. intros (paragraph & k & Hfit & Hle).
  rewrite Ht in Hle. lia.
Qed.

(** C7, amended.  For a non-negative budget, the excerpt of each section
    is the blank-line join of pieces, whole paragraphs of the section
    followed by at most one truncated prefix closed by an ellipsis, whose
    token estimates sum to at most the integer-truncated share of the
    section (abstract 10%, introduction 10%, methods 25%, results 35%,
    discussion 15%, conclusion 5%).  The estimate of the joined excerpt
    exceeds the share only by the rounding of each piece and the
    separators: with k pieces it has at most 4*share + 5*k characters. *)
Theorem excerpt_pieces_within_share
  (st : TextClean.SectionedText) (max_tokens : Z) (n : TextClean.SectionName) :
  0 <= max_tokens ->
  exists whole tail,
    TextClean.get_section (TextClean.select_excerpts_for_prompt st max_tokens) n
    = Py.join TextClean.blank_line (whole ++ tail)
    /\ (forall p, In p whole ->
          In p (TextClean.split TextClean.blank_line (TextClean.get_section st n)))
    /\ (tail = []
        \/ exists p k,
             In p (TextClean.split TextClean.blank_line
                                   (TextClean.get_section st n))
             /\ tail = [TextClean.take k p +:+ "..."])
    /\ tokens_of (whole ++ tail)
       <= TextClean._allocate_token_budget max_tokens n
    /\ Z.of_nat (String.length
                   (TextClean.get_section
                      (TextClean.select_excerpts_for_prompt st max_tokens) n))
       <= 4 * TextClean._allocate_token_budget max_tokens n
          + 5 * Z.of_nat (List.length (whole ++ tail))
    /\ TextClean._estimate_tokens
         (TextClean.get_section
            (TextClean.select_excerpts_for_prompt st max_tokens) n)
       <= TextClean._allocate_token_budget max_tokens n
          + 5 * Z.of_nat (List.length (whole ++ tail)) / 4.
Proof.
  intros Hmax.
  pose proof (budget_nonneg max_tokens n Hmax) as Hb.
  rewrite excerpt_of_section.
  set (budget := TextClean._allocate_token_budget max_tokens n) in *.
  set (text := TextClean.get_section st n).
  assert (Hpieces : exists whole tail,
    TextClean._select_excerpts_from_section text budget TextClean.KEY_TERMS
    = Py.join TextClean.blank_line (whole ++ tail)
    /\ (forall p, In p whole -> In p (TextClean.split TextClean.blank_line text))
    /\ (tail = []
        \/ exists p k, In p (TextClean.split TextClean.blank_line text)
                       /\ tail = [TextClean.take k p +:+ "..."])
    /\ tokens_of (whole ++ tail) <= budget).
  { unfold TextClean._select_excerpts_from_section.
    destruct (Py.truthy text); cbn [negb].
    - destruct (selected_pieces_budget text budget TextClean.KEY_TERMS Hb)
        as (whole & tail & E & Hw & Ht & Htok).
      exists whole, tail. now rewrite E.
    - exists [], []. repeat split; [intros p [] | now left | exact Hb]. }
  destruct Hpieces as (whole & tail & E & Hw & Ht & Htok).
  exists whole, tail. rewrite E.
  assert (Hlen : Z.of_nat (String.length
                             (Py.join TextClean.blank_line (whole ++ tail)))
                 <= 4 * budget + 5 * Z.of_nat (List.length (whole ++ tail))).
  { pose proof (length_join TextClean.blank_line (whole ++ tail)) as Hj.
    pose proof (chars_of_le_tokens (whole ++ tail)) as Hc.
    change (Z.of_nat (String.length TextClean.blank_line)) with 2 in Hj.
    lia. }
  repeat split; try assumption.
  unfold TextClean._estimate_tokens.
  rewrite <- (Z.div_add_l budget 4) by lia.
  apply Z.div_le_mono; lia.
Qed.

Lemma excerpt_pieces_within_share_witness :
  exists whole tail,
    TextClean.get_section
      (TextClean.select_excerpts_for_prompt short_abstract 100)
      TextClean.abstract
    = Py.join TextClean.blank_line (whole ++ tail)
    /\ tokens_of (whole ++ tail)
       <= TextClean._allocate_token_budget 100 TextClean.abstract.
Proof.
  destruct (excerpt_pieces_within_share short_abstract 100 TextClean.abstract)
    as (whole & tail & E & _ & _ & Htok & _).
  - lia.
  - exists whole, tail. split; [exact E | exact Htok].
Defined.

(** * Further properties of the code *)

(** ** Substrings *)

Lemma append_cons (x : ascii) (a b : string) :
  String x a +:+ b = String x (a +:+ b).
Proof. reflexivity. Qed.

Lemma prefix_iff (n h : string) :
  String.prefix n h = true <-> exists post, h = n +:+ post.
Proof.
  revert h. induction n as [| c n IH]; intros h.
  - split; [intros _; now exists h | intros _; now destruct h].
  - destruct h as [| d h]; simpl.
    + split; [discriminate | intros (post & H); discriminate].
    + destruct (ascii_dec c d) as [-> | Hne].
      * rewrite IH. split; intros (post & H); exists post.
        -- now rewrite H.
        -- now injection H.
      * split; [discriminate |]. intros (post & H). injection H as H1 _.
        congruence.
Qed.

Lemma string_app_assoc (a b c : string) : (a +:+ b) +:+ c = a +:+ b +:+ c.
Proof.
  induction a as [| x a IH]; [reflexivity |].
  rewrite !append_cons. f_equal. exact IH.
Qed.

Lemma contains_iff (n h : string) :
  Py.contains n h = true <-> exists pre post, h = pre +:+ n +:+ post.
Proof.
  induction h as [| d h IH]; cbn [Py.contains]; rewrite orb_true_iff.
  - split.
    + intros [H | H]; [| discriminate].
      apply prefix_iff in H as (post & H). now exists "", post.
    + intros (pre & post & H). left. apply prefix_iff.
      destruct pre; [now exists post | discriminate].
  - rewrite IH, prefix_iff. split.
    + intros [(post & H) | (pre & post & H)].
      * now exists "", post.
      * exists (String d pre), post. cbn. now rewrite H.
    + intros (pre & post & H). destruct pre as [| x pre].
      * left. now exists post.
      * right. injection H as _ H. now exists pre, post.
Qed.

(** A text that contains a word contains what the word contains. *)
Lemma contains_trans (a b c : string) :
  Py.contains a b = true -> Py.contains b c = true -> Py.contains a c = true.
Proof.
  rewrite !contains_iff. intros (p1 & q1 & ->) (p2 & q2 & ->).
  exists (p2 +:+ p1), (q1 +:+ q2). now rewrite !string_app_assoc.
Qed.

Lemma any_in_true (keywords : list string) (text : string) :
  Py.any_in keywords text = true
  <-> exists k, In k keywords /\ Py.contains k text = true.
Proof. unfold Py.any_in. apply existsb_exists. Qed.

(** ** The filters *)

(** X1.  The human-study filter rejects an article exactly when animal
    vocabulary comes without human vocabulary, in the MeSH terms or in the
    title and abstract; the closing [has_human_terms or not
    has_animal_terms] never decides. *)
Theorem is_human_study_rejects_iff (article : Article) :
  is_human_study article = false
  <-> (Py.any_in animal_keywords (Py.lower (Py.join " " (mesh_terms article)))
       = true
       /\ Py.any_in human_keywords (Py.lower (Py.join " " (mesh_terms article)))
          = false)
      \/ (Py.any_in animal_keywords (title_and_abstract article) = true
          /\ Py.any_in human_keywords (title_and_abstract article) = false).
Proof.
  unfold is_human_study.
  change (existsb (fun term => Py.contains (Py.lower term)
                     (Py.lower (Py.join " " (mesh_terms article))))
                  human_keywords)
    with (Py.any_in human_keywords (Py.lower (Py.join " " (mesh_terms article)))).
  change (existsb (fun term => Py.contains (Py.lower term)
                     (Py.lower (Py.join " " (mesh_terms article))))
                  animal_keywords)
    with (Py.any_in animal_keywords (Py.lower (Py.join " " (mesh_terms article)))).
  destruct (Py.any_in animal_keywords _), (Py.any_in human_keywords _),
    (Py.any_in animal_keywords _), (Py.any_in human_keywords _); cbn;
    intuition congruence.
Qed.

Lemma is_human_study_text_rejects (article : Article) :
  Py.any_in animal_keywords (title_and_abstract article) = true ->
  Py.any_in human_keywords (title_and_abstract article) = false ->
  is_human_study article = false.
Proof.
  intros Ha Hh. unfold is_human_study. rewrite Ha, Hh.
  now destruct (existsb _ animal_keywords), (existsb _ human_keywords).
Qed.

(** X2.  A word that contains "rat", such as "perioperative", counts as animal
    vocabulary: an article whose title or abstract has such a word and
    none of the human keywords is rejected as an animal study. *)
Theorem is_human_study_rejects_hidden_animal_word
  (article : Article) (word keyword : string) :
  In keyword animal_keywords ->
  Py.contains keyword word = true ->
  Py.contains word (title_and_abstract article) = true ->
  Py.any_in human_keywords (title_and_abstract article) = false ->
  is_human_study article = false.
Proof.
  intros Hk Hw Ht Hh. apply is_human_study_text_rejects; [| exact Hh].
  apply any_in_true. exists keyword. split; [exact Hk |].
  now apply contains_trans with word.
Qed.

Lemma is_human_study_rejects_hidden_animal_word_witness :
  is_human_study perioperative_trial = false.
Proof.
  apply (is_human_study_rejects_hidden_animal_word perioperative_trial
           "perioperative" "rat").
  - right. left. reflexivity.
  - reflexivity.
  - reflexivity.
  - reflexivity.
Defined.

(** ** Deduplication and filtering, again *)

Lemma deduplicate_articles_twice (articles : list Article) :
  deduplicate_articles (deduplicate_articles articles)
  = deduplicate_articles articles.
Proof.
  induction articles as [| a l IH] using rev_ind; [reflexivity |].
  rewrite deduplicate_articles_snoc.
  destruct (retained_after (deduplicate_articles l) a) eqn:E; [| exact IH].
  now rewrite deduplicate_articles_snoc, IH, E.
Qed.

Lemma sublist_In {A} (l1 l2 : list A) (x : A) :
  sublist l1 l2 -> In x l1 -> In x l2.
Proof.
  intros Hs Hx. apply list_elem_of_In. apply list_elem_of_In in Hx.
  now apply (sublist_subseteq _ _ Hs).
Qed.

Lemma filter_all_pass {A} (p : A -> bool) (l : list A) :
  (forall x, In x l -> p x = true) -> List.filter p l = l.
Proof.
  induction l as [| a l IH]; intros H; cbn; [reflexivity |].
  rewrite (H a (or_introl eq_refl)). f_equal. apply IH.
  intros x Hx. apply H. now right.
Qed.

Lemma filter_sublist {A} (p : A -> bool) (l : list A) :
  sublist (List.filter p l) l.
Proof.
  induction l as [| a l IH]; cbn; [constructor |].
  destruct (p a); now constructor.
Qed.

Lemma filter_articles_passes
  (settings : Config.Settings) (articles : list Article) (a : Article) :
  In a (filter_articles settings articles) ->
  In a articles
  /\ passes_filters settings a = true
  /\ Py.truthy (identifier a) = true.
Proof.
  unfold filter_articles. intros Ha.
  split; [| split].
  - apply (sublist_In _ _ _ (deduplicate_articles_sublist _)) in Ha.
    now apply filter_In in Ha as [Hin _].
  - apply (sublist_In _ _ _ (deduplicate_articles_sublist _)) in Ha.
    now apply filter_In in Ha as [_ Hp].
  - now apply (deduplicate_articles_carries _ a Ha).
Qed.

(** X3.  What [filter_articles] returns: a subsequence of its input, whose
    records all pass the six predicates, with identity keys that are not
    empty and pairwise distinct. *)
Theorem filter_articles_sound
  (settings : Config.Settings) (articles : list Article) :
  sublist (filter_articles settings articles) articles
  /\ (forall a, In a (filter_articles settings articles) ->
        is_rct_article a = true
        /\ is_human_study a = true
        /\ is_anesthesia_related a = true
        /\ is_preferred_language a = true
        /\ is_protocol_or_letter settings a = false
        /\ is_pediatric_only settings a = false
        /\ Py.truthy (identifier a) = true)
  /\ NoDup (map identifier (filter_articles settings articles)).
Proof.
  unfold filter_articles.
  split; [| split].
  - transitivity (List.filter (passes_filters settings) articles).
    + apply deduplicate_articles_sublist.
    + apply filter_sublist.
  - intros a Ha.
    assert (Hp : passes_filters settings a = true).
    { apply (sublist_In _ _ _ (deduplicate_articles_sublist _)) in Ha.
      now apply filter_In in Ha as [_ Hp]. }
    unfold passes_filters in Hp.
    rewrite !andb_true_iff, !negb_true_iff in Hp.
    destruct Hp as [[[[[H1 H2] H3] H4] H5] H6].
    repeat (split; [assumption |]).
    now apply (deduplicate_articles_carries _ a Ha).
  - apply deduplicate_articles_keys_distinct.
Qed.

(** X4.  Deduplicating twice changes nothing, and neither does filtering
    twice. *)
Theorem filter_articles_idempotent
  (settings : Config.Settings) (articles : list Article) :
  deduplicate_articles (deduplicate_articles articles)
  = deduplicate_articles articles
  /\ filter_articles settings (filter_articles settings articles)
     = filter_articles settings articles.
Proof.
  split; [apply deduplicate_articles_twice |].
  unfold filter_articles at 1.
  rewrite filter_all_pass.
  - unfold filter_articles. apply deduplicate_articles_twice.
  - intros a Ha. unfold filter_articles in Ha.
    apply (sublist_In _ _ _ (deduplicate_articles_sublist _)) in Ha.
    now apply filter_In in Ha as [_ Hp].
Qed.

(** X5.  A record with no DOI and an empty PMID never survives
    [filter_articles], whatever else it says. *)
Theorem filter_articles_drops_unidentified
  (settings : Config.Settings) (articles : list Article) (a : Article) :
  Py.truthy_opt (doi a) = false -> pmid a = "" ->
  ~ In a (filter_articles settings articles).
Proof.
  intros Hd Hp Hin.
  destruct (filter_articles_passes settings articles a Hin) as (_ & _ & Hk).
  unfold identifier in Hk. destruct (doi a) as [d |]; cbn in Hd.
  - rewrite Hd, Hp in Hk. discriminate.
  - rewrite Hp in Hk. discriminate.
Qed.

Lemma filter_articles_drops_unidentified_witness :
  passes_filters shipped_settings unidentified_trial = true
  /\ filter_articles shipped_settings [unidentified_trial; nerve_block_trial]
     = [nerve_block_trial]
  /\ ~ In unidentified_trial
         (filter_articles shipped_settings
            [unidentified_trial; nerve_block_trial]).
Proof.
  split; [vm_compute; reflexivity |].
  split; [vm_compute; reflexivity |].
  exact (filter_articles_drops_unidentified shipped_settings
           [unidentified_trial; nerve_block_trial] unidentified_trial
           eq_refl eq_refl).
Defined.

(** ** Scoring, in general *)

Ltac score_cases article :=
  unfold score_article;
  destruct (multicenter article) as [[|] |];
  destruct (Py.any_in PATIENT_CENTERED_OUTCOMES
              (Py.lower (primary_outcome article)));
  destruct (Py.any_in CLINICALLY_ACTIONABLE_INTERVENTIONS
              (Py.lower (intervention article)));
  destruct (str_in_list (journal article) HIGH_QUALITY_JOURNALS);
  (destruct (effect_summary article) as [es |];
   [destruct (Py.truthy es && (0 <? Z.of_nat (String.length (Py.strip es)))
              && (Re.percentage es || Re.number_direction es)) |]).

Ltac sample_cases article :=
  unfold score_article;
  (destruct (sample_size article) as [n |];
   [destruct (n =? 0); [| destruct (n >=? 500); [| destruct (n >=? 100)]] |]).

(** X6.  The score lies between 0 and 10, and the rationale is the fixed "no
    standout features" exactly when the score is 0, that is when no rule
    applied. *)
Theorem score_article_range (article : Article) :
  (0 <= (score_article article).1)%Q
  /\ ((score_article article).1 <= 10)%Q
  /\ ((score_article article).2 = "no standout features"
      <-> ((score_article article).1 == 0)%Q).
Proof.
  sample_cases article; score_cases article.
  all: split; [vm_compute; discriminate |].
  all: split; [vm_compute; discriminate |].
  all: split; intros H;
    first [ reflexivity | discriminate H | (vm_compute in H; discriminate H) ].
Qed.



(** X8.  Below 100 participants, or with the size unknown, the sample earns
    nothing: neither sample reason occurs in the rationale and the score is
    at most 7.0. *)
Theorem score_article_small_sample (article : Article) :
  (forall n, sample_size article = Some n -> n < 100) ->
  ((score_article article).1 <= 7.0)%Q
  /\ Py.contains "sample size" (score_article article).2 = false.
Proof.
  intros Hsmall.
  unfold score_article.
  destruct (sample_size article) as [n |].
  - specialize (Hsmall n eq_refl).
    assert (H5 : (n >=? 500) = false) by lia.
    assert (H1 : (n >=? 100) = false) by lia.
    rewrite H5, H1. destruct (n =? 0); score_cases article.
    all: split; [vm_compute; discriminate | vm_compute; reflexivity].
  - score_cases article.
    all: split; [vm_compute; discriminate | vm_compute; reflexivity].
Qed.

Lemma score_article_small_sample_witness :
  ((score_article unidentified_record).1 <= 7.0)%Q.
Proof.
  refine (proj1 (score_article_small_sample unidentified_record _)).
  intros n [= <-]. lia.
Defined.

(** ** Scoring and sorting lists *)

Lemma score_article_ignores_scoring (article : Article) (s : Q) (r : string) :
  score_article (set_scoring article s r) = score_article article.
Proof. now destruct article. Qed.

Lemma score_articles_In (articles : list Article) (a : Article) :
  In a (score_articles articles) ->
  exists a0, In a0 articles
             /\ a = set_scoring a0 (score_article a0).1 (score_article a0).2.
Proof.
  unfold score_articles. intros Ha.
  apply in_map_iff in Ha as (a0 & <- & Ha0).
  exists a0. split; [exact Ha0 |]. now destruct (score_article a0).
Qed.

(** X9.  [score_articles] keeps the order and the metadata of the records and
    writes on each the score and rationale that [score_article] gives it;
    earlier scores are not read, so scoring a scored list changes
    nothing. *)
Theorem score_articles_spec (articles : list Article) :
  List.length (score_articles articles) = List.length articles
  /\ map identifier (score_articles articles) = map identifier articles
  /\ (forall a, In a (score_articles articles) ->
        exists a0, In a0 articles
                   /\ a = set_scoring a0 (score_article a0).1 (score_article a0).2
                   /\ score a = Some (score_article a).1
                   /\ rationale a = Some (score_article a).2)
  /\ score_articles (score_articles articles) = score_articles articles.
Proof.
  unfold score_articles.
  split; [apply length_map |].
  split; [rewrite map_map; apply map_ext; intros a;
          destruct (score_article a); now destruct a |].
  split.
  - intros a Ha. apply in_map_iff in Ha as (a0 & <- & Ha0).
    exists a0. split; [exact Ha0 |].
    destruct (score_article a0) as [s r] eqn:E. cbn [fst snd].
    rewrite score_article_ignores_scoring, E. now repeat split.
  - rewrite map_map. apply map_ext. intros a.
    destruct (score_article a) as [s r] eqn:E.
    rewrite score_article_ignores_scoring, E. now destruct a.
Qed.

Section StableSort.
Context {A : Type} (key : A -> Q).

Lemma with_key_insert_desc (q : Q) (x : A) (l : list A) :
  with_key key q (insert_desc key x l) = with_key key q (x :: l).
Proof.
  induction l as [| y l IH]; [reflexivity |].
  cbn [insert_desc]. destruct (Qle_bool (key y) (key x)) eqn:E; [reflexivity |].
  apply Qle_bool_false in E.
  unfold with_key in *. cbn [List.filter] in *. rewrite IH.
  destruct (Qeq_bool (key x) q) eqn:Ex; [| reflexivity].
  destruct (Qeq_bool (key y) q) eqn:Ey; [| reflexivity].
  exfalso. apply Qeq_bool_eq in Ex, Ey.
  rewrite Ex, Ey in E. now apply (Qlt_irrefl q).
Qed.

Lemma with_key_sorted_desc (q : Q) (l : list A) :
  with_key key q (sorted_desc key l) = with_key key q l.
Proof.
  induction l as [| x l IH]; [reflexivity |].
  cbn [sorted_desc]. rewrite with_key_insert_desc.
  unfold with_key in *. cbn [List.filter]. now rewrite IH.
Qed.

Lemma sorted_desc_fixed (l : list A) :
  descending key l -> sorted_desc key l = l.
Proof.
  induction 1 as [| x l Hl IH Hx]; [reflexivity |].
  cbn [sorted_desc]. rewrite IH.
  destruct l as [| y l]; [reflexivity |].
  cbn [insert_desc].
  assert (E : Qle_bool (key y) (key x) = true).
  { apply Qle_bool_iff. rewrite Forall_forall in Hx. apply Hx. now left. }
  now rewrite E.
Qed.

Lemma sorted_desc_idempotent (l : list A) :
  sorted_desc key (sorted_desc key l) = sorted_desc key l.
Proof. apply sorted_desc_fixed, sorted_desc_descending. Qed.

End StableSort.

(** X10.  [sort_articles_by_score] rearranges its input into non-increasing
    score order and is stable: the records of any one score keep their
    input order.  A missing score counts as 0.0. *)
Theorem sort_articles_by_score_stable (articles : list Article) :
  Permutation (sort_articles_by_score articles) articles
  /\ StronglySorted (fun x y => (score_key y <= score_key x)%Q)
                    (sort_articles_by_score articles)
  /\ (forall q : Q,
        with_key score_key q (sort_articles_by_score articles)
        = with_key score_key q articles)
  /\ sort_articles_by_score (sort_articles_by_score articles)
     = sort_articles_by_score articles.
Proof.
  unfold sort_articles_by_score.
  split; [apply sorted_desc_perm |].
  split; [apply (sorted_desc_descending score_key) |].
  split; [intros q; apply with_key_sorted_desc |].
  apply sorted_desc_idempotent.
Qed.

(** ** Selection, the other cases *)

Lemma select_top_article_nonempty
  (float_str : Q -> string) (stored : list HistoryEntry)
  (articles : list Article) (avoid_history : bool) :
  articles <> [] ->
  select_top_article float_str stored articles avoid_history <> None.
Proof.
  intros Hne H. destruct articles as [| x l]; [now apply Hne |].
  destruct (sorted_desc_nonempty score_key (x :: l) ltac:(discriminate))
    as (a & rest & E).
  unfold select_top_article in H. rewrite E in H.
  destruct avoid_history; cbn [negb] in H; [| discriminate].
  destruct (find _ (a :: rest)); discriminate.
Qed.

(** X11.  With avoid_history false the history is not consulted: the selector
    returns the top-scored candidate, the first of them in input order,
    with the plain rationale. *)
Theorem select_top_article_allowing_repeats
  (float_str : Q -> string) (stored : list HistoryEntry)
  (articles : list Article) :
  articles <> [] ->
  exists a,
    select_top_article float_str stored articles false
    = Some (a, base_rationale float_str a)
    /\ top_among score_key (fun _ => true) articles a
    /\ (forall c, In c articles -> (score_key c <= score_key a)%Q).
Proof.
  intros Hne.
  destruct (sorted_desc_nonempty score_key articles Hne) as (a & rest & E).
  exists a. unfold select_top_article.
  destruct articles as [| x l]; [contradiction |].
  cbn [negb]. rewrite E.
  pose proof (head_sorted_desc score_key _ a rest E) as Htop.
  split; [reflexivity |]. split; [exact Htop |].
  intros c Hc. now apply (top_among_max score_key _ _ _ _ Htop Hc).
Qed.

Lemma select_top_article_allowing_repeats_witness :
  exists a,
    select_top_article float_str_halves history_by_pmid
                       [runner_up; record_with_doi] false
    = Some (a, base_rationale float_str_halves a).
Proof.
  destruct (select_top_article_allowing_repeats float_str_halves
              history_by_pmid [runner_up; record_with_doi])
    as (a & Hsel & _).
  - discriminate.
  - exists a. exact Hsel.
Defined.

(** X12.  The command line sorts the candidates before it hands them to the
    selector, which sorts again: the second sort changes nothing, so the
    selection is that of the unsorted list. *)
Theorem select_top_article_of_sorted
  (float_str : Q -> string) (stored : list HistoryEntry)
  (articles : list Article) (avoid_history : bool) :
  select_top_article float_str stored (sort_articles_by_score articles)
                     avoid_history
  = select_top_article float_str stored articles avoid_history.
Proof.
  unfold sort_articles_by_score.
  destruct articles as [| x l]; [reflexivity |].
  destruct (sorted_desc_nonempty score_key (x :: l) ltac:(discriminate))
    as (a & rest & E).
  unfold select_top_article.
  rewrite sorted_desc_idempotent. now rewrite E.
Qed.

Lemma select_top_article_In
  (float_str : Q -> string) (stored : list HistoryEntry)
  (articles : list Article) (avoid_history : bool) (a : Article) (r : string) :
  select_top_article float_str stored articles avoid_history = Some (a, r) ->
  In a articles.
Proof.
  unfold select_top_article. destruct articles as [| x l]; [discriminate |].
  assert (Hhead : forall y rest, sorted_desc score_key (x :: l) = y :: rest ->
                                 In y (x :: l)).
  { intros y rest E. apply (sorted_desc_In score_key). rewrite E. now left. }
  destruct avoid_history; cbn [negb].
  - destruct (find _ (sorted_desc score_key (x :: l))) as [y |] eqn:Hf.
    + intros [= <- _]. apply find_some in Hf as [Hin _].
      exact (proj1 (sorted_desc_In score_key _ _) Hin).
    + destruct (sorted_desc score_key (x :: l)) as [| y rest] eqn:E;
        [discriminate |].
      intros [= <- _]. now apply (Hhead y rest).
  - destruct (sorted_desc score_key (x :: l)) as [| y rest] eqn:E;
      [discriminate |].
    intros [= <- _]. now apply (Hhead y rest).
Qed.

(** X13.  The chain of the command line, filter, score, sort, select: the
    article selected is a record of the input that passes the six filters,
    carrying the score and rationale [score_article] gives it. *)
Theorem selected_article_is_filtered_and_scored
  (float_str : Q -> string) (settings : Config.Settings)
  (stored : list HistoryEntry) (articles : list Article)
  (allow_repeat : bool) (a : Article) (r : string) :
  select_top_article float_str stored
    (sort_articles_by_score (score_articles (filter_articles settings articles)))
    (negb allow_repeat)
  = Some (a, r) ->
  exists a0,
    In a0 articles
    /\ passes_filters settings a0 = true
    /\ Py.truthy (identifier a0) = true
    /\ a = set_scoring a0 (score_article a0).1 (score_article a0).2
    /\ score a = Some (score_article a0).1.
Proof.
  intros Hsel. apply select_top_article_In in Hsel.
  apply (proj1 (sorted_desc_In score_key _ _)) in Hsel.
  destruct (score_articles_In _ _ Hsel) as (a0 & Ha0 & ->).
  exists a0.
  destruct (filter_articles_passes settings articles a0 Ha0)
    as (Hin & Hpass & Hid).
  repeat (split; [assumption |]). split; reflexivity.
Qed.

Lemma selected_article_is_filtered_and_scored_witness :
  exists a0,
    In a0 [perioperative_trial; nerve_block_trial]
    /\ passes_filters shipped_settings a0 = true.
Proof.
  destruct (selected_article_is_filtered_and_scored float_str_halves
              shipped_settings history_by_pmid
              [perioperative_trial; nerve_block_trial] false
              (set_scoring nerve_block_trial
                 (score_article nerve_block_trial).1
                 (score_article nerve_block_trial).2)
              (base_rationale float_str_halves
                 (set_scoring nerve_block_trial
                    (score_article nerve_block_trial).1
                    (score_article nerve_block_trial).2)))
    as (a0 & Hin & Hp & _).
  - vm_compute. reflexivity.
  - exists a0. split; [exact Hin | exact Hp].
Defined.

(** ** The history file *)

Lemma recorded_entry_listed
  (article : Article) (why : string) (stored : list HistoryEntry) :
  Py.truthy (doi_or_pmid article) = true ->
  is_article_previously_selected article
    (stored ++ [history_entry article why]) = true.
Proof.
  intros Hid. apply previously_selected_iff.
  exists (history_entry article why).
  split; [apply in_app_last |].
  unfold doi_or_pmid in Hid. cbn [history_entry h_doi h_pmid].
  destruct (doi article) as [d |] eqn:Ed; cbn.
  - destruct (Py.truthy d) eqn:Et; [left; now split | right; now split].
  - right. now split.
Qed.

(** X14.  Recording a selection appends one entry to what could be loaded (to
    nothing when the file is missing or unreadable, whose earlier content
    is then replaced), whatever the article; every candidate the history
    listed is still listed; and the recorded article, if it has a DOI or a
    PMID, is listed from now on. *)
Theorem record_selected_article_lists_it
  (article : Article) (why : string) (file : HistoryFile) :
  load_selection_history (record_selected_article true article why file)
  = load_selection_history file ++ [history_entry article why]
  /\ (forall c,
        is_article_previously_selected c (load_selection_history file) = true ->
        is_article_previously_selected c
          (load_selection_history
             (record_selected_article true article why file)) = true)
  /\ (Py.truthy (doi_or_pmid article) = true ->
      is_article_previously_selected article
        (load_selection_history (record_selected_article true article why file))
      = true).
Proof.
  assert (Hload : load_selection_history
                    (record_selected_article true article why file)
                  = load_selection_history file ++ [history_entry article why])
    by reflexivity.
  split; [exact Hload |]. rewrite Hload.
  split.
  - intros c Hc. apply previously_selected_iff.
    apply previously_selected_iff in Hc as (e & He & Hm).
    exists e. split; [now apply in_app_keep | exact Hm].
  - intros Hid. now apply recorded_entry_listed.
Qed.

(** On a history that lists PMID 38000001: after the runner-up is recorded
    the history has two entries, the record with that PMID is still
    listed and the runner-up is listed. *)
Lemma record_selected_article_lists_it_witness :
  load_selection_history
    (record_selected_article true runner_up "top score" (Holds history_by_pmid))
  = history_by_pmid ++ [history_entry runner_up "top score"]
  /\ is_article_previously_selected record_with_doi
       (load_selection_history
          (record_selected_article true runner_up "top score"
             (Holds history_by_pmid)))
     = true
  /\ is_article_previously_selected runner_up
       (load_selection_history
          (record_selected_article true runner_up "top score"
             (Holds history_by_pmid)))
     = true.
Proof.
  destruct (record_selected_article_lists_it runner_up "top score"
              (Holds history_by_pmid)) as (Hload & Hkept & Hlisted).
  split; [exact Hload |].
  split; [apply Hkept; reflexivity | apply Hlisted; reflexivity].
Defined.

(** X15.  Across runs: once an article with a DOI or PMID is recorded, a later
    run that avoids history does not select it again as long as some
    candidate is not in the history. *)
Theorem recorded_article_not_reselected
  (float_str : Q -> string) (article other : Article) (why : string)
  (file : HistoryFile) (articles : list Article) (a : Article) (r : string) :
  Py.truthy (doi_or_pmid article) = true ->
  In other articles ->
  is_article_previously_selected other
    (load_selection_history (record_selected_article true article why file))
  = false ->
  select_top_article float_str
    (load_selection_history (record_selected_article true article why file))
    articles true
  = Some (a, r) ->
  a <> article
  /\ r = base_rationale float_str a
  /\ is_article_previously_selected a
       (load_selection_history (record_selected_article true article why file))
     = false.
Proof.
  intros Hid Hin Hother Hsel.
  set (stored := load_selection_history
                   (record_selected_article true article why file)) in *.
  assert (He : eligible stored other = true)
    by (unfold eligible; now rewrite Hother).
  destruct (select_top_article_eligible float_str stored articles other Hin He)
    as (x & Hx & Htop).
  rewrite Hx in Hsel. injection Hsel as <- <-.
  destruct Htop as [Hel _]. unfold eligible in Hel.
  apply negb_true_iff in Hel.
  split; [| split; [reflexivity | exact Hel]].
  intros ->.
  assert (Hlisted : is_article_previously_selected article stored = true)
    by apply (recorded_entry_listed article why _ Hid).
  congruence.
Qed.

Lemma recorded_article_not_reselected_witness :
  runner_up <> record_with_doi.
Proof.
  refine (proj1 (recorded_article_not_reselected float_str_halves
                   record_with_doi runner_up "top score" Missing
                   [record_with_doi; runner_up] runner_up
                   (base_rationale float_str_halves runner_up)
                   eq_refl _ eq_refl _)).
  - right. left. reflexivity.
  - vm_compute. reflexivity.
Defined.

(** ** The results of the resolver *)

Section ResolverFacts.
Variable net : list Fetch.Request -> Fetch.Request -> option Fetch.Response.
Variable env_user_agent : option string.

Ltac stage_steps :=
  repeat (first
    [ progress (unfold Fetch.bind, Fetch.ret, Fetch.bind_done, Fetch.lift,
                Fetch.or_else in *)
    | progress simplify_eq/=
    | case_match ]).

Lemma make_request_log (url : string) (settings : Fetch.Settings)
  (expected : option string) (log : list Fetch.Request) :
  exists request,
    (Fetch._make_request net env_user_agent url settings expected log).2
    = log ++ [request]
    /\ Fetch.req_url request = url.
Proof.
  unfold Fetch._make_request. eexists. 
  destruct (net log _) as [response |]; [| split; reflexivity].
  destruct (_ && _); split; reflexivity.
Qed.

Ltac result_done :=
  split; [reflexivity |];
  split; [reflexivity |];
  split; cbn; [congruence | discriminate].

Lemma fetch_unpaywall_result (doi : option string) (settings : Fetch.Settings)
  (log log' : list Fetch.Request) (r : Fetch.FullTextResult) :
  Fetch._fetch_unpaywall net env_user_agent doi settings log = (Some r, log') ->
  result_of "unpaywall" r.
Proof.
  unfold Fetch._fetch_unpaywall. intros H. stage_steps. all: result_done.
Qed.

Lemma fetch_pmc_result (fuel : nat) (doi pmid pmcid : option string)
  (settings : Fetch.Settings) (log log' : list Fetch.Request)
  (r : Fetch.FullTextResult) :
  Fetch._fetch_pmc net env_user_agent fuel doi pmid pmcid settings log
  = (Fetch.Done (Some r), log') ->
  result_of "pmc" r /\ Py.truthy_opt (Fetch.pmcid r) = true.
Proof.
  revert pmcid log.
  induction fuel as [| fuel IH]; intros pmcid log H; [discriminate |].
  cbn [Fetch._fetch_pmc] in H.
  assert (Hlookup : forall log0,
    Fetch.bind
      (Fetch._get_pmcid_from_identifiers net env_user_agent doi pmid settings)
      (fun found =>
         if Py.truthy_opt found
         then Fetch._fetch_pmc net env_user_agent fuel doi pmid found settings
         else Fetch.ret (Fetch.Done None)) log0
    = (Fetch.Done (Some r), log') ->
    result_of "pmc" r /\ Py.truthy_opt (Fetch.pmcid r) = true).
  { intros log0 H0. unfold Fetch.bind in H0.
    destruct (Fetch._get_pmcid_from_identifiers _ _ _ _ _ _) as [found log1].
    destruct (Py.truthy_opt found); [now apply IH in H0 | discriminate]. }
  destruct pmcid as [id |]; [| now apply Hlookup in H].
  destruct (Py.truthy id) eqn:Eid; [| now apply Hlookup in H].
  unfold Fetch.bind at 1 in H.
  destruct (Fetch._make_request _ _ _ _ _ log) as [resp1 log1].
  destruct (Fetch.ok200 resp1).
  - injection H as <- _. split; [result_done | exact Eid].
  - unfold Fetch.bind at 1 in H.
    destruct (Fetch._make_request _ _ _ _ _ log1) as [resp2 log2].
    destruct (Fetch.ok200 resp2).
    + injection H as <- _. split; [result_done | exact Eid].
    + now apply Hlookup in H.
Qed.

Lemma try_links_result (pmcid : option string) (links : list Fetch.FullTextUrl)
  (settings : Fetch.Settings) (log log' : list Fetch.Request)
  (r : Fetch.FullTextResult) :
  Fetch.try_links net env_user_agent pmcid links settings log = (Some r, log') ->
  result_of "europempc" r.
Proof.
  revert log. induction links as [| link links IH]; intros log H;
    [discriminate |].
  cbn [Fetch.try_links] in H.
  destruct (bool_decide (Fetch.documentType link = Some "pdf")).
  - destruct (Py.truthy_opt (Fetch.link_url link)); [| now apply IH in H].
    unfold Fetch.bind at 1 in H.
    destruct (Fetch._make_request _ _ _ _ _ log) as [resp log1].
    destruct (Fetch.ok200 resp); [| now apply IH in H].
    injection H as <- _. result_done.
  - destruct (bool_decide (Fetch.documentType link = Some "html"));
      [| now apply IH in H].
    destruct (Py.truthy_opt (Fetch.link_url link)); [| now apply IH in H].
    unfold Fetch.bind at 1 in H.
    destruct (Fetch._make_request _ _ _ _ _ log) as [resp log1].
    destruct (Fetch.ok200 resp); [| now apply IH in H].
    injection H as <- _. result_done.
Qed.

Lemma fetch_europe_pmc_result (fuel : nat) (doi pmid : option string)
  (settings : Fetch.Settings) (log log' : list Fetch.Request)
  (r : Fetch.FullTextResult) :
  Fetch._fetch_europe_pmc net env_user_agent fuel doi pmid settings log
  = (Fetch.Done (Some r), log') ->
  result_of "europempc" r \/ result_of "pmc" r.
Proof.
  unfold Fetch._fetch_europe_pmc. intros H.
  destruct (negb (Fetch.has_identifier doi pmid)); [discriminate |].
  unfold Fetch.bind at 1 in H.
  destruct (Fetch._make_request _ _ _ _ _ log) as [resp log1].
  destruct (Fetch.ok200 resp) as [ok |]; [| discriminate].
  destruct (Fetch.first_result ok) as [res |]; [| discriminate].
  unfold Fetch.bind at 1 in H.
  destruct (Fetch.try_links _ _ _ _ _ log1) as [[found |] log2] eqn:El.
  - injection H as <- _. left. now apply try_links_result in El.
  - destruct (Py.truthy_opt (Fetch.result_pmcid res)); [| discriminate].
    right. now apply fetch_pmc_result in H.
Qed.

Lemma fetch_crossref_result (doi : string) (settings : Fetch.Settings)
  (log log' : list Fetch.Request) (r : Fetch.FullTextResult) :
  Fetch._fetch_crossref net env_user_agent doi settings log = (Some r, log') ->
  result_of "publisher" r.
Proof.
  unfold Fetch._fetch_crossref. intros H. stage_steps. all: result_done.
Qed.

Lemma fetch_abstract_result (doi pmid : option string)
  (settings : Fetch.Settings) (log log' : list Fetch.Request)
  (r : Fetch.FullTextResult) :
  Fetch._fetch_abstract net env_user_agent doi pmid settings log
  = (Some r, log') ->
  result_of "abstract" r /\ Py.truthy_opt (Fetch.abstract_text r) = true.
Proof.
  unfold Fetch._fetch_abstract. intros H. stage_steps.
  match goal with
  | Ht : Py.truthy_opt (Fetch.abstractText ?res) = true |- _ =>
      destruct (Fetch.abstractText res) eqn:Ea; [| discriminate Ht];
      split; [| exact Ht];
      split; [reflexivity |]; split; [reflexivity |];
      split; cbn; [reflexivity | discriminate]
  end.
Qed.

Lemma fetch_pmc_without_identifiers (fuel : nat) (doi pmid : option string)
  (settings : Fetch.Settings) (log : list Fetch.Request) :
  Fetch.has_identifier doi pmid = false ->
  Fetch._fetch_pmc net env_user_agent (S fuel) doi pmid None settings log
  = (Fetch.Done None, log).
Proof.
  intros H. cbn [Fetch._fetch_pmc].
  unfold Fetch.bind, Fetch._get_pmcid_from_identifiers. now rewrite H.
Qed.

Lemma or_else_done
  (stage next : Fetch.M (Fetch.outcome (option Fetch.FullTextResult)))
  (log log' : list Fetch.Request) (r : Fetch.FullTextResult) :
  Fetch.or_else stage next log = (Fetch.Done (Some r), log') ->
  stage log = (Fetch.Done (Some r), log')
  \/ exists log1, stage log = (Fetch.Done None, log1)
                  /\ next log1 = (Fetch.Done (Some r), log').
Proof.
  unfold Fetch.or_else, Fetch.bind_done, Fetch.bind, Fetch.ret.
  destruct (stage log) as [[[r1 |] |] log1]; intros H.
  - left. exact H.
  - right. now exists log1.
  - discriminate.
Qed.

Lemma or_else_none
  (stage next : Fetch.M (Fetch.outcome (option Fetch.FullTextResult)))
  (log log1 : list Fetch.Request) :
  stage log = (Fetch.Done None, log1) ->
  Fetch.or_else stage next log = next log1.
Proof.
  intros H. unfold Fetch.or_else, Fetch.bind_done, Fetch.bind. now rewrite H.
Qed.

Lemma lift_done {A} (m : Fetch.M A) (log log' : list Fetch.Request) (a : A) :
  Fetch.lift m log = (Fetch.Done a, log') -> m log = (a, log').
Proof.
  unfold Fetch.lift, Fetch.bind, Fetch.ret.
  destruct (m log) as [a0 log0]. now intros [= -> ->].
Qed.

Lemma grows_ret {A} (a : A) : grows (Fetch.ret a).
Proof. intros log. exists []. cbn. now rewrite app_nil_r. Qed.

Lemma grows_bind {A B} (m : Fetch.M A) (k : A -> Fetch.M B) :
  grows m -> (forall a, grows (k a)) -> grows (Fetch.bind m k).
Proof.
  intros Hm Hk log. unfold Fetch.bind.
  destruct (Hm log) as (more & E). destruct (m log) as [a log1]. cbn in E.
  destruct (Hk a log1) as (more' & E'). exists (more ++ more').
  now rewrite E', E, app_assoc.
Qed.

Lemma grows_make_request (url : string) (settings : Fetch.Settings)
  (expected : option string) :
  grows (Fetch._make_request net env_user_agent url settings expected).
Proof.
  intros log. destruct (make_request_log url settings expected log)
    as (request & E & _).
  now exists [request].
Qed.

Lemma settles_done {A} (a : A) : settles (Fetch.ret (Fetch.Done a)).
Proof. intros log. exists a, []. cbn. now rewrite app_nil_r. Qed.

Lemma settles_bind {A B} (m : Fetch.M A) (k : A -> Fetch.M (Fetch.outcome B)) :
  grows m -> (forall a, settles (k a)) -> settles (Fetch.bind m k).
Proof.
  intros Hm Hk log. unfold Fetch.bind.
  destruct (Hm log) as (more & E). destruct (m log) as [a log1]. cbn in E.
  destruct (Hk a log1) as (b & more' & E'). exists b, (more ++ more').
  now rewrite E', E, app_assoc.
Qed.

Lemma settles_lift {A} (m : Fetch.M A) : grows m -> settles (Fetch.lift m).
Proof.
  intros Hm. unfold Fetch.lift. apply settles_bind; [exact Hm |].
  intros a. apply settles_done.
Qed.

Lemma settles_or_else
  (stage next : Fetch.M (Fetch.outcome (option Fetch.FullTextResult))) :
  settles stage -> settles next -> settles (Fetch.or_else stage next).
Proof.
  intros Hs Hn log. unfold Fetch.or_else, Fetch.bind_done, Fetch.bind.
  destruct (Hs log) as ([r |] & more & ->).
  - now exists (Some r), more.
  - destruct (Hn (log ++ more)) as (b & more' & ->).
    exists b, (more ++ more'). now rewrite app_assoc.
Qed.

Ltac grows_steps :=
  repeat first
    [ apply grows_ret
    | apply grows_make_request
    | apply settles_done
    | apply grows_bind; [| intros ?]
    | apply settles_bind; [| intros ?]
    | assumption
    | match goal with
      | |- context [match ?x with _ => _ end] => destruct x
      end ].

Lemma grows_get_pmcid (doi pmid : option string) (settings : Fetch.Settings) :
  grows (Fetch._get_pmcid_from_identifiers net env_user_agent doi pmid settings).
Proof. unfold Fetch._get_pmcid_from_identifiers. grows_steps. Qed.

Lemma settles_fetch_pmc (fuel : nat) (doi pmid pmcid : option string)
  (settings : Fetch.Settings) :
  settles (Fetch._fetch_pmc net env_user_agent fuel doi pmid pmcid settings).
Proof.
  revert pmcid. induction fuel as [| fuel IH]; intros pmcid;
    [apply settles_done |].
  cbn [Fetch._fetch_pmc]. cbv zeta.
  grows_steps; first [apply grows_get_pmcid | apply IH].
Qed.

Lemma grows_fetch_unpaywall (doi : option string) (settings : Fetch.Settings) :
  grows (Fetch._fetch_unpaywall net env_user_agent doi settings).
Proof. unfold Fetch._fetch_unpaywall. grows_steps. Qed.

Lemma grows_try_links (pmcid : option string) (links : list Fetch.FullTextUrl)
  (settings : Fetch.Settings) :
  grows (Fetch.try_links net env_user_agent pmcid links settings).
Proof.
  induction links as [| link links IH]; [apply grows_ret |].
  cbn [Fetch.try_links]. grows_steps.
Qed.

Lemma settles_fetch_europe_pmc (fuel : nat) (doi pmid : option string)
  (settings : Fetch.Settings) :
  settles (Fetch._fetch_europe_pmc net env_user_agent fuel doi pmid settings).
Proof.
  unfold Fetch._fetch_europe_pmc.
  pose proof (settles_fetch_pmc fuel doi pmid) as Hpmc.
  pose proof grows_try_links as Hlinks.
  repeat first
    [ apply settles_done
    | apply grows_make_request
    | apply Hpmc
    | apply Hlinks
    | apply settles_bind; [| intros ?]
    | match goal with
      | |- context [match ?x with _ => _ end] => destruct x
      end ].
Qed.

Lemma grows_fetch_crossref (doi : string) (settings : Fetch.Settings) :
  grows (Fetch._fetch_crossref net env_user_agent doi settings).
Proof. unfold Fetch._fetch_crossref. grows_steps. Qed.

Lemma grows_fetch_abstract (doi pmid : option string)
  (settings : Fetch.Settings) :
  grows (Fetch._fetch_abstract net env_user_agent doi pmid settings).
Proof. unfold Fetch._fetch_abstract. grows_steps. Qed.

(** The stages that follow Unpaywall in the resolver. *)
Lemma settles_later_stages (fuel : nat) (doi pmid : option string)
  (settings : Fetch.Settings) :
  settles
    (Fetch.or_else
       (Fetch._fetch_europe_pmc net env_user_agent fuel doi pmid settings)
       (Fetch.or_else
          (if Py.truthy_opt doi
           then Fetch.lift
                  (Fetch._fetch_crossref net env_user_agent (default "" doi)
                     settings)
           else Fetch.ret (Fetch.Done None))
          (if default true (Fetch.abstract_only_ok settings)
           then Fetch.lift
                  (Fetch._fetch_abstract net env_user_agent doi pmid settings)
           else Fetch.ret (Fetch.Done None)))).
Proof.
  apply settles_or_else; [apply settles_fetch_europe_pmc |].
  apply settles_or_else.
  - destruct (Py.truthy_opt doi);
      [apply settles_lift, grows_fetch_crossref | apply settles_done].
  - destruct (default true (Fetch.abstract_only_ok settings));
      [apply settles_lift, grows_fetch_abstract | apply settles_done].
Qed.

Lemma settles_resolve_fulltext (fuel : nat) (doi pmid : option string)
  (settings : Fetch.Settings) :
  settles (Fetch.resolve_fulltext net env_user_agent fuel doi pmid settings).
Proof.
  unfold Fetch.resolve_fulltext.
  destruct (Py.truthy_opt (Fetch.fulltext_override settings));
    [apply settles_done |].
  destruct (negb (default true (Fetch.allow_network settings)));
    [apply settles_done |].
  apply settles_or_else; [apply settles_fetch_pmc |].
  apply settles_or_else; [| apply settles_later_stages].
  destruct (Py.truthy_opt (Fetch.unpaywall_email settings));
    [apply settles_lift, grows_fetch_unpaywall | apply settles_done].
Qed.

Lemma resolve_fulltext_shape
  (fuel : nat) (doi pmid : option string) (settings : Fetch.Settings)
  (log log' : list Fetch.Request) (r : Fetch.FullTextResult) :
  Fetch.resolve_fulltext net env_user_agent fuel doi pmid settings log
  = (Fetch.Done (Some r), log') ->
  payloads r = 1%nat
  /\ In (Fetch.route r)
        ["override"; "pmc"; "unpaywall"; "europempc"; "publisher"; "abstract"]
  /\ (Fetch.abstract_text r <> None <-> Fetch.route r = "abstract")
  /\ (Fetch.route r = "override"
      <-> Py.truthy_opt (Fetch.fulltext_override settings) = true)
  /\ (Fetch.route r <> "override" ->
      default true (Fetch.allow_network settings) = true)
  /\ (Fetch.route r = "abstract" ->
      default true (Fetch.abstract_only_ok settings) = true)
  /\ (Fetch.route r = "unpaywall" ->
      Py.truthy_opt (Fetch.unpaywall_email settings) = true)
  /\ (Fetch.route r = "publisher" -> Py.truthy_opt doi = true).
Proof.
  unfold Fetch.resolve_fulltext. intros H.
  assert (Hshape : forall name, result_of name r ->
            In name ["pmc"; "unpaywall"; "europempc"; "publisher"; "abstract"] ->
            (name = "abstract" ->
             default true (Fetch.abstract_only_ok settings) = true) ->
            (name = "unpaywall" ->
             Py.truthy_opt (Fetch.unpaywall_email settings) = true) ->
            (name = "publisher" -> Py.truthy_opt doi = true) ->
            Py.truthy_opt (Fetch.fulltext_override settings) = false ->
            default true (Fetch.allow_network settings) = true ->
            payloads r = 1%nat
            /\ In (Fetch.route r)
                  ["override"; "pmc"; "unpaywall"; "europempc"; "publisher";
                   "abstract"]
            /\ (Fetch.abstract_text r <> None <-> Fetch.route r = "abstract")
            /\ (Fetch.route r = "override"
                <-> Py.truthy_opt (Fetch.fulltext_override settings) = true)
            /\ (Fetch.route r <> "override" ->
                default true (Fetch.allow_network settings) = true)
            /\ (Fetch.route r = "abstract" ->
                default true (Fetch.abstract_only_ok settings) = true)
            /\ (Fetch.route r = "unpaywall" ->
                Py.truthy_opt (Fetch.unpaywall_email settings) = true)
            /\ (Fetch.route r = "publisher" -> Py.truthy_opt doi = true)).
  { intros name (Hr & Hp & Ha) Hin Habs Hunp Hpub Hov Hnet. rewrite Hr.
    split; [exact Hp |]. split; [now right |]. split; [exact Ha |].
    split; [| now repeat split].
    rewrite Hov. split; [| discriminate].
    intros ->. cbn in Hin. intuition discriminate. }
  destruct (Py.truthy_opt (Fetch.fulltext_override settings)) eqn:Hov.
  { injection H as <- _. cbn. split; [| split; [| split; [| split]]].
    - destruct (Fetch.fulltext_override settings); [reflexivity | discriminate].
    - now left.
    - split; [congruence | discriminate].
    - split; reflexivity.
    - repeat split; intros; try congruence; discriminate. }
  destruct (default true (Fetch.allow_network settings)) eqn:Hnet;
    [| discriminate].
  cbn [negb] in H.
  apply or_else_done in H as [E1 | (log1 & _ & H)].
  { apply fetch_pmc_result in E1 as [E1 _].
    apply (Hshape "pmc" E1); try discriminate; auto. now left. }
  apply or_else_done in H as [E2 | (log2 & _ & H)].
  { destruct (Py.truthy_opt (Fetch.unpaywall_email settings)) eqn:Hmail;
      [| discriminate].
    apply lift_done in E2. apply fetch_unpaywall_result in E2.
    apply (Hshape "unpaywall" E2); try discriminate; auto.
    right. now left. }
  apply or_else_done in H as [E3 | (log3 & _ & H)].
  { apply fetch_europe_pmc_result in E3 as [E3 | E3].
    - apply (Hshape "europempc" E3); try discriminate; auto.
      right. right. now left.
    - apply (Hshape "pmc" E3); try discriminate; auto. now left. }
  apply or_else_done in H as [E4 | (log4 & _ & H)].
  { destruct (Py.truthy_opt doi) eqn:Hdoi; [| discriminate].
    apply lift_done in E4. apply fetch_crossref_result in E4.
    apply (Hshape "publisher" E4); try discriminate; auto.
    do 3 right. now left. }
  destruct (default true (Fetch.abstract_only_ok settings)) eqn:Hab;
    [| discriminate].
  apply lift_done in H. apply fetch_abstract_result in H as [E5 _].
  apply (Hshape "abstract" E5); try discriminate; auto.
  do 4 right. now left.
Qed.

(** X16.  The resolver always comes back, whatever the network answers and
    whatever depth the repository stage is allowed, having only added to
    the log of requests.  Every result it returns carries exactly one
    payload and the tag of a route that the configuration permits:
    "override" exactly when an override is configured, the abstract only
    on the "abstract" route and only when abstracts are allowed,
    "unpaywall" only with a contact email, "publisher" only with a DOI,
    and any route but "override" only when networking is allowed. *)
Theorem resolve_fulltext_result
  (fuel : nat) (doi pmid : option string) (settings : Fetch.Settings)
  (log : list Fetch.Request) :
  exists result more,
    Fetch.resolve_fulltext net env_user_agent fuel doi pmid settings log
    = (Fetch.Done result, log ++ more)
    /\ forall r, result = Some r ->
         payloads r = 1%nat
         /\ In (Fetch.route r)
               ["override"; "pmc"; "unpaywall"; "europempc"; "publisher";
                "abstract"]
         /\ (Fetch.abstract_text r <> None <-> Fetch.route r = "abstract")
         /\ (Fetch.route r = "override"
             <-> Py.truthy_opt (Fetch.fulltext_override settings) = true)
         /\ (Fetch.route r <> "override" ->
             default true (Fetch.allow_network settings) = true)
         /\ (Fetch.route r = "abstract" ->
             default true (Fetch.abstract_only_ok settings) = true)
         /\ (Fetch.route r = "unpaywall" ->
             Py.truthy_opt (Fetch.unpaywall_email settings) = true)
         /\ (Fetch.route r = "publisher" -> Py.truthy_opt doi = true).
Proof.
  destruct (settles_resolve_fulltext fuel doi pmid settings log)
    as (result & more & E).
  exists result, more. split; [exact E |].
  intros r ->. exact (resolve_fulltext_shape fuel doi pmid settings _ _ r E).
Qed.

(** X17.  Without an override the resolver returns nothing and sends no request
    when networking is disabled, and also when there is neither a DOI nor
    a PMID and no contact email. *)
Theorem resolve_fulltext_sends_nothing
  (fuel : nat) (doi pmid : option string) (settings : Fetch.Settings)
  (log : list Fetch.Request) :
  Py.truthy_opt (Fetch.fulltext_override settings) = false ->
  Fetch.allow_network settings = Some false
  \/ (Fetch.has_identifier doi pmid = false
      /\ Py.truthy_opt (Fetch.unpaywall_email settings) = false) ->
  Fetch.resolve_fulltext net env_user_agent (S fuel) doi pmid settings log
  = (Fetch.Done None, log).
Proof.
  intros Hov Hcase. unfold Fetch.resolve_fulltext. rewrite Hov.
  destruct (default true (Fetch.allow_network settings)) eqn:Hnet;
    [| reflexivity].
  destruct Hcase as [Hoff | [Hid Hmail]];
    [rewrite Hoff in Hnet; discriminate |].
  cbn [negb].
  assert (Hdoi : Py.truthy_opt doi = false).
  { unfold Fetch.has_identifier in Hid. now apply orb_false_iff in Hid as [? _]. }
  rewrite (or_else_none _ _ log log)
    by (now apply fetch_pmc_without_identifiers).
  rewrite Hmail, (or_else_none _ _ log log) by reflexivity.
  rewrite (or_else_none _ _ log log)
    by (unfold Fetch._fetch_europe_pmc; now rewrite Hid).
  rewrite Hdoi, (or_else_none _ _ log log) by reflexivity.
  destruct (default true (Fetch.abstract_only_ok settings)); [| reflexivity].
  unfold Fetch.lift, Fetch.bind, Fetch._fetch_abstract. now rewrite Hid.
Qed.

Lemma make_request_snd (url : string) (settings : Fetch.Settings)
  (expected : option string) (log l : list Fetch.Request)
  (o : option Fetch.Response) :
  Fetch._make_request net env_user_agent url settings expected log = (o, l) ->
  exists request, l = log ++ [request] /\ Fetch.req_url request = url.
Proof.
  intros H. destruct (make_request_log url settings expected log)
    as (request & Hl & Hu).
  rewrite H in Hl. now exists request.
Qed.

Lemma fetch_unpaywall_first_request
  (settings : Fetch.Settings) (log : list Fetch.Request) :
  Py.truthy_opt (Fetch.unpaywall_email settings) = true ->
  exists request rest,
    (Fetch._fetch_unpaywall net env_user_agent None settings log).2
    = log ++ request :: rest
    /\ Fetch.req_url request = "https://api.unpaywall.org/v2/None".
Proof.
  intros Hmail. unfold Fetch._fetch_unpaywall. rewrite Hmail. cbn [negb].
  unfold Fetch.bind, Fetch.ret.
  repeat
    (cbv beta iota;
     match goal with
     | |- context [Fetch._make_request ?n ?e ?u ?s ?x ?l] =>
         let E := fresh "E" in
         destruct (Fetch._make_request n e u s x l) as [? ?] eqn:E;
         apply make_request_snd in E as (? & -> & ?)
     | |- context [match ?x with _ => _ end] => destruct x
     end).
  all: eexists _, _; (split; [cbn [snd]; rewrite <- ?app_assoc; reflexivity |]).
  all: assumption.
Qed.

(** X18.  The Unpaywall stage does not check that it was given a DOI: with
    a contact email configured and no DOI, its first request asks
    Unpaywall for the work "None".  The resolver sends that request when,
    besides, no override is configured, networking is allowed and the
    repository stage has come back with nothing. *)
Theorem fetch_unpaywall_without_doi
  (settings : Fetch.Settings) (log : list Fetch.Request) :
  Py.truthy_opt (Fetch.unpaywall_email settings) = true ->
  (exists request rest,
     (Fetch._fetch_unpaywall net env_user_agent None settings log).2
     = log ++ request :: rest
     /\ Fetch.req_url request = "https://api.unpaywall.org/v2/None")
  /\ forall (fuel : nat) (pmid : option string) (log1 : list Fetch.Request),
       Py.truthy_opt (Fetch.fulltext_override settings) = false ->
       default true (Fetch.allow_network settings) = true ->
       Fetch._fetch_pmc net env_user_agent fuel None pmid None settings log
       = (Fetch.Done None, log1) ->
       exists request rest,
         (Fetch.resolve_fulltext net env_user_agent fuel None pmid settings
            log).2
         = log1 ++ request :: rest
         /\ Fetch.req_url request = "https://api.unpaywall.org/v2/None".
Proof.
  intros Hmail.
  split; [now apply fetch_unpaywall_first_request |].
  intros fuel pmid log1 Hov Hnet Hpmc.
  unfold Fetch.resolve_fulltext. rewrite Hov, Hnet. cbn [negb].
  rewrite (or_else_none _ _ log log1 Hpmc), Hmail.
  destruct (fetch_unpaywall_first_request settings log1 Hmail)
    as (request & rest & E & Hurl).
  unfold Fetch.or_else, Fetch.bind_done, Fetch.lift, Fetch.bind, Fetch.ret.
  destruct (Fetch._fetch_unpaywall net env_user_agent None settings log1)
    as [[r |] log2]; cbn [snd] in E; subst log2.
  - now exists request, rest.
  - destruct (settles_later_stages fuel None pmid settings
                (log1 ++ request :: rest)) as (b & more & Hlater).
    unfold Fetch.or_else, Fetch.bind_done, Fetch.lift, Fetch.bind, Fetch.ret
      in Hlater.
    cbn [Py.truthy_opt default] in *.
    rewrite Hlater. exists request, (rest ++ more).
    split; [cbn [snd]; now rewrite <- app_assoc | exact Hurl].
Qed.
End ResolverFacts.

Lemma fetch_unpaywall_without_doi_witness :
  exists request rest,
    (Fetch.resolve_fulltext silent_net None 1 None (Some "38000001")
       email_settings []).2
    = [get_request Fetch.search_url] ++ request :: rest
    /\ Fetch.req_url request = "https://api.unpaywall.org/v2/None".
Proof.
  destruct (fetch_unpaywall_without_doi silent_net None email_settings []
              eq_refl) as [_ Hresolver].
  exact (Hresolver 1%nat (Some "38000001") [get_request Fetch.search_url]
           eq_refl eq_refl eq_refl).
Defined.

Lemma resolve_fulltext_result_witness :
  exists more,
    Fetch.resolve_fulltext refusing_net_with_abstract None 3
      (Some "10.1000/example.1") None default_settings []
    = (Fetch.Done (Some abstract_result), more)
    /\ payloads abstract_result = 1%nat.
Proof.
  destruct (resolve_fulltext_result refusing_net_with_abstract None 3
              (Some "10.1000/example.1") None default_settings [])
    as (result & more & E & Hshape).
  assert (Hrun : exists sent,
    Fetch.resolve_fulltext refusing_net_with_abstract None 3
      (Some "10.1000/example.1") None default_settings []
    = (Fetch.Done (Some abstract_result), sent))
    by (eexists; vm_compute; reflexivity).
  destruct Hrun as (sent & Hrun). exists sent. split; [exact Hrun |].
  rewrite Hrun in E. injection E as <- _.
  exact (proj1 (Hshape abstract_result eq_refl)).
Defined.

Lemma resolve_fulltext_sends_nothing_witness :
  Fetch.resolve_fulltext refusing_net None 1 (Some "10.1000/example.1") None
    (Fetch.mkSettings None (Some false) None None None None) []
  = (Fetch.Done None, []).
Proof.
  apply (resolve_fulltext_sends_nothing refusing_net None 0).
  - reflexivity.
  - left. reflexivity.
Defined.

(** ** The token budget *)

Lemma share_value_eq (n : TextClean.SectionName) :
  FloatOps.Prim2SF (TextClean.share n) = share_value n.
Proof. destruct n; vm_compute; reflexivity. Qed.

Lemma total_budget_eq (max_tokens : Z) :
  TextClean._allocate_token_budget max_tokens TextClean.abstract
  + TextClean._allocate_token_budget max_tokens TextClean.introduction
  + TextClean._allocate_token_budget max_tokens TextClean.methods
  + TextClean._allocate_token_budget max_tokens TextClean.results
  + TextClean._allocate_token_budget max_tokens TextClean.discussion
  + TextClean._allocate_token_budget max_tokens TextClean.conclusion
  = total_budget max_tokens.
Proof.
  unfold TextClean._allocate_token_budget, total_budget.
  now rewrite !share_value_eq.
Qed.

Lemma all_within_spec (n : nat) (first max_tokens : Z) :
  all_within n first = true ->
  first <= max_tokens < first + Z.of_nat n ->
  total_within max_tokens = true.
Proof.
  revert first. induction n as [| n IH]; intros first H Hm; [lia |].
  cbn [all_within] in H. apply andb_true_iff in H as [H0 H1].
  destruct (Z.eq_dec max_tokens first) as [-> | Hne]; [exact H0 |].
  apply (IH (first + 1) H1). lia.
Qed.

Lemma budgets_to_10000_within : all_within (Z.to_nat 10001) 0 = true.
Proof. vm_cast_no_check (eq_refl true). Qed.

(** X19.  For every budget from 0 to 10000 tokens (the default is 3000) the
    six shares, each the truncation of a binary64 product as the code
    computes it, never add up to more than the budget and leave at most
    five tokens of it unused.  (Every budget of the range is evaluated.
    The rounding is felt inside the range: of 180 tokens the results get
    62, not 63, and one token more is left unused.) *)
Theorem allocate_token_budget_total (max_tokens : Z) :
  0 <= max_tokens <= 10000 ->
  let total :=
    TextClean._allocate_token_budget max_tokens TextClean.abstract
    + TextClean._allocate_token_budget max_tokens TextClean.introduction
    + TextClean._allocate_token_budget max_tokens TextClean.methods
    + TextClean._allocate_token_budget max_tokens TextClean.results
    + TextClean._allocate_token_budget max_tokens TextClean.discussion
    + TextClean._allocate_token_budget max_tokens TextClean.conclusion in
  max_tokens - 5 <= total <= max_tokens.
Proof.
  intros H. cbv zeta. rewrite total_budget_eq.
  pose proof (all_within_spec (Z.to_nat 10001) 0 max_tokens
                budgets_to_10000_within) as Hin.
  rewrite Z2Nat.id in Hin by lia.
  unfold total_within in Hin. cbv zeta in Hin.
  rewrite andb_true_iff, !Z.leb_le in Hin. apply Hin. lia.
Qed.

Lemma allocate_token_budget_total_witness :
  TextClean._allocate_token_budget 180 TextClean.results = 62
  /\ 180 - 5
     <= TextClean._allocate_token_budget 180 TextClean.abstract
        + TextClean._allocate_token_budget 180 TextClean.introduction
        + TextClean._allocate_token_budget 180 TextClean.methods
        + TextClean._allocate_token_budget 180 TextClean.results
        + TextClean._allocate_token_budget 180 TextClean.discussion
        + TextClean._allocate_token_budget 180 TextClean.conclusion
     <= 180.
Proof.
  split; [vm_compute; reflexivity |].
  apply (allocate_token_budget_total 180). lia.
Defined.

(** ** Excerpts that fit *)

Lemma tokens_of_perm (l l' : list string) :
  Permutation l l' -> tokens_of l = tokens_of l'.
Proof.
  induction 1 as [| x l l' _ IH | x y l | l l' l'' _ IH1 _ IH2];
    cbn [tokens_of fold_right] in *; try fold (tokens_of l) in *;
    try fold (tokens_of l') in *; lia.
Qed.

Lemma select_paragraphs_all
  (allocated : Z) (scored : list (string * Q)) (selected : list string)
  (current : Z) :
  current + tokens_of (map fst scored) <= allocated ->
  TextClean.select_paragraphs allocated selected current scored
  = selected ++ map fst scored.
Proof.
  revert selected current.
  induction scored as [| [paragraph sc] rest IH]; intros selected current Hle;
    cbn [TextClean.select_paragraphs map fst].
  - now rewrite app_nil_r.
  - cbn [map fst tokens_of fold_right] in Hle. fold (tokens_of (map fst rest)) in Hle.
    assert (Hnn : 0 <= tokens_of (map fst rest)).
    { clear. induction (map fst rest) as [| p l IHl]; cbn; [lia |].
      fold (tokens_of l). unfold TextClean._estimate_tokens.
      pose proof (Z.div_pos (Z.of_nat (String.length p)) 4). lia. }
    assert (E : (current + TextClean._estimate_tokens paragraph <=? allocated)
                = true) by lia.
    rewrite E, IH by lia. now rewrite <- app_assoc.
Qed.

(** X20.  When the paragraphs of a section fit its allotment together, the
    pieces selected are all the paragraphs, whole, reordered by score:
    nothing is dropped and nothing is truncated. *)
Theorem selected_pieces_all_when_fitting
  (section_text : string) (allocated : Z) (key_terms : list string) :
  tokens_of (TextClean.split TextClean.blank_line section_text) <= allocated ->
  Permutation (TextClean.selected_pieces section_text allocated key_terms)
              (TextClean.split TextClean.blank_line section_text)
  /\ tokens_of (TextClean.selected_pieces section_text allocated key_terms)
     = tokens_of (TextClean.split TextClean.blank_line section_text).
Proof.
  intros Hfit. unfold TextClean.selected_pieces.
  set (paragraphs := TextClean.split TextClean.blank_line section_text) in *.
  set (scored := map (fun paragraph =>
                        (paragraph, TextClean.paragraph_score key_terms paragraph))
                     paragraphs).
  assert (Hperm : Permutation (map fst (sorted_desc snd scored)) paragraphs).
  { rewrite (sorted_desc_perm snd scored). unfold scored.
    rewrite map_map. cbn. now rewrite map_id. }
  rewrite select_paragraphs_all.
  - cbn [app]. split; [exact Hperm | now apply tokens_of_perm].
  - rewrite (tokens_of_perm _ _ Hperm). lia.
Qed.

Lemma selected_pieces_all_when_fitting_witness :
  Permutation (TextClean.selected_pieces short_paragraphs 10 TextClean.KEY_TERMS)
              (TextClean.split TextClean.blank_line short_paragraphs).
Proof.
  refine (proj1 (selected_pieces_all_when_fitting short_paragraphs 10
                   TextClean.KEY_TERMS _)).
  vm_compute. discriminate.
Defined.

(** ** White space *)

Lemma contains_char (c d : ascii) (s : string) :
  Py.contains (String c EmptyString) (String d s)
  = Ascii.eqb c d || Py.contains (String c EmptyString) s.
Proof.
  cbn [Py.contains]. f_equal. simpl.
  destruct (ascii_dec c d) as [-> | Hne].
  - rewrite Ascii.eqb_refl. now destruct s.
  - symmetry. now apply Ascii.eqb_neq.
Qed.

Lemma contains_char_nil (c : ascii) :
  Py.contains (String c EmptyString) EmptyString = false.
Proof. reflexivity. Qed.

Lemma span_snd_no_char (c : ascii) (p : ascii -> bool) (s : string) :
  Py.contains (String c EmptyString) s = false ->
  Py.contains (String c EmptyString) (Py.span p s).2 = false.
Proof.
  induction s as [| d s IH]; intros H; [reflexivity |].
  cbn [Py.span]. destruct (p d); [| exact H].
  rewrite contains_char in H. apply orb_false_iff in H as [_ H].
  specialize (IH H). now destruct (Py.span p s).
Qed.

Lemma rstrip_no_char (c : ascii) (s : string) :
  Py.contains (String c EmptyString) s = false ->
  Py.contains (String c EmptyString) (Py.rstrip s) = false.
Proof.
  induction s as [| d s IH]; intros H; [reflexivity |].
  rewrite contains_char in H. apply orb_false_iff in H as [Hd H].
  specialize (IH H). cbn [Py.rstrip].
  destruct (Py.rstrip s) as [| e r].
  - destruct (Py.is_space d); [reflexivity |].
    now rewrite contains_char, Hd.
  - now rewrite contains_char, Hd.
Qed.

Lemma strip_no_char (c : ascii) (s : string) :
  Py.contains (String c EmptyString) s = false ->
  Py.contains (String c EmptyString) (Py.strip s) = false.
Proof.
  intros H. unfold Py.strip, Py.lstrip.
  now apply rstrip_no_char, span_snd_no_char.
Qed.

Lemma collapse_spaces_no_space (c : ascii) (in_run : bool) (text : string) :
  Py.is_space c = true -> c <> " "%char ->
  Py.contains (String c EmptyString) (TextClean.collapse_spaces in_run text)
  = false.
Proof.
  intros Hc Hne. revert in_run.
  induction text as [| d text IH]; intros in_run; [reflexivity |].
  cbn [TextClean.collapse_spaces].
  destruct (Py.is_space d) eqn:Ed.
  - destruct in_run; [apply IH |].
    rewrite contains_char, IH, orb_false_r. now apply Ascii.eqb_neq.
  - rewrite contains_char, IH, orb_false_r. apply Ascii.eqb_neq.
    intros ->. congruence.
Qed.

(** [_clean_whitespace] leaves no line feed, nor any white space other
    than the space. *)
Lemma clean_whitespace_one_line (text : string) :
  Py.contains TextClean.LF (TextClean._clean_whitespace text) = false.
Proof.
  unfold TextClean._clean_whitespace, TextClean.LF.
  apply strip_no_char, collapse_spaces_no_space; [reflexivity | discriminate].
Qed.

Lemma string_of_list_ascii_snoc (l : list ascii) (c : ascii) (s : string) :
  string_of_list_ascii (l ++ [c]) +:+ s
  = string_of_list_ascii l +:+ String c s.
Proof.
  induction l as [| d l IH]; [reflexivity |].
  cbn [app string_of_list_ascii]. rewrite !append_cons. now rewrite IH.
Qed.

Lemma string_app_nil_r (s : string) : s +:+ "" = s.
Proof.
  induction s as [| c s IH]; [reflexivity |].
  rewrite append_cons. now rewrite IH.
Qed.

Lemma split_one_line (cur : list ascii) (s : string) :
  Py.contains TextClean.LF s = false ->
  TextClean.split_go TextClean.LF 0 cur s
  = [string_of_list_ascii (rev cur) +:+ s].
Proof.
  revert cur. induction s as [| c s IH]; intros cur H.
  - cbn. now rewrite string_app_nil_r.
  - unfold TextClean.LF in H. rewrite contains_char in H.
    apply orb_false_iff in H as [Hc H].
    cbn [TextClean.split_go].
    assert (Hp : String.prefix TextClean.LF (String c s) = false).
    { destruct (String.prefix TextClean.LF (String c s)) eqn:Hp;
        [| reflexivity].
      apply prefix_iff in Hp as (post & Hp). unfold TextClean.LF in Hp.
      rewrite append_cons in Hp. injection Hp as -> _.
      now rewrite Ascii.eqb_refl in Hc. }
    rewrite Hp, (IH (c :: cur) H). cbn [rev].
    now rewrite string_of_list_ascii_snoc.
Qed.

(** ** Sectioning of HTML *)

Section HtmlFacts.
Variable visible_text : string -> string.
Variable main_content : string -> option string.

Lemma extract_main_content_one_line (html_content : string) :
  Py.contains TextClean.LF
    (TextClean._extract_main_content visible_text main_content html_content)
  = false.
Proof.
  unfold TextClean._extract_main_content, TextClean._clean_html.
  destruct (main_content html_content); apply clean_whitespace_one_line.
Qed.

(** X21.  The text extracted from HTML has its white space collapsed, line
    feeds included, before it is cut into lines: it is a single line, so
    the sectioner sees no header line followed by content.  Either the
    whole text is taken for a header and every section is empty, or the
    whole text, stripped, becomes the abstract: the five other sections
    are always empty. *)
Theorem section_html_content_only_abstract (html_content : string) :
  let text :=
    TextClean._extract_main_content visible_text main_content html_content in
  let sectioned :=
    TextClean._section_html_content
      (TextClean._extract_main_content visible_text main_content) html_content in
  (sectioned = TextClean.empty_sections
   \/ sectioned
      = TextClean.set_section TextClean.empty_sections TextClean.abstract
          (Py.strip text))
  /\ forall n, n <> TextClean.abstract -> TextClean.get_section sectioned n = "".
Proof.
  cbv zeta. unfold TextClean._section_html_content, TextClean.split.
  rewrite split_one_line by apply extract_main_content_one_line.
  cbn [rev string_of_list_ascii].
  change ("" +:+ ?s) with s.
  set (text := TextClean._extract_main_content visible_text main_content
                 html_content).
  unfold TextClean.section_text_lines. cbn [foldl].
  unfold TextClean.scan_line.
  destruct (TextClean._map_section_headers (Py.strip text)) as [h |].
  - split; [now left |]. intros n _. now destruct n.
  - split; [now right |]. intros n Hn. destruct n; try reflexivity.
    contradiction.
Qed.

End HtmlFacts.

(** ** Stripping *)

Lemma lstrip_starts_clean (s : string) : starts_clean (Py.lstrip s).
Proof.
  unfold Py.lstrip. induction s as [| c s IH]; [exact I |].
  cbn [Py.span]. destruct (Py.is_space c) eqn:E; [| exact E].
  now destruct (Py.span Py.is_space s).
Qed.

Lemma lstrip_clean (s : string) : starts_clean s -> Py.lstrip s = s.
Proof.
  unfold Py.lstrip. destruct s as [| c s]; [reflexivity |].
  cbn. now intros ->.
Qed.

Lemma rstrip_starts_clean (s : string) :
  starts_clean s -> starts_clean (Py.rstrip s).
Proof.
  destruct s as [| c s]; [trivial |]. cbn [starts_clean Py.rstrip].
  intros E. destruct (Py.rstrip s); [now rewrite E | exact E].
Qed.

Lemma rstrip_idempotent (s : string) : Py.rstrip (Py.rstrip s) = Py.rstrip s.
Proof.
  induction s as [| c s IH]; [reflexivity |].
  cbn [Py.rstrip]. destruct (Py.rstrip s) as [| d r] eqn:E.
  - destruct (Py.is_space c) eqn:Ec; [reflexivity |].
    cbn [Py.rstrip]. now rewrite Ec.
  - cbn [Py.rstrip] in *. now rewrite IH.
Qed.

(** Stripping a stripped string changes nothing. *)
Lemma strip_idempotent (s : string) : Py.strip (Py.strip s) = Py.strip s.
Proof.
  unfold Py.strip.
  rewrite (lstrip_clean (Py.rstrip (Py.lstrip s)))
    by apply rstrip_starts_clean, lstrip_starts_clean.
  apply rstrip_idempotent.
Qed.

(** ** The line scan *)

Lemma get_set_section (st : TextClean.SectionedText)
  (n m : TextClean.SectionName) (v : string) :
  TextClean.get_section (TextClean.set_section st n v) m
  = if decide (n = m) then v else TextClean.get_section st m.
Proof. destruct n, m; reflexivity. Qed.

Lemma flush_stripped (st : TextClean.scan_state) :
  all_stripped (TextClean.sections st) -> all_stripped (TextClean.flush st).
Proof.
  intros H. unfold TextClean.flush.
  destruct (TextClean.current_content st) as [| l ls]; [exact H |].
  intros m. rewrite get_set_section.
  destruct (decide _); [apply strip_idempotent | apply H].
Qed.

Lemma scan_line_stripped (st : TextClean.scan_state) (line : string) :
  all_stripped (TextClean.sections st) ->
  all_stripped (TextClean.sections (TextClean.scan_line st line)).
Proof.
  intros H. unfold TextClean.scan_line.
  destruct (TextClean._map_section_headers _); [| exact H].
  now apply flush_stripped.
Qed.

Lemma scan_pdf_line_stripped (st : TextClean.scan_state) (line : string) :
  all_stripped (TextClean.sections st) ->
  all_stripped (TextClean.sections (TextClean.scan_pdf_line st line)).
Proof.
  intros H. unfold TextClean.scan_pdf_line.
  destruct (Py.truthy _); [| exact H].
  destruct (TextClean._map_section_headers _); [| exact H].
  now apply flush_stripped.
Qed.

Lemma foldl_stripped (step : TextClean.scan_state -> string -> TextClean.scan_state)
  (lines : list string) (st : TextClean.scan_state) :
  (forall st0 line, all_stripped (TextClean.sections st0) ->
                    all_stripped (TextClean.sections (step st0 line))) ->
  all_stripped (TextClean.sections st) ->
  all_stripped (TextClean.sections (foldl step st lines)).
Proof.
  intros Hstep. revert st.
  induction lines as [| l ls IH]; intros st H; [exact H |].
  cbn [foldl]. now apply IH, Hstep.
Qed.

(** X22.  Whatever the input, text or PDF, every section that
    [parse_and_section] returns is stripped: it neither begins nor ends
    with white space. *)
Theorem parse_and_section_stripped
  (visible_text : string -> string) (main_content : string -> option string)
  (_extract_pdf_text : string -> Z -> string)
  (html pdf_bytes : option string) (n : TextClean.SectionName) :
  Py.strip
    (TextClean.get_section
       (TextClean.parse_and_section visible_text main_content _extract_pdf_text
          html pdf_bytes) n)
  = TextClean.get_section
      (TextClean.parse_and_section visible_text main_content _extract_pdf_text
         html pdf_bytes) n.
Proof.
  assert (Hempty : all_stripped TextClean.empty_sections)
    by (intros m; now destruct m).
  revert n. change (all_stripped
    (TextClean.parse_and_section visible_text main_content _extract_pdf_text
       html pdf_bytes)).
  unfold TextClean.parse_and_section.
  destruct (Py.truthy_opt html).
  - unfold TextClean._section_html_content, TextClean.section_text_lines.
    apply flush_stripped, foldl_stripped; [apply scan_line_stripped | exact Hempty].
  - destruct (Py.truthy_opt pdf_bytes); [| exact Hempty].
    unfold TextClean._section_pdf_content.
    apply flush_stripped, foldl_stripped;
      [apply scan_pdf_line_stripped | exact Hempty].
Qed.

Lemma scan_pdf_unmatched_lines (st : TextClean.scan_state) (lines : list string) :
  Forall (fun l => TextClean._map_section_headers l = None)
         (content_lines lines) ->
  foldl TextClean.scan_pdf_line st lines
  = TextClean.mkScan (TextClean.sections st) (TextClean.current_section st)
                     (TextClean.current_content st ++ content_lines lines).
Proof.
  revert st. induction lines as [| l ls IH]; intros st H.
  - cbn. rewrite app_nil_r. now destruct st.
  - cbn [foldl]. unfold content_lines in *. cbn [map List.filter] in *.
    unfold TextClean.scan_pdf_line at 2.
    destruct (Py.truthy (Py.strip l)) eqn:E.
    + apply List.Forall_cons_iff in H as [Hl Hls]. rewrite Hl, (IH _ Hls).
      cbn. now rewrite <- app_assoc.
    + now rewrite (IH _ H).
Qed.

(** X23.  In a PDF the last block wins.  When a header line is followed to the
    end of the text by lines that are not headers, the section it names
    holds those lines, stripped and without the blank ones, and nothing
    else: what the section received earlier in the text is replaced, not
    extended. *)
Theorem section_pdf_content_last_block
  (_extract_pdf_text : string -> Z -> string) (pdf_bytes : string)
  (max_pages : Z) (before block : list string) (header : string)
  (n : TextClean.SectionName) :
  TextClean.split TextClean.LF (_extract_pdf_text pdf_bytes max_pages)
  = before ++ header :: block ->
  Py.truthy (Py.strip header) = true ->
  TextClean._map_section_headers (Py.strip header) = Some n ->
  content_lines block <> [] ->
  Forall (fun l => TextClean._map_section_headers l = None)
         (content_lines block) ->
  TextClean.get_section
    (TextClean._section_pdf_content _extract_pdf_text pdf_bytes max_pages) n
  = Py.strip (Py.join TextClean.LF (content_lines block)).
Proof.
  intros Hsplit Ht Hh Hne Hblock. unfold TextClean._section_pdf_content.
  rewrite Hsplit, foldl_app. cbn [foldl].
  set (st := foldl TextClean.scan_pdf_line TextClean.initial_scan before).
  unfold TextClean.scan_pdf_line at 2. rewrite Ht, Hh.
  rewrite scan_pdf_unmatched_lines by exact Hblock.
  cbn [TextClean.sections TextClean.current_section TextClean.current_content
       app].
  unfold TextClean.flush at 1.
  cbn [TextClean.sections TextClean.current_section TextClean.current_content].
  destruct (content_lines block) as [| b bs]; [contradiction |].
  rewrite get_set_section. now destruct (decide (n = n)).
Qed.

Lemma section_pdf_content_last_block_witness :
  TextClean.get_section
    (TextClean._section_pdf_content (fun _ _ => sample_pdf_text) "%PDF" 40)
    TextClean.methods
  = Py.strip (Py.join TextClean.LF
                (content_lines [""; "  See the supplement.  "])).
Proof.
  apply (section_pdf_content_last_block (fun _ _ => sample_pdf_text) "%PDF" 40
           ["Methods"; "We enrolled 600 adults."; "Results"; "Mortality fell."]
           [""; "  See the supplement.  "] "Methods" TextClean.methods).
  - reflexivity.
  - reflexivity.
  - reflexivity.
  - discriminate.
  - constructor; [reflexivity | constructor].
Defined.

(** ** Headers *)

Lemma lower_char_idempotent (c : ascii) :
  Py.lower_char (Py.lower_char c) = Py.lower_char c.
Proof. destruct c as [[] [] [] [] [] [] [] []]; reflexivity. Qed.

Lemma lower_idempotent (s : string) : Py.lower (Py.lower s) = Py.lower s.
Proof.
  induction s as [| c s IH]; [reflexivity |].
  cbn [Py.lower]. now rewrite lower_char_idempotent, IH.
Qed.

(** X24.  The mapping of headers does not look at the case of the letters, and
    each of the six section names maps to its own section.  The first
    section that matches wins, so "Summary", a synonym of both, is always
    the abstract and never the conclusion. *)
Theorem map_section_headers_case_insensitive (header : string) :
  TextClean._map_section_headers (Py.lower header)
  = TextClean._map_section_headers header
  /\ (forall n, TextClean._map_section_headers (TextClean.section_name n)
                = Some n)
  /\ (Py.lower header = "summary" ->
      TextClean._map_section_headers header = Some TextClean.abstract).
Proof.
  split; [| split].
  - unfold TextClean._map_section_headers, TextClean.normalize_header.
    now rewrite lower_idempotent.
  - intros n. now destruct n.
  - intros H. unfold TextClean._map_section_headers, TextClean.normalize_header.
    now rewrite H.
Qed.

Lemma map_section_headers_case_insensitive_witness :
  TextClean._map_section_headers "SUMMARY" = Some TextClean.abstract.
Proof.
  exact (proj2 (proj2 (map_section_headers_case_insensitive "SUMMARY")) eq_refl).
Defined.

(** ** Red flags, rule by rule *)

Lemma snoc_when_nil {A} (b : bool) (l : list A) (x : A) :
  (if b then l ++ [x] else l) = [] <-> b = false /\ l = [].
Proof.
  destruct b.
  - split; [| intros [H _]; discriminate].
    intros H. apply app_eq_nil in H as [_ H]. discriminate.
  - split; [now split | now intros [_ H]].
Qed.

(** X25.  The five text rules are independent: the flags come in rule order,
    none twice, and each is present exactly when its own rule fires. *)
Theorem detect_content_red_flags_rules (st : TextClean.SectionedText) :
  let methods_text := Py.lower (TextClean.s_methods st) in
  let results_text := Py.lower (TextClean.s_results st) in
  sublist (TextClean.detect_content_red_flags st)
          [ TextClean.flag_allocation; TextClean.flag_blinding;
            TextClean.flag_small_sample; TextClean.flag_outcomes;
            TextClean.flag_subgroup ]
  /\ (In TextClean.flag_allocation (TextClean.detect_content_red_flags st)
      <-> Py.contains "random" methods_text = true
          /\ Py.contains "allocation" methods_text = false)
  /\ (In TextClean.flag_blinding (TextClean.detect_content_red_flags st)
      <-> Py.contains "blinding" methods_text = false
          /\ Py.contains "masking" methods_text = false)
  /\ (In TextClean.flag_small_sample (TextClean.detect_content_red_flags st)
      <-> Py.contains "small sample" methods_text = true
          /\ Py.contains "precise estimate" results_text = true)
  /\ (In TextClean.flag_outcomes (TextClean.detect_content_red_flags st)
      <-> 3 < TextClean.count "outcome" results_text
          /\ Py.contains "primary outcome" results_text = false)
  /\ (In TextClean.flag_subgroup (TextClean.detect_content_red_flags st)
      <-> Py.contains "subgroup" results_text = true
          /\ Py.contains "predefined" results_text = false
          /\ Py.contains "a priori" results_text = false).
Proof.
  cbv zeta. unfold TextClean.detect_content_red_flags.
  set (m := Py.lower (TextClean.s_methods st)).
  set (r := Py.lower (TextClean.s_results st)).
  set (g1 := negb (Py.contains "allocation" m) && Py.contains "random" m).
  set (g2 := negb (Py.contains "blinding" m) && negb (Py.contains "masking" m)).
  set (g3 := Py.contains "small sample" m && Py.contains "precise estimate" r).
  set (g4 := (TextClean.count "outcome" r >? 3)
             && negb (Py.contains "primary outcome" r)).
  set (g5 := Py.contains "subgroup" r && negb (Py.contains "predefined" r)
             && negb (Py.contains "a priori" r)).
  assert (H1 : g1 = true <-> Py.contains "random" m = true
                             /\ Py.contains "allocation" m = false)
    by (unfold g1; rewrite andb_true_iff, negb_true_iff; tauto).
  assert (H2 : g2 = true <-> Py.contains "blinding" m = false
                             /\ Py.contains "masking" m = false)
    by (unfold g2; rewrite andb_true_iff, !negb_true_iff; tauto).
  assert (H3 : g3 = true <-> Py.contains "small sample" m = true
                             /\ Py.contains "precise estimate" r = true)
    by (unfold g3; rewrite andb_true_iff; tauto).
  assert (H4 : g4 = true <-> 3 < TextClean.count "outcome" r
                             /\ Py.contains "primary outcome" r = false)
    by (unfold g4; rewrite andb_true_iff, negb_true_iff, Z.gtb_lt; tauto).
  assert (H5 : g5 = true <-> Py.contains "subgroup" r = true
                             /\ Py.contains "predefined" r = false
                             /\ Py.contains "a priori" r = false)
    by (unfold g5; rewrite !andb_true_iff, !negb_true_iff; tauto).
  rewrite <- H1, <- H2, <- H3, <- H4, <- H5.
  clearbody g1 g2 g3 g4 g5. clear.
  destruct g1, g2, g3, g4, g5; cbn [app].
  all: split; [repeat constructor |].
  all: cbn [In]; intuition (try discriminate; try congruence).
Qed.

Lemma snoc_when (b : bool) (l : list string) (flag : string) :
  (if b then l ++ [flag] else l) = l ++ when b flag.
Proof. destruct b; [reflexivity | now rewrite app_nil_r]. Qed.

(** The flags, rule by rule. *)
Lemma detect_red_flags_by_rule (article : Analyze.ArticleCard) :
  Analyze._detect_red_flags article
  = when (underpowered_rule article) Analyze.flag_underpowered
    ++ when (imprecise_rule article) Analyze.flag_imprecise
    ++ when (borderline_rule article) Analyze.flag_borderline
    ++ when (multiplicity_rule article) Analyze.flag_multiplicity
    ++ opacity_flags article
    ++ when (validity_rule article) Analyze.flag_validity
    ++ when (funding_rule article) Analyze.flag_funding.
Proof.
  unfold Analyze._detect_red_flags, underpowered_rule, imprecise_rule,
    borderline_rule, opacity_flags.
  fold (multiplicity_rule article). fold (validity_rule article).
  fold (funding_rule article).
  destruct (Analyze.card_sample_size article) as [n |];
    (destruct (Analyze.effect_estimate article) as [ee |];
     [destruct (Analyze.value ee), (Analyze.ci ee), (Analyze.p ee) |]);
    destruct (Py.truthy_opt (Analyze.allocation article)),
             (Py.truthy_opt (Analyze.blinding article));
    cbn [negb orb app Py.join];
    rewrite ?snoc_when; cbn [app when]; rewrite ?app_nil_r, <- ?app_assoc;
    reflexivity.
Qed.

Lemma when_nil (b : bool) (flag : string) : when b flag = [] <-> b = false.
Proof. destruct b; cbn; intuition discriminate. Qed.

(** X26.  A record gets no red flag exactly when its sample size is unknown or
    at least 100, its effect estimate is not imprecise and its p-value not
    borderline, it names a primary outcome that is not blank, it describes
    both allocation concealment and blinding, and neither the
    external-validity rule nor the funding rule fires.  The flags of a
    record are pairwise distinct and at most seven. *)
Theorem detect_red_flags_none_iff (article : Analyze.ArticleCard) :
  (Analyze._detect_red_flags article = []
   <-> (forall n, Analyze.card_sample_size article = Some n -> 100 <= n)
       /\ (forall ee v interval,
             Analyze.effect_estimate article = Some ee ->
             Analyze.value ee = Some v -> Analyze.ci ee = Some interval ->
             Analyze.imprecise v interval = false)
       /\ (forall ee pv,
             Analyze.effect_estimate article = Some ee ->
             Analyze.p ee = Some pv ->
             (0.045 <=? pv)%float && (pv <=? 0.06)%float = false)
       /\ (exists outcome,
             Analyze.card_primary_outcome article = Some outcome
             /\ Py.strip outcome <> "")
       /\ Py.truthy_opt (Analyze.allocation article) = true
       /\ Py.truthy_opt (Analyze.blinding article) = true
       /\ validity_rule article = false
       /\ funding_rule article = false)
  /\ NoDup (Analyze._detect_red_flags article)
  /\ (List.length (Analyze._detect_red_flags article) <= 7)%nat.
Proof.
  rewrite detect_red_flags_by_rule.
  assert (H1 : underpowered_rule article = false
               <-> forall n, Analyze.card_sample_size article = Some n ->
                             100 <= n).
  { unfold underpowered_rule.
    destruct (Analyze.card_sample_size article) as [n |].
    - rewrite Z.ltb_ge. split; [now intros H m [= <-] | intros H; now apply H].
    - split; [intros _ n; discriminate | reflexivity]. }
  assert (H2 : imprecise_rule article = false
               <-> forall ee v interval,
                     Analyze.effect_estimate article = Some ee ->
                     Analyze.value ee = Some v ->
                     Analyze.ci ee = Some interval ->
                     Analyze.imprecise v interval = false).
  { unfold imprecise_rule.
    destruct (Analyze.effect_estimate article) as [ee |];
      [| split; [intros _ ? ? ?; discriminate | reflexivity]].
    destruct (Analyze.value ee) as [v |] eqn:Ev;
      [destruct (Analyze.ci ee) as [i |] eqn:Ei |].
    - split; [intros H ? ? ? [= <-]; congruence | intros H; now apply (H ee)].
    - split; [intros _ ? ? ? [= <-]; congruence | reflexivity].
    - split; [intros _ ? ? ? [= <-]; congruence | reflexivity]. }
  assert (H3 : borderline_rule article = false
               <-> forall ee pv,
                     Analyze.effect_estimate article = Some ee ->
                     Analyze.p ee = Some pv ->
                     (0.045 <=? pv)%float && (pv <=? 0.06)%float = false).
  { unfold borderline_rule.
    destruct (Analyze.effect_estimate article) as [ee |];
      [| split; [intros _ ? ?; discriminate | reflexivity]].
    destruct (Analyze.p ee) as [pv |] eqn:Ep;
      [| split; [intros _ ? ? [= <-]; congruence | reflexivity]].
    split; [intros H ? ? [= <-]; congruence | intros H; now apply (H ee)]. }
  assert (H4 : multiplicity_rule article = false
               <-> exists outcome,
                     Analyze.card_primary_outcome article = Some outcome
                     /\ Py.strip outcome <> "").
  { unfold multiplicity_rule.
    rewrite orb_false_iff, negb_false_iff, String.eqb_neq.
    destruct (Analyze.card_primary_outcome article) as [o |]; cbn.
    - split; [intros [_ H]; now exists o |].
      intros (o' & [= <-] & H). split; [| exact H].
      destruct o; [now contradiction H | reflexivity].
    - split; [intros [H _]; discriminate | intros (o' & H & _); discriminate]. }
  assert (H5 : opacity_flags article = []
               <-> Py.truthy_opt (Analyze.allocation article) = true
                   /\ Py.truthy_opt (Analyze.blinding article) = true).
  { unfold opacity_flags.
    destruct (Py.truthy_opt (Analyze.allocation article)),
      (Py.truthy_opt (Analyze.blinding article)); intuition discriminate. }
  split; [| split].
  - rewrite !app_nil, !when_nil, H1, H2, H3, H4, H5. tauto.
  - unfold opacity_flags.
    destruct (underpowered_rule article), (imprecise_rule article),
      (borderline_rule article), (multiplicity_rule article),
      (Py.truthy_opt (Analyze.allocation article)),
      (Py.truthy_opt (Analyze.blinding article)),
      (validity_rule article), (funding_rule article);
      apply (bool_decide_unpack _); vm_compute; reflexivity.
  - unfold opacity_flags, when.
    destruct (underpowered_rule article), (imprecise_rule article),
      (borderline_rule article), (multiplicity_rule article),
      (Py.truthy_opt (Analyze.allocation article)),
      (Py.truthy_opt (Analyze.blinding article)),
      (validity_rule article), (funding_rule article); cbn; lia.
Qed.

(** The record whose interval is [0.1, 0.4] around 0.3 is not clean: the
    width computed in binary64 exceeds the estimate. *)
Lemma detect_red_flags_none_iff_witness :
  Analyze._detect_red_flags rounded_interval_card <> [].
Proof.
  intros Hclean.
  apply (proj1 (proj1 (detect_red_flags_none_iff rounded_interval_card)))
    in Hclean.
  destruct Hclean as (_ & Himprecise & _).
  specialize (Himprecise _ _ _ eq_refl eq_refl eq_refl).
  vm_compute in Himprecise. discriminate.
Defined.

(** ** More on the filters and on the chain of the command line *)

Lemma filter_two_hits {A} (p : A -> bool) (l : list A) (x y : A) :
  In x l -> In y l -> x <> y -> p x = true -> p y = true ->
  (2 <= List.length (List.filter p l))%nat.
Proof.
  intros Hx Hy Hne Hpx Hpy.
  assert (Hsub : [x; y] ⊆+ List.filter p l).
  { apply NoDup_submseteq.
    - apply NoDup_cons. split; [| apply NoDup_singleton].
      intros H. apply list_elem_of_singleton in H. contradiction.
    - intros z Hz. apply list_elem_of_In.
      apply filter_In.
      apply list_elem_of_In in Hz. destruct Hz as [<- | [<- | []]]; now split. }
  exact (submseteq_length _ _ Hsub).
Qed.

(** X27.  An abstract passes the trial filter as soon as it has a phrase in
    which two different abstract keywords occur, such as "randomised
    controlled trial", whatever the title says. *)
Theorem is_rct_article_two_keywords
  (article : Article) (first second phrase : string) :
  In first rct_keywords -> In second rct_keywords -> first <> second ->
  Py.contains first phrase = true ->
  Py.contains second phrase = true ->
  Py.contains phrase (Py.lower (abstract article)) = true ->
  is_rct_article article = true.
Proof.
  intros H1 H2 Hne Hc1 Hc2 Hp. unfold is_rct_article.
  destruct (existsb _ title_rct_terms); [reflexivity |].
  cbv zeta. apply Z.geb_le.
  enough (2 <= List.length
                 (List.filter
                    (fun keyword =>
                       Py.contains keyword (Py.lower (abstract article)))
                    rct_keywords))%nat by lia.
  apply (filter_two_hits _ _ first second); try assumption.
  - now apply contains_trans with phrase.
  - now apply contains_trans with phrase.
Qed.

Lemma is_rct_article_two_keywords_witness :
  is_rct_article british_trial = true.
Proof.
  apply (is_rct_article_two_keywords british_trial
           "randomised" "controlled trial" "randomised controlled trial").
  - right. left. reflexivity.
  - right. right. right. left. reflexivity.
  - discriminate.
  - reflexivity.
  - reflexivity.
  - reflexivity.
Defined.

Lemma length_lower (s : string) :
  String.length (Py.lower s) = String.length s.
Proof. induction s as [| c s IH]; cbn; [reflexivity | now rewrite IH]. Qed.

(** X28.  The language filter compares the whole lowered field with "english"
    and "french": a record whose language field is shorter than six
    characters, such as a two- or three-letter code, never survives
    [filter_articles]. *)
Theorem filter_articles_rejects_language_codes
  (settings : Config.Settings) (articles : list Article) (a : Article) :
  (String.length (language a) < 6)%nat ->
  is_preferred_language a = false
  /\ ~ In a (filter_articles settings articles).
Proof.
  intros Hlen.
  assert (Hl : is_preferred_language a = false).
  { unfold is_preferred_language, str_in_list. cbn [existsb].
    rewrite <- length_lower in Hlen.
    destruct (String.eqb_spec (Py.lower (language a)) "english") as [E | _];
      [rewrite E in Hlen; cbn in Hlen; lia |].
    destruct (String.eqb_spec (Py.lower (language a)) "french") as [E | _];
      [rewrite E in Hlen; cbn in Hlen; lia |].
    reflexivity. }
  split; [exact Hl |].
  intros Hin.
  destruct (filter_articles_passes settings articles a Hin) as (_ & Hp & _).
  unfold passes_filters in Hp. rewrite Hl in Hp.
  rewrite !andb_false_r in Hp. cbn in Hp.
  now rewrite ?andb_false_r in Hp.
Qed.

Lemma filter_articles_rejects_language_codes_witness :
  ~ In coded_language_trial
       (filter_articles shipped_settings
          [coded_language_trial; nerve_block_trial]).
Proof.
  refine (proj2 (filter_articles_rejects_language_codes shipped_settings
                   [coded_language_trial; nerve_block_trial]
                   coded_language_trial _)).
  cbn. lia.
Defined.

Lemma passes_filters_relaxed
  (strict relaxed : Config.Settings) (a : Article) :
  (Config.allow_protocols strict = true ->
   Config.allow_protocols relaxed = true) ->
  (Config.allow_pediatric strict = true ->
   Config.allow_pediatric relaxed = true) ->
  passes_filters strict a = true -> passes_filters relaxed a = true.
Proof.
  unfold passes_filters, is_protocol_or_letter, is_pediatric_only.
  intros Hpr Hpe H.
  rewrite !andb_true_iff in H. destruct H as [[[[[H1 H2] H3] H4] H5] H6].
  rewrite H1, H2, H3, H4. cbn [andb].
  apply andb_true_iff. split.
  - destruct (Config.allow_protocols relaxed); [reflexivity |].
    destruct (Config.allow_protocols strict);
      [discriminate (Hpr eq_refl) | exact H5].
  - destruct (Config.allow_pediatric relaxed); [reflexivity |].
    destruct (Config.allow_pediatric strict);
      [discriminate (Hpe eq_refl) | exact H6].
Qed.

(** X29.  Allowing protocols or pediatric studies never loses an identity: each
    record kept under the stricter settings has its identity key carried
    by a record kept under the relaxed ones (which may be another record
    with the same DOI or PMID that now comes first). *)
Theorem filter_articles_relaxed
  (strict relaxed : Config.Settings) (articles : list Article) (a : Article) :
  (Config.allow_protocols strict = true ->
   Config.allow_protocols relaxed = true) ->
  (Config.allow_pediatric strict = true ->
   Config.allow_pediatric relaxed = true) ->
  In a (filter_articles strict articles) ->
  exists b, In b (filter_articles relaxed articles)
            /\ carries b (identifier a) = true.
Proof.
  intros Hpr Hpe Hin.
  destruct (filter_articles_passes strict articles a Hin) as (Ha & Hp & Hid).
  unfold filter_articles.
  apply deduplicate_articles_covers; [| exact Hid].
  apply filter_In. split; [exact Ha |].
  now apply (passes_filters_relaxed strict relaxed).
Qed.

Lemma filter_articles_relaxed_witness :
  exists b,
    In b (filter_articles relaxed_settings
            [perioperative_trial; nerve_block_trial])
    /\ carries b (identifier nerve_block_trial) = true.
Proof.
  apply (filter_articles_relaxed shipped_settings relaxed_settings
           [perioperative_trial; nerve_block_trial] nerve_block_trial).
  - intros _. reflexivity.
  - intros _. reflexivity.
  - vm_compute. left. reflexivity.
Defined.

(** X30.  In the chain of the command line the selector cannot come back empty:
    once [filter_articles] leaves at least one record, scoring, sorting
    and selecting return an article, in both modes and whatever the
    history. *)
Theorem selection_after_filtering_succeeds
  (float_str : Q -> string) (settings : Config.Settings)
  (stored : list HistoryEntry) (articles : list Article)
  (allow_repeat : bool) :
  filter_articles settings articles <> [] ->
  exists a r,
    select_top_article float_str stored
      (sort_articles_by_score
         (score_articles (filter_articles settings articles)))
      (negb allow_repeat)
    = Some (a, r).
Proof.
  intros Hne.
  destruct (select_top_article float_str stored _ (negb allow_repeat))
    as [[a r] |] eqn:E; [eauto |].
  exfalso. revert E. apply select_top_article_nonempty.
  intros Hnil. apply Hne.
  apply (f_equal (@List.length Article)) in Hnil.
  unfold sort_articles_by_score in Hnil.
  rewrite (Permutation_length (sorted_desc_perm score_key _)) in Hnil.
  unfold score_articles in Hnil. rewrite length_map in Hnil.
  now apply length_zero_iff_nil.
Qed.

Lemma selection_after_filtering_succeeds_witness :
  exists a r,
    select_top_article float_str_halves history_by_pmid
      (sort_articles_by_score
         (score_articles
            (filter_articles shipped_settings
               [perioperative_trial; nerve_block_trial])))
      (negb false)
    = Some (a, r).
Proof.
  apply (selection_after_filtering_succeeds float_str_halves shipped_settings
           history_by_pmid [perioperative_trial; nerve_block_trial] false).
  vm_compute. discriminate.
Defined.
